(** * Co Penny: the query pipeline, the LLM client and the CSV accessors

    A shallow embedding of the Python sources

      - [llm/llm_client.py]               (module [LLMClient])
      - [agents/parsing_agent.py]         (module [ParsingAgent])
      - [agents/strategy_agent.py]        (module [StrategyAgent])
      - [agents/risk_agent.py]            (module [RiskAgent])
      - [agents/output_agent.py]          (module [OutputAgent])
      - [app/tools/csv_tools.py]          (module [CsvTools])
      - [app/tools/enhanced_csv_tools.py] (module [EnhancedCsvTools])
      - [vectordb/orchestrator.py]        (modules [Orchestrator] and
                                           [DataContext])
      - [llm/json_guard.py]               (modules [Json] and [JsonGuard])
      - [agents/implementation_agent.py]  (module [ImplementationAgent])
      - [vectordb/enhanced_orchestrator.py], with the query parser and the
        month extractor of [app/tools/enhanced_csv_tools.py]
                                          (module [Historical])

    with [query_csv] and [spend_aggregate] of [app/tools/csv_tools.py] in
    the modules [CsvQuery] and [CsvAggregate],

    over a model of the tables read from CSV files (module [Frame]) and
    of the Python values the pipeline passes around (module [Val]),

    followed by a runtime to compute with (module [Reference]), the
    scenarios the properties are evaluated on, and the properties of the
    specification, each stated over these definitions; further
    properties of the code close the file.

    Conventions.  A Python [str] is a [string]: a sequence of characters
    with code point below 256.  A Python object of the kinds the pipeline
    handles (None, bool, int, float, str, list, dict) is a [value].  A
    Python computation that may raise is a [result]; one that also calls
    out to the LLM, the knowledge store and the other collaborators is
    a computation [M] over the [trace] of those calls. *)

From Stdlib Require Import Bool Arith ZArith Lia List String Ascii Sorted.
From Stdlib Require Import Floats DecimalString.
Import ListNotations.

Set Warnings "-register-all".

Open Scope string_scope.
Open Scope list_scope.
Open Scope Z_scope.

(** String concatenation, written apart from list concatenation. *)
Infix "+++" := String.append (at level 60, right associativity).

(* ===================================================================== *)
(** * Python strings                                                      *)
(* ===================================================================== *)

Module Py.

(** The double quote, LF and TAB, which string literals here do not hold. *)
Definition dq : string := String (ascii_of_nat 34) EmptyString.
Definition nl : string := String (ascii_of_nat 10) EmptyString.
Definition quoted (s : string) : string := dq +++ s +++ dq.

Definition code (c : ascii) : nat := nat_of_ascii c.

Definition between (lo hi n : nat) : bool := (lo <=? n)%nat && (n <=? hi)%nat.

(** [str.isspace] on one character: TAB..CR, FS..US, SPACE, NEL, NBSP. *)
Definition is_space (c : ascii) : bool :=
  let n := code c in
  between 9 13 n || between 28 32 n || (n =? 133)%nat || (n =? 160)%nat.

(** [str.lower] on one character: A..Z and the Latin-1 capitals
    (U+00C0..U+00DE but the multiplication sign) move up by 32. *)
Definition lower_char (c : ascii) : ascii :=
  let n := code c in
  if between 65 90 n || (between 192 222 n && negb (n =? 215)%nat)
  then ascii_of_nat (n + 32) else c.

Fixpoint lower (s : string) : string :=
  match s with
  | EmptyString => EmptyString
  | String c r => String (lower_char c) (lower r)
  end.

Fixpoint lstrip (s : string) : string :=
  match s with
  | String c r => if is_space c then lstrip r else s
  | EmptyString => EmptyString
  end.

(** [rstrip]: a character is kept when something that is kept follows it,
    or when it is no space. *)
Fixpoint rstrip (s : string) : string :=
  match s with
  | EmptyString => EmptyString
  | String c r =>
      match rstrip r with
      | EmptyString => if is_space c then EmptyString else String c EmptyString
      | r' => String c r'
      end
  end.

(** [s.strip()] *)
Definition strip (s : string) : string := rstrip (lstrip s).

(** [len(s)] *)
Definition len (s : string) : Z := Z.of_nat (String.length s).

(** [s[:n]] for a literal [n >= 0]. *)
Fixpoint take (n : nat) (s : string) : string :=
  match n, s with
  | S k, String c r => String c (take k r)
  | _, _ => EmptyString
  end.

(** [s.startswith(p)] *)
Fixpoint startswith (p s : string) : bool :=
  match p, s with
  | EmptyString, _ => true
  | String a p', String b s' => Ascii.eqb a b && startswith p' s'
  | String _ _, EmptyString => false
  end.

(** [p in s] for strings: [p] occurs in [s] as a substring. *)
Fixpoint contains (p s : string) : bool :=
  startswith p s ||
  match s with
  | EmptyString => false
  | String _ r => contains p r
  end.

(** [s.endswith(p)] *)
Definition endswith (p s : string) : bool :=
  let n := String.length s in
  let k := String.length p in
  (k <=? n)%nat && String.eqb (String.substring (n - k) k s) p.

(** [s[:-k]]: all but the last [k] characters. *)
Definition drop_last (k : nat) (s : string) : string :=
  take (String.length s - k) s.

(** [x in xs] for a list of strings. *)
Definition mem (x : string) (xs : list string) : bool :=
  existsb (String.eqb x) xs.

(** [any(w in s for w in words)] *)
Definition any_in (words : list string) (s : string) : bool :=
  existsb (fun w => contains w s) words.

(** [sep.join(parts)] *)
Fixpoint join (sep : string) (parts : list string) : string :=
  match parts with
  | [] => EmptyString
  | [p] => p
  | p :: rest => p +++ sep +++ join sep rest
  end.

(** [s.split()]: the maximal runs of non-space characters, in order.
    [cur] is the run being read, reversed. *)
Definition rev_string (cs : list ascii) : string :=
  fold_left (fun acc c => String c acc) cs EmptyString.

Fixpoint split_go (cur : list ascii) (s : string) : list string :=
  match s with
  | EmptyString =>
      match cur with [] => [] | _ => [rev_string cur] end
  | String c r =>
      if is_space c
      then match cur with
           | [] => split_go [] r
           | _ => rev_string cur :: split_go [] r
           end
      else split_go (c :: cur) r
  end.

Definition split (s : string) : list string := split_go [] s.

(** [xs[-k:]]: the last [k] elements. *)
Definition last_n {A} (k : nat) (xs : list A) : list A :=
  skipn (List.length xs - k) xs.

(** [str(n)] for an int of at most 4300 digits; CPython refuses to print
    a longer one. *)
Definition str_of_Z (z : Z) : string := NilZero.string_of_int (Z.to_int z).

End Py.

(* ===================================================================== *)
(** * Exceptions and results                                              *)
(* ===================================================================== *)

(** A raised exception: its class name and [str(e)].  Every class used
    below derives from [Exception]. *)
Record exn : Type := Exn { exn_class : string; exn_msg : string }.

Inductive result (A : Type) : Type :=
| Ok (a : A)
| Raise (e : exn).
Arguments Ok {A} a.
Arguments Raise {A} e.

Definition RuntimeError (msg : string) : exn := Exn "RuntimeError" msg.
Definition AttributeError (msg : string) : exn := Exn "AttributeError" msg.
Definition TypeError (msg : string) : exn := Exn "TypeError" msg.
Definition ValueError (msg : string) : exn := Exn "ValueError" msg.
Definition UnboundLocalError (var : string) : exn :=
  Exn "UnboundLocalError"
      ("cannot access local variable '" +++ var +++
       "' where it is not associated with a value").
Definition FileNotFoundError (msg : string) : exn := Exn "FileNotFoundError" msg.
Definition OverflowError (msg : string) : exn := Exn "OverflowError" msg.

Definition is_ok {A} (r : result A) : bool :=
  match r with Ok _ => true | Raise _ => false end.

Definition rbind {A B} (r : result A) (k : A -> result B) : result B :=
  match r with Ok a => k a | Raise e => Raise e end.

(** Reading a local variable that no executed branch has assigned. *)
Definition read_local {A} (var : string) (slot : option A) : result A :=
  match slot with
  | Some a => Ok a
  | None => Raise (UnboundLocalError var)
  end.

(* ===================================================================== *)
(** * Python values                                                       *)
(* ===================================================================== *)

Inductive value : Type :=
| VNone
| VBool (b : bool)
| VInt (z : Z)
| VFloat (f : float)
| VStr (s : string)
| VList (l : list value)
| VDict (d : list (string * value)).

(** A [dict] with string keys, in insertion order, each key once. *)
Definition dict : Type := list (string * value).

(** The parts of the Python runtime that are taken as given: [repr(x)] of
    a float, [format(v, spec)], the JSON decoder [json.loads] (a result,
    since it raises [JSONDecodeError] on text that is no JSON document),
    the order in which a [set] of strings is iterated (it follows the hash
    seed of the process), and the currency marker that
    [agents/output_agent.py] prints before an amount, whose middle
    character (U+201A) lies above the characters of [string]. *)
Class PyRuntime : Type := {
  float_repr : float -> string;
  py_format : string -> value -> result string;
  json_loads : string -> result value;
  set_order : list string -> list string;
  currency_mark : string
}.

Module Val.

(** [bool(v)] *)
Definition truthy (v : value) : bool :=
  match v with
  | VNone => false
  | VBool b => b
  | VInt z => negb (z =? 0)
  | VFloat f => negb (PrimFloat.eqb f 0%float)
  | VStr s => negb (String.eqb s "")
  | VList l => match l with [] => false | _ => true end
  | VDict d => match d with [] => false | _ => true end
  end.

(** [a or b] *)
Definition py_or (a b : value) : value := if truthy a then a else b.

Fixpoint lookup (k : string) (d : dict) : option value :=
  match d with
  | [] => None
  | (k', v) :: r => if String.eqb k k' then Some v else lookup k r
  end.

(** [d.get(k)] and [d.get(k, default)] on a dict. *)
Definition get (k : string) (d : dict) : value :=
  match lookup k d with Some v => v | None => VNone end.

Definition get_or (k : string) (default : value) (d : dict) : value :=
  match lookup k d with Some v => v | None => default end.

(** [k in d] *)
Definition has_key (k : string) (d : dict) : bool :=
  match lookup k d with Some _ => true | None => false end.

(** [d[k] = v]: the key keeps its place when present, else is appended. *)
Fixpoint set (k : string) (v : value) (d : dict) : dict :=
  match d with
  | [] => [(k, v)]
  | (k', v') :: r =>
      if String.eqb k k' then (k, v) :: r else (k', v') :: set k v r
  end.

(** [type(v).__name__] *)
Definition type_name (v : value) : string :=
  match v with
  | VNone => "NoneType"
  | VBool _ => "bool"
  | VInt _ => "int"
  | VFloat _ => "float"
  | VStr _ => "str"
  | VList _ => "list"
  | VDict _ => "dict"
  end.

Definition no_attribute (v : value) (attr : string) : exn :=
  AttributeError ("'" +++ type_name v +++ "' object has no attribute '" +++ attr +++ "'").

(** [v.get(k, default)] on any object: only a dict has [get]. *)
Definition getattr_get (k : string) (default : value) (v : value) : result value :=
  match v with
  | VDict d => Ok (get_or k default d)
  | _ => Raise (no_attribute v "get")
  end.

(** [isinstance(v, str)], [isinstance(v, list)], [isinstance(v, dict)] *)
Definition is_str (v : value) : bool := match v with VStr _ => true | _ => false end.
Definition is_list (v : value) : bool := match v with VList _ => true | _ => false end.
Definition is_dict (v : value) : bool := match v with VDict _ => true | _ => false end.

(** A value that is no dict; one that is neither a list nor a dict; one
    that is no dict and, when a list, holds no dict; and a dict whose
    values are all of that kind. *)
Definition no_dict (v : value) : bool := negb (is_dict v).

Definition atom (v : value) : bool :=
  match v with
  | VList _ | VDict _ => false
  | _ => true
  end.

Definition flat (v : value) : bool :=
  match v with
  | VDict _ => false
  | VList l => forallb no_dict l
  | _ => true
  end.

Definition values_flat (d : dict) : bool := forallb (fun kv => flat (snd kv)) d.

(** [v[:n]] followed by iteration: a list gives its first [n] elements, a
    str its first [n] characters; nothing else can be sliced. *)
Fixpoint chars (s : string) : list value :=
  match s with
  | EmptyString => []
  | String c r => VStr (String c EmptyString) :: chars r
  end.

Definition head_slice (n : nat) (v : value) : result (list value) :=
  match v with
  | VList l => Ok (firstn n l)
  | VStr s => Ok (chars (Py.take n s))
  | VDict _ => Raise (TypeError "unhashable type: 'slice'")
  | _ => Raise (TypeError ("'" +++ type_name v +++ "' object is not subscriptable"))
  end.

(** [repr] of a str: single quotes unless the text has one and no double
    quote; the quote, the backslash and the unprintable characters are
    escaped. *)
Definition hex_digit (n : nat) : ascii :=
  if (n <? 10)%nat then ascii_of_nat (48 + n) else ascii_of_nat (87 + n).

Definition hex_escape (c : ascii) : string :=
  let n := Py.code c in
  "\x" +++ String (hex_digit (n / 16)) (String (hex_digit (n mod 16)) EmptyString).

Definition printable (c : ascii) : bool :=
  let n := Py.code c in
  Py.between 32 126 n || (Py.between 161 255 n && negb (n =? 173)%nat).

Definition repr_char (quote : ascii) (c : ascii) : string :=
  let n := Py.code c in
  if Ascii.eqb c quote || (n =? 92)%nat then String (ascii_of_nat 92) (String c EmptyString)
  else if (n =? 9)%nat then "\t"
  else if (n =? 10)%nat then "\n"
  else if (n =? 13)%nat then "\r"
  else if printable c then String c EmptyString
  else hex_escape c.

Fixpoint repr_chars (quote : ascii) (s : string) : string :=
  match s with
  | EmptyString => EmptyString
  | String c r => repr_char quote c +++ repr_chars quote r
  end.

Definition repr_str (s : string) : string :=
  let quote :=
    if Py.contains "'" s && negb (Py.contains Py.dq s)
    then ascii_of_nat 34 else ascii_of_nat 39 in
  String quote (repr_chars quote s) +++ String quote EmptyString.

Section Text.
Context `{PyRuntime}.

(** [repr(v)] *)
Fixpoint repr (v : value) : string :=
  match v with
  | VNone => "None"
  | VBool true => "True"
  | VBool false => "False"
  | VInt z => Py.str_of_Z z
  | VFloat f => float_repr f
  | VStr s => repr_str s
  | VList l => "[" +++ Py.join ", " (map repr l) +++ "]"
  | VDict d =>
      "{" +++ Py.join ", "
                (map (fun kv => let '(k, x) := kv in repr_str k +++ ": " +++ repr x) d)
          +++ "}"
  end.

(** [str(v)], which is what an f-string field [{v}] renders. *)
Definition str (v : value) : string :=
  match v with
  | VStr s => s
  | _ => repr v
  end.

End Text.

End Val.

(* ===================================================================== *)
(** * Extracting JSON from text                                           *)
(* ===================================================================== *)

Module Json.

Definition lbrace : ascii := ascii_of_nat 123.
Definition rbrace : ascii := ascii_of_nat 125.

(** [re.search(r'\{[^{}]*\}', text, re.DOTALL)], giving [m.group()].
    The leftmost match starts at the first opening brace whose next brace
    is a closing one.  [pending] holds, reversed, the text read since the
    last opening brace. *)
Fixpoint search_go (pending : option (list ascii)) (s : string) : option string :=
  match s with
  | EmptyString => None
  | String c r =>
      if Ascii.eqb c lbrace then search_go (Some [c]) r
      else if Ascii.eqb c rbrace then
        match pending with
        | Some acc => Some (Py.rev_string (c :: acc))
        | None => search_go None r
        end
      else search_go (option_map (cons c) pending) r
  end.

Definition search_flat_object (text : string) : option string :=
  search_go None text.

(** A text with no opening brace, as is what follows the first character
    of a match of the pattern. *)
Fixpoint brace_free (s : string) : bool :=
  match s with
  | EmptyString => true
  | String c r => negb (Ascii.eqb c lbrace) && brace_free r
  end.

(** The character class [[a-zA-Z0-9]]. *)
Definition is_alnum (c : ascii) : bool :=
  let n := Py.code c in
  Py.between 48 57 n || Py.between 65 90 n || Py.between 97 122 n.

(** [re.sub(r"^```[a-zA-Z0-9]*\n", "", s)] on a text that starts with the
    fence: the fence, the language tag and the line end go, when the tag
    is followed by a line end. *)
Fixpoint after_tag (s : string) : option string :=
  match s with
  | EmptyString => None
  | String c r =>
      if is_alnum c then after_tag r
      else if (Py.code c =? 10)%nat then Some r
      else None
  end.

Definition sub_opening_fence (s : string) : string :=
  match after_tag (String.substring 3 (String.length s - 3) s) with
  | Some rest => rest
  | None => s
  end.

(** [_strip_code_fences] of [llm/json_guard.py]. *)
Definition _strip_code_fences (s : string) : string :=
  if String.eqb s "" then s
  else
    let s := Py.strip s in
    let s := if Py.startswith "```" s then Py.strip (sub_opening_fence s) else s in
    let s := if Py.endswith "```" s then Py.strip (Py.drop_last 3 s) else s in
    s.

Section Guard.
Context `{PyRuntime}.

(** [validate_json_response] of [llm/json_guard.py]: any failure is
    raised again as a [ValueError]. *)
Definition validate_json_response (txt : string) : result value :=
  match json_loads (_strip_code_fences txt) with
  | Ok v => Ok v
  | Raise e => Raise (ValueError ("Failed to parse JSON response: " +++ exn_msg e))
  end.

(** What [json.loads] makes of an opening brace followed by a text with
    no other: an object none of whose members is an object or a list that
    holds one. *)
Definition flat_decoder : Prop :=
  forall (body : string) (v : value),
    brace_free body = true ->
    json_loads (String lbrace body) = Ok v ->
    exists d, v = VDict d /\
      forall k l, Val.lookup k d = Some (VList l) -> forallb Val.no_dict l = true.

End Guard.

End Json.

(* ===================================================================== *)
(** * Computations over a trace of external calls                         *)
(* ===================================================================== *)

(** What leaves the process, in order.  [EvStage] is the entry into a
    stage of the agent pipeline, recorded so that the path a request takes
    can be read off the trace. *)
Inductive stage : Type :=
| Parsing | Retrieval | Strategy | Risk | Implementation | Output.

Inductive event : Type :=
| EvPost (url : string)
| EvSleep (seconds : float)
| EvComplete (prompt : string)
| EvStage (s : stage).

Definition trace : Type := list event.

(** A computation reads the trace so far and extends it; effects done
    before an exception is raised stay done. *)
Definition M (A : Type) : Type := trace -> result A * trace.

Definition ret {A} (a : A) : M A := fun t => (Ok a, t).

Definition bind {A B} (m : M A) (k : A -> M B) : M B :=
  fun t =>
    match m t with
    | (Ok a, t') => k a t'
    | (Raise e, t') => (Raise e, t')
    end.

Definition raise {A} (e : exn) : M A := fun t => (Raise e, t).

Definition lift {A} (r : result A) : M A := fun t => (r, t).

Definition emit (ev : event) : M unit := fun t => (Ok tt, t ++ [ev]).

(** [try: m  except Exception as e: handler(e)] *)
Definition try_except {A} (m : M A) (handler : exn -> M A) : M A :=
  fun t =>
    match m t with
    | (Ok a, t') => (Ok a, t')
    | (Raise e, t') => handler e t'
    end.

Declare Scope py_scope.
Delimit Scope py_scope with py.
Notation "x <- m ;; k" := (bind m (fun x => k))
  (at level 100, m at next level, right associativity) : py_scope.
Notation "m ;;; k" := (bind m (fun _ => k))
  (at level 100, right associativity) : py_scope.
Open Scope py_scope.

(** Running a computation from the empty trace. *)
Definition run {A} (m : M A) : result A * trace := m [].

Definition is_complete (ev : event) : bool :=
  match ev with EvComplete _ => true | _ => false end.

Definition is_post (ev : event) : bool :=
  match ev with EvPost _ => true | _ => false end.

Definition is_stage (s : stage) (ev : event) : bool :=
  match ev, s with
  | EvStage Parsing, Parsing | EvStage Retrieval, Retrieval
  | EvStage Strategy, Strategy | EvStage Risk, Risk
  | EvStage Implementation, Implementation | EvStage Output, Output => true
  | _, _ => false
  end.

(** The number of LLM completions a trace holds. *)
Definition completions (t : trace) : nat := List.length (filter is_complete t).

Definition posts (t : trace) : nat := List.length (filter is_post t).

Definition ran_stage (s : stage) (t : trace) : bool := existsb (is_stage s) t.

(** The object the agents hold as [self.llm_client]: what its [complete]
    answers to a prompt, as a function of how many completions came
    before.  It returns the text or raises. *)
Record llm_client : Type := {
  answer_at : nat -> string -> result string
}.

(** [llm_client.complete(prompt)] *)
Definition complete (c : llm_client) (prompt : string) : M string :=
  fun t => (answer_at c (completions t) prompt, t ++ [EvComplete prompt]).

(** Lines of a prompt template, joined by line ends. *)
Definition lines (ls : list string) : string := Py.join Py.nl ls.

(** A JSON template line [    "key": rest]. *)
Definition field (key rest : string) : string :=
  "    " +++ Py.quoted key +++ ": " +++ rest.

(* ===================================================================== *)
(** * agents/parsing_agent.py                                             *)
(* ===================================================================== *)

Module ParsingAgent.

Definition greetings : list string :=
  ["hello"; "hi"; "hey"; "good morning"; "good evening"; "how are you"].

(** The dict returned on the fast path. *)
Definition greeting_intent : dict :=
  [ ("query_type", VStr "general_knowledge");
    ("intent", VStr "greeting");
    ("requires_knowledge", VBool false);
    ("requires_transaction_data", VBool false);
    ("requires_market_data", VBool false);
    ("keywords", VList []);
    ("risk_profile_needed", VBool false) ].

(** The locals the first [if]/[elif] chain of [_fallback_parse] assigns:
    a branch that does not assign one leaves it unbound. *)
Record type_locals : Type := {
  query_type : string;
  requires_transaction_data : option bool;
  requires_knowledge : option bool;
  requires_market_data : option bool
}.

Definition classify (query_lower : string) : type_locals :=
  if Py.any_in ["spend"; "expense"; "budget"; "transaction"; "cashflow"] query_lower then
    {| query_type := "transaction_analysis";
       requires_transaction_data := Some true;
       requires_knowledge := Some false;
       requires_market_data := None |}
  else if Py.any_in ["invest"; "portfolio"; "sip"; "mutual fund"; "stock"; "allocation"]
                    query_lower then
    {| query_type := "investment_advice";
       requires_transaction_data := Some false;
       requires_knowledge := Some true;
       requires_market_data := None |}
  else if Py.any_in ["market"; "price"; "nav"; "current"] query_lower then
    {| query_type := "market_question";
       requires_transaction_data := None;
       requires_knowledge := Some true;
       requires_market_data := Some true |}
  else
    {| query_type := "general_knowledge";
       requires_transaction_data := Some false;
       requires_knowledge := Some true;
       requires_market_data := None |}.

Definition major_weight : Z := 75.
Definition minor_weight : Z := 15.

Definition allocation_entry (bucket : string) (percent : Z) : value :=
  VDict [("bucket", VStr bucket); ("percent", VInt percent)].

(** The qualitative split read off an investment query; [None] when
    neither bucket is recognised. *)
Definition infer_allocation (query_lower : string) : option (list value) :=
  let present p := Py.contains p query_lower in
  let major_bucket :=
    if present "blue chip" || present "large cap" then Some "Large Cap / Blue Chip"
    else None in
  let major_bucket :=
    if present "index" || present "nifty" || present "sensex" then
      match major_bucket with
      | Some b => Some b
      | None => Some "Index Funds (Nifty/Sensex)"
      end
    else major_bucket in
  let minor_bucket :=
    if present "mid cap" then Some "Mid Cap"
    else if present "small cap" then Some "Small Cap"
    else if present "tech" || present "technology" || present "new "
    then Some "Emerging/Theme Tech"
    else None in
  let minor_bucket :=
    match major_bucket, minor_bucket with
    | Some _, None => Some "Index Funds (Nifty/Sensex)"
    | _, _ => minor_bucket
    end in
  match major_bucket, minor_bucket with
  | None, None => None
  | _, _ =>
      let first :=
        match major_bucket with
        | Some b => [allocation_entry b major_weight]
        | None => []
        end in
      let second :=
        match minor_bucket with
        | Some b =>
            let remaining :=
              100 - (match major_bucket with Some _ => major_weight | None => 0 end) in
            [allocation_entry b (Z.min minor_weight remaining)]
        | None => []
        end in
      Some (first ++ second)
  end.

(** [_fallback_parse]: keyword matching.  The result dict reads the
    locals in the order of its keys. *)
Definition _fallback_parse (query : string) : result dict :=
  let query_lower := Py.lower query in
  let loc := classify query_lower in
  let keywords :=
    filter (fun w => 3 <? Py.len w) (Py.split query_lower) in
  let inferred_allocation :=
    if String.eqb (query_type loc) "investment_advice"
    then infer_allocation query_lower else None in
  rbind (read_local "requires_knowledge" (requires_knowledge loc)) (fun rk =>
  rbind (read_local "requires_transaction_data" (requires_transaction_data loc)) (fun rt =>
    let result :=
      [ ("query_type", VStr (query_type loc));
        ("intent", VStr (Py.take 100 query));
        ("requires_knowledge", VBool rk);
        ("requires_transaction_data", VBool rt);
        ("requires_market_data", VBool (String.eqb (query_type loc) "market_question"));
        ("keywords", VList (map VStr (firstn 5 keywords)));
        ("risk_profile_needed",
          VBool (Py.contains "risk" query_lower || Py.contains "investment" query_lower)) ] in
    match inferred_allocation with
    | Some ((_ :: _) as alloc) => Ok (Val.set "inferred_allocation" (VList alloc) result)
    | _ => Ok result
    end)).

Section Agent.
Context `{PyRuntime}.

(** One line [role: content] per message of the context. *)
Definition context_line (msg : dict) : string :=
  Val.str (Val.get_or "role" (VStr "user") msg) +++ ": " +++
  Val.str (Val.get_or "content" (VStr "") msg).

Definition parse_prompt (user_query : string) (context : list dict) : string :=
  let context_str :=
    match context with
    | [] => ""
    | _ => Py.join Py.nl (map context_line (Py.last_n 3 context))
    end in
  let context_section :=
    if String.eqb context_str "" then ""
    else "Recent Context:" +++ Py.nl +++ context_str +++ Py.nl +++ Py.nl in
  lines
    [ "Analyze this financial query and extract structured information.";
      "";
      "User Query: " +++ user_query;
      "";
      context_section +++ "Determine:";
      "1. Query type (transaction_analysis, investment_advice, market_question, general_knowledge, portfolio_question, risk_assessment)";
      "2. Whether it requires knowledge retrieval (VectorDB) - for strategy, market insights, education";
      "3. Whether it requires transaction data (CSV/DB) - for spending, budget, cashflow";
      "4. Whether it requires real-time market data - for current prices, NAV, market conditions";
      "5. Key keywords for knowledge search (if applicable)";
      "6. Whether user risk profile is needed";
      "";
      "Respond in JSON format:";
      "{";
      field "query_type" (Py.quoted "string" +++ ",");
      field "intent" (Py.quoted "brief description" +++ ",");
      field "requires_knowledge" "true/false,";
      field "requires_transaction_data" "true/false,";
      field "requires_market_data" "true/false,";
      field "keywords" ("[" +++ Py.quoted "keyword1" +++ ", " +++ Py.quoted "keyword2" +++ "],");
      field "risk_profile_needed" "true/false";
      "}" ].

(** [ParsingAgent.parse_query] *)
Definition parse_query (client : llm_client) (user_query : string)
    (context : list dict) : M value :=
  let query_lower := Py.strip (Py.lower user_query) in
  if Py.mem query_lower greetings || (Py.len query_lower <? 4) then
    ret (VDict greeting_intent)
  else
    try_except
      (response <- complete client (parse_prompt user_query context) ;;
       match Json.search_flat_object response with
       | Some text => lift (json_loads text)
       | None => d <- lift (_fallback_parse user_query) ;; ret (VDict d)
       end)
      (fun _ => d <- lift (_fallback_parse user_query) ;; ret (VDict d)).

End Agent.

End ParsingAgent.

(** A ranked chunk of the knowledge store: [{content, metadata}], the
    metadata holding at least [title] and [type]. *)
Record chunk : Type := {
  content : string;
  metadata : dict
}.

(* ===================================================================== *)
(** * agents/strategy_agent.py                                            *)
(* ===================================================================== *)

Module StrategyAgent.

(** The dict returned when no JSON object is found ([summary] is the head
    of the response) or when anything in the [try] block raised. *)
Definition fallback (summary : string) : dict :=
  [ ("strategy_summary", VStr summary);
    ("recommendations", VList []);
    ("action_items", VList []);
    ("risk_notes", VStr "");
    ("time_horizon", VStr "medium") ].

Section Agent.
Context `{PyRuntime}.

(** [enumerate(knowledge_context[:5], 1)] folded into the text. *)
Fixpoint knowledge_lines (i : Z) (cs : list chunk) : string :=
  match cs with
  | [] => ""
  | c :: r =>
      Py.nl +++ "[" +++ Py.str_of_Z i +++ "] " +++ content c +++ Py.nl +++
      (if Val.truthy (VDict (metadata c))
       then "   Source: " +++ Val.str (Val.get_or "title" (VStr "Unknown") (metadata c)) +++ Py.nl
       else "") +++
      knowledge_lines (i + 1) r
  end.

Definition knowledge_text (knowledge_context : list chunk) : string :=
  match knowledge_context with
  | [] => ""
  | _ => "RELEVANT KNOWLEDGE:" +++ Py.nl +++ knowledge_lines 1 (firstn 5 knowledge_context)
  end.

Definition risk_text (risk_profile : option dict) : string :=
  match risk_profile with
  | Some ((_ :: _) as p) =>
      Py.nl +++ "USER RISK PROFILE:" +++ Py.nl +++
      "- Risk tolerance: " +++ Val.str (Val.get_or "risk_tolerance" (VStr "moderate") p) +++ Py.nl +++
      "- Investment goals: " +++ Val.str (Val.get_or "goals" (VList []) p) +++ Py.nl +++
      "- Time horizon: " +++ Val.str (Val.get_or "time_horizon" (VStr "medium") p) +++ Py.nl
  | _ => ""
  end.

Definition transaction_text (transaction_summary : option dict) : string :=
  match transaction_summary with
  | Some ((_ :: _) as s) =>
      Py.nl +++ "TRANSACTION PATTERNS:" +++ Py.nl +++
      "- Monthly spending: " +++ Val.str (Val.get_or "monthly_spend" (VStr "N/A") s) +++ Py.nl +++
      "- Savings rate: " +++ Val.str (Val.get_or "savings_rate" (VStr "N/A") s) +++ Py.nl +++
      "- Top categories: " +++ Val.str (Val.get_or "top_categories" (VList []) s) +++ Py.nl
  | _ => ""
  end.

Definition market_text (market_context : option dict) : string :=
  match market_context with
  | Some ((_ :: _) as m) =>
      Py.nl +++ "CURRENT MARKET CONTEXT:" +++ Py.nl +++
      "- Market conditions: " +++ Val.str (Val.get_or "conditions" (VStr "N/A") m) +++ Py.nl +++
      "- Key indicators: " +++ Val.str (Val.get_or "indicators" (VDict []) m) +++ Py.nl
  | _ => ""
  end.

Definition strategy_prompt (user_query : string) (knowledge_context : list chunk)
    (risk_profile transaction_summary market_context : option dict) : string :=
  lines
    [ "You are a financial strategy advisor. Generate a personalized investment strategy based on the provided context.";
      "";
      "USER QUERY: " +++ user_query;
      "";
      knowledge_text knowledge_context;
      "";
      risk_text risk_profile;
      "";
      transaction_text transaction_summary;
      "";
      market_text market_context;
      "";
      "Generate a comprehensive strategy recommendation in JSON format:";
      "{";
      field "strategy_summary" (Py.quoted "Brief 2-3 sentence summary" +++ ",");
      field "recommendations" "[";
      "        {";
      "        " +++ field "category" (Py.quoted "string (e.g., Equity, Debt, Hybrid)" +++ ",");
      "        " +++ field "allocation_percentage" "number,";
      "        " +++ field "rationale" (Py.quoted "why this allocation" +++ ",");
      "        " +++ field "specific_products"
                     ("[" +++ Py.quoted "product1" +++ ", " +++ Py.quoted "product2" +++ "] (optional)");
      "        }";
      "    ],";
      field "action_items" ("[" +++ Py.quoted "action1" +++ ", " +++ Py.quoted "action2" +++ "],");
      field "risk_notes" (Py.quoted "risk considerations" +++ ",");
      field "time_horizon" (Py.quoted "short/medium/long term focus");
      "}";
      "";
      "Be specific, data-driven, and align with the user's risk profile and goals." ].

(** [StrategyAgent.generate_strategy] *)
Definition generate_strategy (client : llm_client) (user_query : string)
    (knowledge_context : list chunk)
    (risk_profile transaction_summary market_context : option dict) : M value :=
  let prompt :=
    strategy_prompt user_query knowledge_context risk_profile
                    transaction_summary market_context in
  try_except
    (response <- complete client prompt ;;
     match Json.search_flat_object response with
     | Some text => lift (json_loads text)
     | None => ret (VDict (fallback (Py.take 200 response)))
     end)
    (fun e =>
       ret (VDict (fallback ("Strategy generation encountered an error: " +++ exn_msg e)))).

End Agent.

End StrategyAgent.

(* ===================================================================== *)
(** * agents/risk_agent.py                                                *)
(* ===================================================================== *)

Module RiskAgent.

(** The assessment used when the response holds no JSON object. *)
Definition fallback_no_json : dict :=
  [ ("risk_alignment", VStr "medium");
    ("risk_score", VInt 5);
    ("adjustments_needed", VBool false);
    ("adjusted_recommendations", VList []);
    ("risk_warnings", VList []);
    ("suitability", VStr "suitable") ].

(** The assessment returned when the [try] block raised. *)
Definition fallback_error (e : exn) : dict :=
  [ ("risk_alignment", VStr "unknown");
    ("risk_score", VInt 5);
    ("adjustments_needed", VBool false);
    ("adjusted_recommendations", VList []);
    ("risk_warnings", VList [VStr ("Risk assessment error: " +++ exn_msg e)]);
    ("suitability", VStr "unknown") ].

(** The default profile of [get_risk_profile]. *)
Definition default_profile : dict :=
  [ ("risk_tolerance", VStr "moderate");
    ("goals", VList [VStr "wealth_creation"; VStr "retirement"]);
    ("time_horizon", VStr "medium") ].

(** Where profiles are kept: the document store (what
    [get_user_profile] gives for a user when the store is connected and
    answers) and the decoded [state/profile.json] when it is there and
    decodes. *)
Record profile_store : Type := {
  stored_profile : string -> option value;
  profile_file : option value
}.

Definition profile_view (profile : dict) : dict :=
  [ ("risk_tolerance", Val.get_or "risk_preference" (VStr "moderate") profile);
    ("goals", Val.get_or "goals" (VList []) profile);
    ("time_horizon", Val.get_or "time_horizon" (VStr "medium") profile) ].

(** [RiskAgent.get_risk_profile]: every failure on the way falls through
    to the next source. *)
Definition get_risk_profile (store : profile_store) (user_id : option string) : dict :=
  let from_file :=
    match profile_file store with
    | Some (VDict p) => profile_view p
    | _ => default_profile
    end in
  match user_id with
  | Some uid =>
      if String.eqb uid "" then from_file
      else
        match stored_profile store uid with
        | Some (VDict ((_ :: _) as p)) => profile_view p ++ [("user_id", VStr uid)]
        | _ => from_file
        end
  | None => from_file
  end.

Section Agent.
Context `{PyRuntime}.

Fixpoint risk_guidance (cs : list chunk) : string :=
  match cs with
  | [] => ""
  | c :: r =>
      (match Val.get "type" (metadata c) with
       | VStr "risk_guidance" => "- " +++ content c +++ Py.nl
       | _ => ""
       end) +++ risk_guidance r
  end.

Definition risk_knowledge (knowledge_context : list chunk) : string :=
  match knowledge_context with
  | [] => ""
  | _ => "RISK GUIDANCE:" +++ Py.nl +++ risk_guidance knowledge_context
  end.

(** The prompt; reading the strategy raises when it is no dict. *)
Definition risk_prompt (strategy : value) (risk_profile : dict)
    (knowledge_context : list chunk) : result string :=
  let user_risk := Val.get_or "risk_tolerance" (VStr "moderate") risk_profile in
  let user_goals := Val.get_or "goals" (VList []) risk_profile in
  rbind (Val.getattr_get "strategy_summary" (VStr "N/A") strategy) (fun summary =>
  rbind (Val.getattr_get "recommendations" (VList []) strategy) (fun recs =>
  Ok (lines
    [ "You are a risk assessment specialist. Validate and adjust investment strategy based on risk profile.";
      "";
      "USER RISK PROFILE:";
      "- Risk tolerance: " +++ Val.str user_risk;
      "- Goals: " +++ Val.str user_goals;
      "- Time horizon: " +++ Val.str (Val.get_or "time_horizon" (VStr "medium") risk_profile);
      "";
      "PROPOSED STRATEGY:";
      Val.str summary;
      "Recommendations: " +++ Val.str recs;
      "";
      risk_knowledge knowledge_context;
      "";
      "Assess and provide risk-adjusted feedback in JSON:";
      "{";
      field "risk_alignment"
            (Py.quoted "high/medium/low (how well strategy matches risk profile)" +++ ",");
      field "risk_score" "number (1-10, where 10 is highest risk),";
      field "adjustments_needed" "true/false,";
      field "adjusted_recommendations" "[";
      "        {";
      "        " +++ field "category" (Py.quoted "string" +++ ",");
      "        " +++ field "original_allocation" "number,";
      "        " +++ field "adjusted_allocation" "number,";
      "        " +++ field "reason" (Py.quoted "why adjustment needed");
      "        }";
      "    ],";
      field "risk_warnings" ("[" +++ Py.quoted "warning1" +++ ", " +++ Py.quoted "warning2" +++ "],");
      field "suitability" (Py.quoted "suitable/moderately_suitable/not_suitable");
      "}" ]))).

(** [RiskAgent.assess_risk] *)
Definition assess_risk (client : llm_client) (strategy : value) (risk_profile : dict)
    (knowledge_context : list chunk) : M value :=
  prompt <- lift (risk_prompt strategy risk_profile knowledge_context) ;;
  try_except
    (response <- complete client prompt ;;
     match Json.search_flat_object response with
     | Some text => lift (json_loads text)
     | None => ret (VDict fallback_no_json)
     end)
    (fun e => ret (VDict (fallback_error e))).

End Agent.

End RiskAgent.

(* ===================================================================== *)
(** * agents/output_agent.py                                              *)
(* ===================================================================== *)

Module OutputAgent.

(** The elements of a list without repeats, first occurrences kept. *)
Fixpoint distinct (seen xs : list string) : list string :=
  match xs with
  | [] => []
  | x :: r => if Py.mem x seen then distinct seen r else x :: distinct (x :: seen) r
  end.

Section Agent.
Context `{PyRuntime}.

(** The recommendations that are rendered:
    [risk_assessment.get('adjusted_recommendations') or
     strategy.get('recommendations', [])]. *)
Definition chosen_recommendations (strategy risk_assessment : value) : result value :=
  rbind (Val.getattr_get "adjusted_recommendations" VNone risk_assessment) (fun adjusted =>
    if Val.truthy adjusted then Ok adjusted
    else Val.getattr_get "recommendations" (VList []) strategy).

(** One bullet of the allocation list. *)
Definition recommendation_line (rec : value) : result string :=
  rbind (Val.getattr_get "adjusted_allocation" VNone rec) (fun adjusted =>
  rbind (if Val.truthy adjusted then Ok adjusted
         else Val.getattr_get "allocation_percentage" (VInt 0) rec) (fun allocation =>
  rbind (Val.getattr_get "category" (VStr "Unknown") rec) (fun category =>
  rbind (Val.getattr_get "rationale" (VStr "") rec) (fun rationale =>
    Ok ("- **" +++ Val.str category +++ "**: " +++ Val.str allocation +++ "% - " +++
        Val.str rationale))))).

(** [for x in xs: parts.append(f x)], stopping at the first exception. *)
Fixpoint map_result {A B} (f : A -> result B) (xs : list A) : result (list B) :=
  match xs with
  | [] => Ok []
  | x :: r => rbind (f x) (fun y => rbind (map_result f r) (fun ys => Ok (y :: ys)))
  end.

(** The block the recommendations contribute to [answer_parts]. *)
Definition recommendation_block (recommendations : value) : result (list string) :=
  if Val.truthy recommendations then
    rbind (Val.head_slice 5 recommendations) (fun recs =>
    rbind (map_result recommendation_line recs) (fun ls =>
      Ok ((Py.nl +++ "**Recommended Allocation:**") :: ls)))
  else Ok [].

Definition summary_block (strategy : value) : result (list string) :=
  rbind (Val.getattr_get "strategy_summary" VNone strategy) (fun summary =>
    if Val.truthy summary
    then Ok ["**Investment Strategy:**" +++ Py.nl +++ Val.str summary]
    else Ok []).

Definition bullet (v : value) : string := "- " +++ Val.str v.

Definition warnings_block (risk_assessment : value) : result (list string) :=
  rbind (Val.getattr_get "risk_warnings" VNone risk_assessment) (fun warnings =>
    if Val.truthy warnings then
      rbind (Val.getattr_get "risk_warnings" (VList []) risk_assessment) (fun ws =>
      rbind (Val.head_slice 3 ws) (fun items =>
        Ok ((Py.nl +++ "**Risk Considerations:**") :: map bullet items)))
    else Ok []).

Definition patterns_block (transaction_insights : option dict) : result (list string) :=
  match transaction_insights with
  | Some ((_ :: _) as ti) =>
      rbind (if Val.truthy (Val.get "monthly_spend" ti)
             then rbind (py_format ",.0f" (Val.get_or "monthly_spend" (VInt 0) ti)) (fun a =>
                    Ok ["- Monthly spending: " +++ currency_mark +++ a])
             else Ok []) (fun spend =>
      rbind (if Val.truthy (Val.get "savings_rate" ti)
             then rbind (py_format ".1f" (Val.get_or "savings_rate" (VInt 0) ti)) (fun a =>
                    Ok ["- Savings rate: " +++ a +++ "%"])
             else Ok []) (fun rate =>
        Ok ((Py.nl +++ "**Your Financial Patterns:**") :: spend ++ rate)))
  | _ => Ok []
  end.

Definition actions_block (strategy : value) : result (list string) :=
  rbind (Val.getattr_get "action_items" VNone strategy) (fun actions =>
    if Val.truthy actions then
      rbind (Val.getattr_get "action_items" (VList []) strategy) (fun xs =>
      rbind (Val.head_slice 5 xs) (fun items =>
        Ok ((Py.nl +++ "**Next Steps:**") :: map bullet items)))
    else Ok []).

(** The title a chunk adds to the set of sources: nothing when it is
    falsy; a title that is no str cannot be joined. *)
Definition source_title (c : chunk) : result (list string) :=
  match Val.get_or "title" (VStr "Unknown") (metadata c) with
  | VStr s => Ok (if String.eqb s "" then [] else [s])
  | v => if Val.truthy v
         then Raise (TypeError ("sequence item 0: expected str instance, " +++
                                Val.type_name v +++ " found"))
         else Ok []
  end.

Definition sources_block (knowledge_sources : list chunk) : result (list string) :=
  rbind (map_result source_title (firstn 3 knowledge_sources)) (fun titles =>
    match distinct [] (List.concat titles) with
    | [] => Ok []
    | sources =>
        Ok [Py.nl +++ "*Based on insights from: " +++
            Py.join ", " (set_order sources) +++ "*"]
    end).

(** [answer_parts] at the end of [format_response]. *)
Definition answer_parts (strategy risk_assessment : value)
    (transaction_insights : option dict) (knowledge_sources : list chunk)
    : result (list string) :=
  rbind (summary_block strategy) (fun p1 =>
  rbind (chosen_recommendations strategy risk_assessment) (fun recommendations =>
  rbind (recommendation_block recommendations) (fun p2 =>
  rbind (warnings_block risk_assessment) (fun p3 =>
  rbind (patterns_block transaction_insights) (fun p4 =>
  rbind (actions_block strategy) (fun p5 =>
  rbind (sources_block knowledge_sources) (fun p6 =>
    Ok (p1 ++ p2 ++ p3 ++ p4 ++ p5 ++ p6)))))))).

(** [OutputAgent.format_response] *)
Definition format_response (user_query : string) (strategy risk_assessment : value)
    (transaction_insights : option dict) (knowledge_sources : list chunk)
    : result dict :=
  rbind (answer_parts strategy risk_assessment transaction_insights knowledge_sources)
        (fun parts =>
  rbind (Val.getattr_get "risk_score" (VInt 5) risk_assessment) (fun score =>
  rbind (Val.getattr_get "risk_alignment" (VStr "medium") risk_assessment) (fun alignment =>
  rbind (Val.getattr_get "suitability" (VStr "suitable") risk_assessment) (fun suitability =>
    Ok [ ("answer", VStr (Py.join Py.nl parts));
         ("status", VStr "success");
         ("type", VStr "strategy_recommendation");
         ("metadata",
           VDict [ ("risk_score", score);
                   ("risk_alignment", alignment);
                   ("suitability", suitability);
                   ("knowledge_sources_count",
                     VInt (Z.of_nat (List.length knowledge_sources))) ]);
         ("data", VDict [ ("strategy", strategy);
                          ("risk_assessment", risk_assessment) ]) ])))).

(** [OutputAgent.format_simple_response] *)
Definition format_simple_response (answer : string) (knowledge_sources : list chunk)
    : dict :=
  let response :=
    [ ("answer", VStr answer); ("status", VStr "success"); ("type", VStr "text") ] in
  match knowledge_sources with
  | [] => response
  | _ =>
      let sources :=
        map (fun c => Val.get_or "title" (VStr "Unknown") (metadata c))
            (firstn 3 knowledge_sources) in
      Val.set "metadata" (VDict [("knowledge_sources", VList sources)]) response
  end.

End Agent.

End OutputAgent.

(* ===================================================================== *)
(** * Tables read from CSV files                                          *)
(* ===================================================================== *)

(** A CSV file as pandas and DuckDB see it once read.  A cell is a number,
    a text, a text that reads as a calendar date, or missing.  Sums are
    taken from left to right; the engines may add in another order, which
    gives the same double whenever the additions are exact. *)
Module Frame.

Inductive cell : Type :=
| CNum (f : float)
| CStr (s : string)
| CDate (y m d : Z)
| CNull.

Record frame : Type := {
  columns : list string;
  rows : list (list cell)
}.

(** What is at a path: a file with no header line, for which
    [pd.read_csv] raises [EmptyDataError], or a table. *)
Inductive csv_file : Type :=
| EmptyCsv
| Csv (df : frame).

Fixpoint index_of (c : string) (cols : list string) : option nat :=
  match cols with
  | [] => None
  | c' :: r => if String.eqb c c' then Some O else option_map S (index_of c r)
  end.

(** [c in df.columns] *)
Definition has_column (df : frame) (c : string) : bool := Py.mem c (columns df).

Definition cell_at (df : frame) (col : string) (row : list cell) : cell :=
  match index_of col (columns df) with
  | Some i => nth i row CNull
  | None => CNull
  end.

(** [next((c for c in candidates if c in df.columns), None)] *)
Definition first_present (candidates : list string) (df : frame) : option string :=
  find (has_column df) candidates.

Definition date : Type := (Z * Z * Z)%type.

(** [pd.to_datetime(..., errors="coerce")] and the SQL date expression:
    a cell that is no date is NaT / NULL. *)
Definition date_of (c : cell) : option date :=
  match c with
  | CDate y m d => Some (y, m, d)
  | _ => None
  end.

Definition is_nan (x : float) : bool := negb (PrimFloat.eqb x x).

(** [pd.to_numeric(..., errors="coerce")]: what is no number is missing. *)
Definition coerce_number (c : cell) : option float :=
  match c with
  | CNum f => if is_nan f then None else Some f
  | _ => None
  end.

(** An amount that is summed as it stands ([CAST(... AS DOUBLE)], or a
    pandas sum over the raw column): a text there makes the engine raise. *)
Definition number_of (c : cell) : result (option float) :=
  match c with
  | CNum f => Ok (if is_nan f then None else Some f)
  | CNull => Ok None
  | _ => Raise (ValueError "could not convert string to float")
  end.

(** The sum of the amounts that are there. *)
Definition fsum (xs : list (option float)) : float :=
  fold_left (fun acc x => match x with Some f => (acc + f)%float | None => acc end)
            xs 0%float.

Definition all_missing (xs : list (option float)) : bool :=
  forallb (fun x => match x with None => true | Some _ => false end) xs.

(** [x or 0.0] *)
Definition or_zero (x : float) : float :=
  if PrimFloat.eqb x 0%float then 0%float else x.

(** The quotient of [n] by [d > 0], rounded to the nearest integer, ties
    to the even one. *)
Definition div_half_even (n d : Z) : Z :=
  let q := n / d in
  let r := n mod d in
  match 2 * r ?= d with
  | Lt => q
  | Gt => q + 1
  | Eq => if Z.even q then q else q + 1
  end.

(** [round(x, ndigits)] for [ndigits >= 0]: the double nearest to the
    exact value of [x] rounded half-even at that decimal place. *)
Definition py_round (x : float) (ndigits : Z) : float :=
  match Prim2SF x with
  | S754_finite s m e =>
      let p := 10 ^ ndigits in
      let n := if 0 <=? e then Z.pos m * 2 ^ e * p
               else div_half_even (Z.pos m * p) (2 ^ (- e)) in
      match n with
      | Z.pos k =>
          SF2Prim (SFdiv prec emax (S754_finite s k 0) (S754_finite false (Z.to_pos p) 0))
      | _ => if s then (- 0)%float else 0%float
      end
  | _ => x
  end.

(** [round(float(x or 0.0), 2)] *)
Definition spent_value (x : float) : value := VFloat (py_round (or_zero x) 2).

Definition pad2 (z : Z) : string :=
  if z <? 10 then "0" +++ Py.str_of_Z z else Py.str_of_Z z.

Definition pad4 (z : Z) : string :=
  (if z <? 10 then "000" else if z <? 100 then "00" else if z <? 1000 then "0" else "")
  +++ Py.str_of_Z z.

(** [ds.dt.to_period("M").astype(str)] and [ds.dt.date.astype(str)] *)
Definition period_month (d : option date) : string :=
  match d with
  | Some (y, m, _) => pad4 y +++ "-" +++ pad2 m
  | None => "NaT"
  end.

Definition iso_day (d : option date) : string :=
  match d with
  | Some (y, m, dd) => pad4 y +++ "-" +++ pad2 m +++ "-" +++ pad2 dd
  | None => "NaT"
  end.

(** Rows grouped by a key, the groups in the order their keys first
    occur, each with the amounts of its rows in order. *)
Fixpoint add_to_group {K} (eqk : K -> K -> bool) (k : K) (x : option float)
    (groups : list (K * list (option float))) : list (K * list (option float)) :=
  match groups with
  | [] => [(k, [x])]
  | (k', xs) :: r =>
      if eqk k k' then (k', xs ++ [x]) :: r
      else (k', xs) :: add_to_group eqk k x r
  end.

Definition group_by {K} (eqk : K -> K -> bool) (keyed : list (K * option float))
    : list (K * list (option float)) :=
  fold_left (fun groups kx => add_to_group eqk (fst kx) (snd kx) groups) keyed [].

(** Insertion sort, stable: [x] goes before the first element that
    [before x] accepts. *)
Fixpoint insert_by {A} (before : A -> A -> bool) (x : A) (l : list A) : list A :=
  match l with
  | [] => [x]
  | y :: r => if before x y then x :: y :: r else y :: insert_by before x r
  end.

Definition sort_by {A} (before : A -> A -> bool) (l : list A) : list A :=
  fold_right (insert_by before) [] l.

(** Descending by amount, NaN last: [x] goes before [y] unless [y] is
    greater. *)
Definition not_less (x y : float) : bool :=
  negb ((x <? y)%float || (is_nan x && negb (is_nan y))).

Definition sort_desc {K} (l : list (K * float)) : list (K * float) :=
  sort_by (fun a b => not_less (snd a) (snd b)) l.

(** Ascending by key. *)
Definition sort_keys {V} (l : list (string * V)) : list (string * V) :=
  sort_by (fun a b => String.leb (fst a) (fst b)) l.

(** [df.head(n)] *)
Definition head {A} (n : Z) (l : list A) : list A :=
  if 0 <=? n then firstn (Z.to_nat n) l
  else firstn (List.length l - Z.to_nat (- n)) l.

Definition date_eqb (a b : date) : bool :=
  let '(y1, m1, d1) := a in
  let '(y2, m2, d2) := b in
  (y1 =? y2) && (m1 =? m2) && (d1 =? d2).

Definition date_leb (a b : date) : bool :=
  let '(y1, m1, d1) := a in
  let '(y2, m2, d2) := b in
  (y1 <? y2) || ((y1 =? y2) && ((m1 <? m2) || ((m1 =? m2) && (d1 <=? d2)))).

Definition option_date_eqb (a b : option date) : bool :=
  match a, b with
  | Some x, Some y => date_eqb x y
  | None, None => true
  | _, _ => false
  end.

(** Ascending by date, NULL last ([ORDER BY 1]). *)
Definition sort_dates {V} (l : list (option date * V)) : list (option date * V) :=
  sort_by (fun a b => match fst a, fst b with
                      | Some x, Some y => date_leb x y
                      | Some _, None => true
                      | None, Some _ => false
                      | None, None => true
                      end) l.

(** [DATE_TRUNC('month', d)] *)
Definition month_start (d : option date) : option date :=
  match d with
  | Some (y, m, _) => Some (y, m, 1)
  | None => None
  end.

Definition option_string_eqb (a b : option string) : bool :=
  match a, b with
  | Some x, Some y => String.eqb x y
  | None, None => true
  | _, _ => false
  end.

End Frame.

(** Where the CSV accessors run: the repository root, the shared default
    path [DATA_PATH], what is at each path of the file system, whether
    [import duckdb] succeeded, and how [str] prints a DATE cell of a
    DuckDB result frame (NULL included). *)
Record env : Type := {
  _BASE_DIR : string;
  DATA_PATH : string;
  files : string -> option Frame.csv_file;
  _HAS_DUCKDB : bool;
  sql_date_text : option Frame.date -> string
}.

(** [os.path.join]: a part that starts with the separator starts the
    path anew; no separator is added to an empty path or after one. *)
Definition join_step (path part : string) : string :=
  if Py.startswith "/" part then part
  else if String.eqb path "" || Py.endswith "/" path then path +++ part
  else path +++ "/" +++ part.

Definition path_join (parts : list string) : string :=
  match parts with
  | [] => ""
  | first :: rest => fold_left join_step rest first
  end.

Fixpoint replace_char (a b : ascii) (s : string) : string :=
  match s with
  | EmptyString => EmptyString
  | String c r => String (if Ascii.eqb c a then b else c) (replace_char a b r)
  end.

(** [normalize_user_id] of [app/tools/csv_tools.py] *)
Definition normalize_user_id (user_id : option string) : string :=
  match user_id with
  | None => "guest"
  | Some u =>
      if String.eqb u "" then "guest"
      else Py.strip (replace_char " " "_" (replace_char "." "_" u))
  end.

Section Paths.
Variable E : env.

(** [os.path.exists] *)
Definition path_exists (path : string) : bool :=
  match files E path with Some _ => true | None => false end.

(** [get_user_csv_path], the same in both CSV modules. *)
Definition get_user_csv_path (user_id : option string) : option string :=
  let shared := if path_exists (DATA_PATH E) then Some (DATA_PATH E) else None in
  match user_id with
  | Some u =>
      if String.eqb u "" then shared
      else
        let user_path :=
          path_join [_BASE_DIR E; "state"; "models"; "user_data";
                     normalize_user_id user_id; "transactions.csv"] in
        if path_exists user_path then Some user_path else shared
  | None => shared
  end.

(** [csv_path or get_user_csv_path(user_id)] *)
Definition resolve_path (csv_path user_id : option string) : option string :=
  match csv_path with
  | Some p => if String.eqb p "" then get_user_csv_path user_id else Some p
  | None => get_user_csv_path user_id
  end.

(** [_ensure_csv_exists] *)
Definition _ensure_csv_exists (path : string) : result unit :=
  if path_exists path then Ok tt
  else Raise (FileNotFoundError ("CSV not found at " +++ path)).

(** [pd.read_csv(path)] on a path that exists. *)
Definition read_csv (path : string) : result Frame.frame :=
  match files E path with
  | Some (Frame.Csv df) => Ok df
  | Some Frame.EmptyCsv => Raise (Exn "EmptyDataError" "No columns to parse from file")
  | None => Raise (FileNotFoundError ("[Errno 2] No such file or directory: '" +++ path +++ "'"))
  end.

End Paths.

(* ===================================================================== *)
(** * app/tools/enhanced_csv_tools.py                                     *)
(* ===================================================================== *)

Module EnhancedCsvTools.
Import Frame.

Definition _detect_columns (df : frame) : option string * option string * option string :=
  (first_present ["ts"; "date"; "Date"; "DATE"] df,
   first_present ["amount"; "Amount"; "AMOUNT"; "monthly_expense_total"] df,
   first_present ["category"; "Category"; "CATEGORY"] df).

Definition _merchant_column (df : frame) : option string :=
  first_present ["merchant"; "description"; "narration"; "Merchant"; "Description"] df.

(** What [_ym_filter_clause] selects, and the pandas masks
    [ds.dt.year == int(year)], [ds.dt.month == int(month)]: a row with no
    date passes only when nothing is asked. *)
Definition ym_matches (year month : option Z) (d : option date) : bool :=
  (match year with
   | None => true
   | Some y => match d with Some (y', _, _) => y' =? y | None => false end
   end) &&
  (match month with
   | None => true
   | Some m => match d with Some (_, m', _) => m' =? m | None => false end
   end).

Definition opt_int (z : option Z) : value :=
  match z with Some n => VInt n | None => VNone end.

Definition note (key : string) (empty : value) (text : string) : dict :=
  [(key, empty); ("notes", VStr text)].

Section Tools.
Context `{PyRuntime}.
Variable E : env.

(** The dates of the rows, or none when there is no date column. *)
Definition row_date (df : frame) (date_col : option string) (row : list cell)
    : option date :=
  match date_col with
  | Some c => date_of (cell_at df c row)
  | None => None
  end.

(** The rows the year and month filters keep; without a date column the
    filters are not applied. *)
Definition filter_rows (df : frame) (date_col : option string) (year month : option Z)
    : list (list cell) :=
  match date_col with
  | Some _ => filter (fun r => ym_matches year month (row_date df date_col r)) (rows df)
  | None => rows df
  end.

(** Every amount of the table as a DOUBLE, with its row. *)
Definition cast_amounts (df : frame) (amount_col : string) (rs : list (list cell))
    : result (list (list cell * option float)) :=
  OutputAgent.map_result
    (fun r => rbind (number_of (cell_at df amount_col r)) (fun x => Ok (r, x))) rs.

(** [total_spend] *)
Definition total_spend (year month : option Z) (csv_path user_id : option string)
    : result dict :=
  match resolve_path E csv_path user_id with
  | None => Ok (note "total" (VFloat 0) "No data available")
  | Some path =>
      rbind (_ensure_csv_exists E path) (fun _ =>
      rbind (read_csv E path) (fun df =>
        let '(date_col, amount_col, _) := _detect_columns df in
        match amount_col with
        | None => Ok (note "total" (VFloat 0) "amount column not found")
        | Some amt =>
            let echo total :=
              [("year", opt_int year); ("month", opt_int month); ("total", total)] in
            if _HAS_DUCKDB E then
              rbind (cast_amounts df amt (rows df)) (fun cast =>
                let kept :=
                  match date_col with
                  | Some _ =>
                      filter (fun rx => ym_matches year month (row_date df date_col (fst rx)))
                             cast
                  | None => cast
                  end in
                Ok (echo (spent_value (fsum (map snd kept)))))
            else
              let kept := filter_rows df date_col year month in
              Ok (echo (VFloat (py_round
                                  (or_zero (fsum (map (fun r => coerce_number (cell_at df amt r))
                                                      kept))) 2)))
        end))
  end.

(** The items of a frame of groups. *)
Definition items_of (label : string) (groups : list (string * float)) : value :=
  VList (map (fun g => VDict [(label, VStr (fst g)); ("spent", spent_value (snd g))]) groups).

(** A DuckDB [SUM] over a group: NULL, read back as NaN, when no amount
    is there. *)
Definition sql_sum (xs : list (option float)) : float :=
  if all_missing xs then nan else fsum xs.

(** [monthly_spend].  With DuckDB and a year, the filter names the column
    [d], which the query's [s] does not have, and the engine refuses the
    query. *)
Definition monthly_spend (year : option Z) (csv_path user_id : option string)
    : result dict :=
  match resolve_path E csv_path user_id with
  | None => Ok (note "items" (VList []) "No data available")
  | Some path =>
      rbind (_ensure_csv_exists E path) (fun _ =>
      rbind (read_csv E path) (fun df =>
        let '(date_col, amount_col, _) := _detect_columns df in
        match date_col, amount_col with
        | Some dc, Some amt =>
            let echo items := [("year", opt_int year); ("items", items)] in
            if _HAS_DUCKDB E then
              match year with
              | Some _ =>
                  Raise (Exn "BinderException"
                             "Referenced column d not found in FROM clause")
              | None =>
                  rbind (cast_amounts df amt (rows df)) (fun cast =>
                    let keyed :=
                      map (fun rx => (month_start (row_date df date_col (fst rx)), snd rx))
                          cast in
                    let groups :=
                      map (fun g => (sql_date_text E (fst g), sql_sum (snd g)))
                          (sort_dates (group_by option_date_eqb keyed)) in
                    Ok (echo (items_of "month" groups)))
              end
            else
              let kept := filter_rows df date_col year None in
              rbind (cast_amounts df amt kept) (fun cast =>
                let keyed :=
                  map (fun rx => (period_month (row_date df date_col (fst rx)), snd rx)) cast in
                let groups :=
                  map (fun g => (fst g, fsum (snd g))) (group_by String.eqb keyed) in
                Ok (echo (items_of "month" (sort_keys groups))))
        | _, _ => Ok (note "items" (VList []) "date/amount columns not found")
        end))
  end.

(** [daily_spend] *)
Definition daily_spend (year month : option Z) (csv_path user_id : option string)
    : result dict :=
  match resolve_path E csv_path user_id with
  | None => Ok (note "items" (VList []) "No data available")
  | Some path =>
      rbind (_ensure_csv_exists E path) (fun _ =>
      rbind (read_csv E path) (fun df =>
        let '(date_col, amount_col, _) := _detect_columns df in
        match date_col, amount_col with
        | Some dc, Some amt =>
            let echo items :=
              [("year", opt_int year); ("month", opt_int month); ("items", items)] in
            let day rx := (iso_day (row_date df date_col (fst rx)), snd rx) in
            if _HAS_DUCKDB E then
              rbind (cast_amounts df amt (rows df)) (fun cast =>
                let kept :=
                  filter (fun rx => ym_matches year month (row_date df date_col (fst rx)))
                         cast in
                let keyed := map (fun rx => (row_date df date_col (fst rx), snd rx)) kept in
                let groups :=
                  map (fun g => (sql_date_text E (fst g), sql_sum (snd g)))
                      (sort_dates (group_by option_date_eqb keyed)) in
                Ok (echo (items_of "day" groups)))
            else
              let kept := filter_rows df date_col year month in
              rbind (cast_amounts df amt kept) (fun cast =>
                let groups :=
                  map (fun g => (fst g, fsum (snd g)))
                      (group_by String.eqb (map day cast)) in
                Ok (echo (items_of "day" (sort_keys groups))))
        | _, _ => Ok (note "items" (VList []) "date/amount columns not found")
        end))
  end.

(** The key a cell gives a group: a text is its own key, a missing cell
    is the NULL key; a number or a date is keyed by how it prints. *)
Definition key_of (c : cell) : option string :=
  match c with
  | CStr s => Some s
  | CNum f => Some (float_repr f)
  | CDate y m d => Some (iso_day (Some (y, m, d)))
  | CNull => None
  end.

(** [str] of a key of a DuckDB result frame. *)
Definition key_text (k : option string) : string :=
  match k with Some s => s | None => "None" end.

(** The groups of a key column with their sums, largest first: by the SQL
    [GROUP BY 1 ORDER BY spent DESC] over the whole table, or by
    [groupby(...).sum().sort_values(..., ascending=False)], which drops the
    rows with no key and lists the groups by key before it sorts. *)
Definition grouped_desc (df : frame) (date_col : option string) (amt key_col : string)
    (year month : option Z) : result (list (string * float)) :=
  let keyed rx := (key_of (cell_at df key_col (fst rx)), snd rx) in
  if _HAS_DUCKDB E then
    rbind (cast_amounts df amt (rows df)) (fun cast =>
      let kept :=
        match date_col with
        | Some _ =>
            filter (fun rx => ym_matches year month (row_date df date_col (fst rx))) cast
        | None => cast
        end in
      Ok (sort_desc (map (fun g => (key_text (fst g), sql_sum (snd g)))
                         (group_by option_string_eqb (map keyed kept)))))
  else
    rbind (cast_amounts df amt (filter_rows df date_col year month)) (fun cast =>
      let with_key :=
        flat_map (fun rx => match fst (keyed rx) with
                            | Some k => [(k, snd rx)]
                            | None => []
                            end) cast in
      Ok (sort_desc (sort_keys (map (fun g => (fst g, fsum (snd g)))
                                    (group_by String.eqb with_key))))).

(** [category_stats] *)
Definition category_stats (year month : option Z) (csv_path user_id : option string)
    : result dict :=
  match resolve_path E csv_path user_id with
  | None => Ok (note "items" (VList []) "No data available")
  | Some path =>
      rbind (_ensure_csv_exists E path) (fun _ =>
      rbind (read_csv E path) (fun df =>
        let '(date_col, amount_col, category_col) := _detect_columns df in
        match amount_col, category_col with
        | Some amt, Some cat =>
            rbind (grouped_desc df date_col amt cat year month) (fun groups =>
              Ok [("year", opt_int year); ("month", opt_int month);
                  ("items", items_of "category" groups)])
        | _, _ => Ok (note "items" (VList []) "amount/category columns not found")
        end))
  end.

(** [int(top_n or 10)] *)
Definition limit_of (top_n : Z) : Z := if top_n =? 0 then 10 else top_n.

(** [merchant_stats]; a negative [LIMIT] is refused by DuckDB. *)
Definition merchant_stats (year month : option Z) (top_n : Z)
    (csv_path user_id : option string) : result dict :=
  match resolve_path E csv_path user_id with
  | None => Ok (note "items" (VList []) "No data available")
  | Some path =>
      rbind (_ensure_csv_exists E path) (fun _ =>
      rbind (read_csv E path) (fun df =>
        let '(date_col, amount_col, _) := _detect_columns df in
        match _merchant_column df, amount_col with
        | Some mc, Some amt =>
            rbind (grouped_desc df date_col amt mc year month) (fun groups =>
            rbind (if _HAS_DUCKDB E && (limit_of top_n <? 0)
                   then Raise (Exn "ParserException" "LIMIT must not be negative")
                   else Ok (head (limit_of top_n) groups)) (fun top =>
              Ok [("year", opt_int year); ("month", opt_int month);
                  ("items", items_of "merchant" top)]))
        | _, _ => Ok (note "items" (VList []) "merchant/amount columns not found")
        end))
  end.

Definition date_min (ds : list date) (d0 : date) : date :=
  fold_left (fun a b => if date_leb a b then a else b) ds d0.

Definition date_max (ds : list date) (d0 : date) : date :=
  fold_left (fun a b => if date_leb a b then b else a) ds d0.

(** [time_coverage]: the path is not tested before it is used, and
    [os.path.exists(None)] raises [TypeError]. *)
Definition time_coverage (csv_path user_id : option string) : result dict :=
  rbind (match resolve_path E csv_path user_id with
         | Some path => rbind (_ensure_csv_exists E path) (fun _ => Ok path)
         | None =>
             Raise (TypeError
               "stat: path should be string, bytes, os.PathLike or integer, not NoneType")
         end) (fun path =>
  rbind (read_csv E path) (fun df =>
    let '(date_col, _, _) := _detect_columns df in
    let nothing := [("min", VNone); ("max", VNone)] in
    match date_col with
    | None => Ok nothing
    | Some dc =>
        let ds :=
          flat_map (fun r => match date_of (cell_at df dc r) with
                             | Some d => [d]
                             | None => []
                             end) (firstn (Z.to_nat 50000) (rows df)) in
        match ds with
        | [] => Ok nothing
        | d0 :: r =>
            Ok [("min", VStr (iso_day (Some (date_min r d0))));
                ("max", VStr (iso_day (Some (date_max r d0))))]
        end
    end)).

End Tools.

End EnhancedCsvTools.

(* ===================================================================== *)
(** * app/tools/csv_tools.py                                              *)
(* ===================================================================== *)

Module CsvTools.
Import Frame.

(** [a or b] on floats: [b] when [a] is zero; a NaN is truthy and stays. *)
Definition float_or (a b : float) : float :=
  if PrimFloat.eqb a 0%float then b else a.

(** [np.rint]: to the nearest integer, ties to even, the sign kept. *)
Definition two52 : float := 4503599627370496%float.

Definition rint (x : float) : float :=
  let a := abs x in
  if (a <? two52)%float then
    let r := (a + two52 - two52)%float in
    if get_sign x then (- r)%float else r
  else x.

(** [Series.round(decimals)]: scale, round to an integer, scale back. *)
Definition series_round (decimals : Z) (x : float) : float :=
  let f := SF2Prim (binary_normalize prec emax (10 ^ decimals) 0 false) in
  (rint (x * f) / f)%float.

(** [Series.sum()]: NaN entries are skipped. *)
Definition series_sum (xs : list float) : float :=
  fsum (map (fun x => if is_nan x then None else Some x) xs).

(** [float(grp["spent"].sum() or 0.0) or 1.0] *)
Definition total_spent (spent : list float) : float :=
  float_or (float_or (series_sum spent) 0%float) 1%float.

(** [(grp["spent"] / total_spent).round(4)], one entry. *)
Definition share (spent total : float) : float :=
  series_round 4 (spent / total)%float.

(** A row of [grp]: the merchant key (none for the NaN key) and its sum;
    then with its share. *)
Definition with_shares (grp : list (option string * float))
    : list (option string * (float * float)) :=
  let total := total_spent (map snd grp) in
  map (fun g => (fst g, (snd g, share (snd g) total))) grp.

(** Keys in ascending order, the NaN key last ([dropna=False]). *)
Definition sort_merchants {V} (l : list (option string * V)) : list (option string * V) :=
  sort_by (fun a b => match fst a, fst b with
                      | Some x, Some y => String.leb x y
                      | Some _, None => true
                      | None, Some _ => false
                      | None, None => true
                      end) l.

Definition merchant_value (k : option string) : value :=
  match k with Some s => VStr s | None => VFloat nan end.

Definition item (g : option string * (float * float)) : value :=
  VDict [ ("merchant", merchant_value (fst g));
          ("spent", VFloat (series_round 2 (fst (snd g))));
          ("share", VFloat (snd (snd g))) ].

(** [month or "all"] *)
Definition month_label (month : option string) : string :=
  match month with
  | Some m => if String.eqb m "" then "all" else m
  | None => "all"
  end.

Section Tools.
Context `{PyRuntime}.
Variable E : env.

(** The table [grp] of [top_merchants]: the sums by merchant of the rows
    the month filter keeps. *)
Definition merchant_groups (df : frame) (date_col : option string)
    (merchant_col amt_col : string) (month : option string)
    : result (list (option string * float)) :=
  let in_month r :=
    match date_col, month with
    | Some dc, Some m =>
        String.eqb m "" || String.eqb (period_month (date_of (cell_at df dc r))) m
    | _, _ => true
    end in
  rbind (EnhancedCsvTools.cast_amounts df amt_col (filter in_month (rows df)))
        (fun cast =>
     let keyed :=
       map (fun rx => (EnhancedCsvTools.key_of (cell_at df merchant_col (fst rx)), snd rx))
           cast in
     Ok (sort_merchants (map (fun g => (fst g, fsum (snd g)))
                             (group_by option_string_eqb keyed)))).

(** [top_merchants] *)
Definition top_merchants (month : option string) (n : Z)
    (csv_path user_id : option string) : result dict :=
  match resolve_path E csv_path user_id with
  | None => Ok [("items", VList []); ("notes", VStr "No transaction data available")]
  | Some path =>
      rbind (_ensure_csv_exists E path) (fun _ =>
      rbind (read_csv E path) (fun df =>
        let date_col := first_present ["ts"; "date"; "Date"; "DATE"] df in
        let merchant_col :=
          first_present ["merchant"; "description"; "narration"; "Merchant"; "Description"]
                        df in
        let amt_col :=
          first_present ["amount"; "Amount"; "AMOUNT"; "monthly_expense_total"] df in
        match merchant_col, amt_col with
        | Some mc, Some ac =>
            rbind (merchant_groups df date_col mc ac month) (fun grp =>
              let sorted :=
                sort_by (fun a b => not_less (fst (snd a)) (fst (snd b))) (with_shares grp) in
              let items := head (EnhancedCsvTools.limit_of n) sorted in
              Ok [("month", VStr (month_label month)); ("items", VList (map item items))])
        | _, _ => Ok [("items", VList []); ("notes", VStr "merchant/amount column missing")]
        end))
  end.

End Tools.

End CsvTools.

(* ===================================================================== *)
(** * llm/llm_client.py                                                   *)
(* ===================================================================== *)

Module LLMClient.

(** What [requests.post] does: it raises a [RequestException] (the
    request did not get through) or returns a response with a status code
    and a body. *)
Inductive post_outcome : Type :=
| RequestException (msg : string)
| Response (status_code : Z) (text : string).

(** The network: the outcome of a post, as a function of how many posts
    came before, the URL and the JSON payload. *)
Record transport : Type := {
  post_at : nat -> string -> value -> post_outcome
}.

(** The fields [LLMClient.__init__] sets. *)
Record client : Type := {
  provider : string;
  base_url : string;
  timeout : Z;
  retries : Z;
  backoff_seconds : float;
  payload_style : string;
  gemini_api_key : option string;
  gemini_model : string;
  openrouter_api_key : option string;
  openrouter_model : string
}.

(** An int as a float. *)
Definition float_of_Z (z : Z) : float :=
  SF2Prim (binary_normalize prec emax z 0 false).

(** [range(n)] *)
Definition range (n : Z) : list Z := map Z.of_nat (seq 0 (Z.to_nat n)).

(** [s or ""] for an optional str. *)
Definition or_empty (s : option string) : string :=
  match s with Some x => x | None => "" end.

(** [v[0]] *)
Definition index0 (v : value) : result value :=
  match v with
  | VList (x :: _) => Ok x
  | VList [] => Raise (Exn "IndexError" "list index out of range")
  | VStr (String c _) => Ok (VStr (String c EmptyString))
  | VStr EmptyString => Raise (Exn "IndexError" "string index out of range")
  | VDict _ => Raise (Exn "KeyError" "0")
  | _ => Raise (TypeError ("'" +++ Val.type_name v +++ "' object is not subscriptable"))
  end.

(** [v.get(k)] on any object. *)
Definition oget (k : string) (v : value) : result value := Val.getattr_get k VNone v.

(** The first of [keys] under which [d] holds a str. *)
Fixpoint first_str (keys : list string) (d : dict) : option string :=
  match keys with
  | [] => None
  | k :: r =>
      match Val.lookup k d with
      | Some (VStr s) => Some s
      | _ => first_str r d
      end
  end.

Definition text_keys : list string := ["answer"; "response"; "message"; "output"; "text"].

Section Client.
Context `{PyRuntime}.
Variable T : transport.
Variable self : client.

(** [requests.post(url, ..., json=payload, timeout=self.timeout)] *)
Definition do_post (url : string) (payload : value) : M post_outcome :=
  fun t => (Ok (post_at T (posts t) url payload), t ++ [EvPost url]).

(** [time.sleep]: a length that is not a number is refused, then one
    whose nanoseconds lie beyond 64 bits, then a negative one; 2^63
    nanoseconds, which the conversion to 64 bits turns into the least
    integer, count as negative. *)
Definition sleep (seconds : float) : M unit :=
  let ns := (seconds * 1000000000)%float in
  if negb (PrimFloat.eqb seconds seconds) then
    raise (ValueError "Invalid value NaN (not a number)")
  else if PrimFloat.ltb ns (-9223372036854775808)%float
          || PrimFloat.ltb 9223372036854775808%float ns then
    raise (OverflowError "timestamp too large to convert to C _PyTime_t")
  else if PrimFloat.ltb seconds 0%float
          || PrimFloat.eqb ns 9223372036854775808%float then
    raise (ValueError "sleep length must be non-negative")
  else emit (EvSleep seconds).

(** The loop [for attempt in range(self.retries + 1)]: a response breaks
    out of it; a [RequestException] sleeps and goes on while attempts are
    left, and is raised as a [RuntimeError] at the last one.  [None] is
    the loop ending with [resp] never assigned. *)
Fixpoint request_loop (who url : string) (payload : value) (attempts : list Z)
    : M (option (Z * string)) :=
  match attempts with
  | [] => ret None
  | attempt :: rest =>
      out <- do_post url payload ;;
      match out with
      | Response status text => ret (Some (status, text))
      | RequestException msg =>
          if attempt <? retries self then
            sleep (backoff_seconds self * float_of_Z (attempt + 1))%float ;;;
            request_loop who url payload rest
          else raise (RuntimeError (who +++ " request failed: " +++ msg))
      end
  end.

(** The loop, then the two checks every provider shares: the status code
    and the JSON body. *)
Definition request_json (who url : string) (payload : value) (snippet : nat) : M value :=
  resp <- request_loop who url payload (range (retries self + 1)) ;;
  match resp with
  | None => raise (UnboundLocalError "resp")
  | Some (status, text) =>
      if negb ((200 <=? status) && (status <? 300)) then
        raise (RuntimeError (who +++ " HTTP " +++ Py.str_of_Z status +++ ": " +++
                             Py.take snippet text))
      else
        match json_loads text with
        | Ok js => ret js
        | Raise _ =>
            raise (RuntimeError ("Non-JSON response from " +++ who +++ ": " +++
                                 Py.take 300 text))
        end
  end.

(** The payload of the default provider. *)
Definition free_payload (prompt : string) (system : option string) : value :=
  let system_text := Py.strip (or_empty system) in
  if String.eqb (payload_style self) "messages" then
    VDict [("messages",
            VList ((if String.eqb system_text "" then []
                    else [VDict [("role", VStr "system"); ("content", VStr system_text)]])
                   ++ [VDict [("role", VStr "user"); ("content", VStr prompt)]]))]
  else
    VDict [("message",
            VStr (if String.eqb system_text "" then prompt
                  else system_text +++ Py.nl +++ Py.nl +++ prompt))].

(** The text of a decoded body of the default provider. *)
Definition free_text (js : value) : result string :=
  rbind (oget "status" js) (fun status =>
  match js with
  | VDict d =>
      match (match status with
             | VStr "success" => first_str ["response"; "message"; "output"; "text"] d
             | _ => None
             end) with
      | Some s => Ok s
      | None =>
          rbind (match Val.get "choices" d with
                 | VList (c :: _) =>
                     let choice0 := Val.py_or c (VDict []) in
                     rbind (oget "message" choice0) (fun m =>
                       let msg := Val.py_or m (VDict []) in
                       match msg with
                       | VDict md =>
                           match Val.get "content" md with
                           | VStr s => Ok (Some s)
                           | _ =>
                               rbind (oget "text" choice0) (fun t =>
                                 Ok (match t with VStr s => Some s | _ => None end))
                           end
                       | _ =>
                           rbind (oget "text" choice0) (fun t =>
                             Ok (match t with VStr s => Some s | _ => None end))
                       end)
                 | _ => Ok None
                 end) (fun from_choices =>
          match from_choices with
          | Some s => Ok s
          | None =>
              match first_str text_keys d with
              | Some s => Ok s
              | None =>
                  let data_block := Val.py_or (Val.get "data" d) (VDict []) in
                  match data_block with
                  | VDict dd =>
                      match first_str text_keys dd with
                      | Some s => Ok s
                      | None =>
                          Raise (RuntimeError
                            ("LLM error: status=" +++ Val.str status +++ " error=" +++
                             Val.str (Val.py_or (Val.get "error" d) js)))
                      end
                  | v => Raise (Val.no_attribute v "get")
                  end
              end
          end)
      end
  | v => Raise (Val.no_attribute v "get")
  end).

(** [_complete_gemini] *)
Definition gemini_text (js : value) : result string :=
  rbind (oget "candidates" js) (fun cands =>
  rbind (match Val.py_or cands (VList []) with
         | VList (c :: _) =>
             rbind (oget "content" c) (fun content0 =>
             rbind (oget "parts" (Val.py_or content0 (VDict []))) (fun parts0 =>
               match Val.py_or parts0 (VList []) with
               | VList (p :: _) =>
                   rbind (oget "text" p) (fun t =>
                     Ok (match t with VStr s => Some s | _ => None end))
               | _ => Ok None
               end))
         | _ => Ok None
         end) (fun found =>
  match found with
  | Some s => Ok s
  | None =>
      rbind (oget "text" js) (fun t =>
        match t with
        | VStr s => Ok s
        | _ => Raise (RuntimeError ("Gemini error: " +++ Val.str js))
        end)
  end)).

Definition _complete_gemini (prompt : string) (system : option string) : M value :=
  match gemini_api_key self with
  | Some (String _ _ as key) =>
      let url :=
        "https://generativelanguage.googleapis.com/v1beta/models/" +++ gemini_model self
        +++ ":generateContent?key=" +++ key in
      let system_text := Py.strip (or_empty system) in
      let body :=
        [("contents",
          VList [VDict [("role", VStr "user");
                        ("parts", VList [VDict [("text", VStr prompt)]])]])]
        ++ (if String.eqb system_text "" then []
            else [("systemInstruction",
                   VDict [("parts", VList [VDict [("text", VStr system_text)]])])]) in
      js <- request_json "Gemini" url (VDict body) 500 ;;
      s <- lift (gemini_text js) ;;
      ret (VStr s)
  | _ =>
      raise (RuntimeError
        "GEMINI_API_KEY not set. Please export GEMINI_API_KEY or set LLM_PROVIDER=free.")
  end.

(** [_complete_openrouter]: the content is returned as it is found. *)
Definition openrouter_content (js : value) : result value :=
  rbind (oget "choices" js) (fun choices0 =>
    let choices := Val.py_or choices0 (VList []) in
    let failed := Raise (RuntimeError ("OpenRouter error: " +++ Val.str js)) in
    if Val.truthy choices then
      rbind (index0 choices) (fun c =>
      rbind (Val.getattr_get "message" (VDict []) c) (fun m =>
      rbind (oget "content" m) (fun content0 =>
        if Val.truthy content0 then Ok content0 else failed)))
    else failed).

Definition _complete_openrouter (prompt : string) (system : option string) : M value :=
  match openrouter_api_key self with
  | Some (String _ _ as key) =>
      let messages :=
        (match system with
         | Some (String _ _ as s) => [VDict [("role", VStr "system"); ("content", VStr s)]]
         | _ => []
         end) ++ [VDict [("role", VStr "user"); ("content", VStr prompt)]] in
      let body := VDict [("model", VStr (openrouter_model self)); ("messages", VList messages)] in
      js <- request_json "OpenRouter" "https://openrouter.ai/api/v1/chat/completions" body 500 ;;
      lift (openrouter_content js)
  | _ =>
      raise (RuntimeError "OPENROUTER_API_KEY not set. Please export OPENROUTER_API_KEY.")
  end.

(** [LLMClient.complete] *)
Definition complete (prompt : string) (system : option string) : M value :=
  if String.eqb (provider self) "gemini" then _complete_gemini prompt system
  else if String.eqb (provider self) "openrouter" then _complete_openrouter prompt system
  else
    js <- request_json "LLM" (base_url self) (free_payload prompt system) 300 ;;
    s <- lift (free_text js) ;;
    ret (VStr s).

End Client.

End LLMClient.

(* ===================================================================== *)
(** * vectordb/orchestrator.py                                            *)
(* ===================================================================== *)

Module Orchestrator.

(** The collaborators of the orchestrator.  Those whose code is no part
    of the pipeline proper are functions of their arguments that return or
    raise: the knowledge store, the body of
    [_get_comprehensive_data_context] below its keyword gate (the CSV
    description, the subscription store, the SQL queries and the chart
    renderer), the financial-health analysis, and the implementation
    agent.  None of them holds the LLM client. *)
Record world : Type := {
  llm : llm_client;
  system_advisor : string;
  retrieve_knowledge : string -> result (list chunk);
  profiles : RiskAgent.profile_store;
  csv : env;
  data_context : string -> option string -> result (string * dict);
  financial_analysis : dict -> option string -> result value;
  generate_implementation_plan : value -> value -> option (list value) -> result value;
  format_implementation_response : value -> result (value * string)
}.

(** The attributes [EnhancedOrchestrator.__init__] sets that [chat]
    reads: whether the workflow is on, whether there is an analysis agent,
    and the implementation agent, which only the branch that constructs
    the agents assigns ([None] is the attribute never assigned). *)
Record orchestrator : Type := {
  use_vectordb : bool;
  analysis_agent : bool;
  implementation_agent : option bool
}.

(** [EnhancedOrchestrator.__init__]: with the agent modules imported
    ([VECTORDB_AVAILABLE]) and constructed without an exception, with an
    exception on the way, or not imported.  Every branch assigns
    [self.use_vectordb = False]. *)
Definition __init__ (VECTORDB_AVAILABLE constructed : bool) : orchestrator :=
  if VECTORDB_AVAILABLE then
    if constructed then
      {| use_vectordb := false; analysis_agent := true; implementation_agent := Some true |}
    else
      {| use_vectordb := false; analysis_agent := false; implementation_agent := None |}
  else
    {| use_vectordb := false; analysis_agent := false; implementation_agent := None |}.

Definition data_keywords : list string :=
  [ "spending"; "expense"; "budget"; "category"; "monthly"; "historical";
    "trend"; "pattern"; "analysis"; "breakdown"; "summary"; "total";
    "how much"; "what did"; "when did"; "where did"; "merchant"; "chart";
    "graph"; "plot"; "visualize"; "show me"; "data"; "transaction"; "update";
    "dashboard"; "current"; "latest"; "status"; "tell me about"; "show";
    "spending habits"; "my money"; "financial"; "how much" ].

Definition instructions : string :=
  lines
    [ "INSTRUCTIONS:";
      "- Provide concise, data-driven answers with specific numbers";
      "- Be direct and to the point - avoid lengthy explanations";
      "- Use bullet points for multiple items";
      "- If visualizations are available, mention them briefly";
      "- Don't repeat greetings if continuing a conversation";
      "- Focus on the most relevant data points" ].

(** What a [for] loop iterates over. *)
Definition iterate (v : value) : result (list value) :=
  match v with
  | VList l => Ok l
  | VStr s => Ok (Val.chars s)
  | VDict d => Ok (map (fun kv => VStr (fst kv)) d)
  | _ => Raise (TypeError ("'" +++ Val.type_name v +++ "' object is not iterable"))
  end.

(** [' '.join(v)] *)
Definition join_words (v : value) : result string :=
  rbind (iterate v) (fun items =>
  rbind (OutputAgent.map_result
           (fun x => match x with
                     | VStr s => Ok s
                     | _ => Raise (TypeError "sequence item: expected str instance")
                     end) items) (fun ws => Ok (Py.join " " ws))).

(** [v > 0] *)
Definition positive (v : value) : result bool :=
  match v with
  | VInt z => Ok (0 <? z)
  | VBool b => Ok b
  | VFloat f => Ok (0 <? f)%float
  | _ => Raise (TypeError ("'>' not supported between instances of '" +++
                           Val.type_name v +++ "' and 'int'"))
  end.

Section Chat.
Context `{PyRuntime}.
Variable W : world.
Variable self : orchestrator.

(** [_get_comprehensive_data_context]: nothing for a message with no data
    keyword; whatever the body raises comes back as a text. *)
Definition _get_comprehensive_data_context (message : string) (user_id : option string)
    : string * dict :=
  if negb (Py.any_in data_keywords (Py.lower message)) then ("", [])
  else
    match data_context W message user_id with
    | Ok r => r
    | Raise e => ("Error analyzing transaction data: " +++ exn_msg e, [])
    end.

(** Step 3 of the workflow: the transaction summary. *)
Definition category_breakdown (items : value) : result dict :=
  rbind (iterate items) (fun its =>
    fold_left
      (fun acc item =>
         rbind acc (fun d =>
         rbind (Val.getattr_get "category" (VStr "Unknown") item) (fun name =>
         rbind (Val.getattr_get "spent" (VInt 0) item) (fun spent =>
         rbind (positive spent) (fun pos =>
           if pos then
             match name with
             | VStr k => Ok (Val.set k spent d)
             | _ => Raise (TypeError "category key")
             end
           else Ok d)))))
      its (Ok [])).

Definition transaction_summary_of (user_id : option string) : result dict :=
  rbind (EnhancedCsvTools.total_spend (csv W) None None None user_id) (fun total =>
  rbind (EnhancedCsvTools.monthly_spend (csv W) None None user_id) (fun monthly =>
  rbind (EnhancedCsvTools.category_stats (csv W) None None None user_id) (fun categories =>
  rbind (if Val.truthy (Val.get "items" categories)
         then category_breakdown (Val.get_or "items" (VList []) categories)
         else Ok []) (fun breakdown =>
  rbind (match monthly with
         | [] => Ok (VInt 0)
         | _ => Val.getattr_get "total" (VInt 0) (Val.get_or "recent_monthly" (VDict []) monthly)
         end) (fun monthly_total =>
  rbind (Val.head_slice 5 (Val.get_or "items" (VList []) categories)) (fun top =>
  rbind (OutputAgent.map_result (LLMClient.oget "category") top) (fun top_categories =>
    Ok [ ("total_spend", Val.get_or "total" (VInt 0) total);
         ("monthly_spend", monthly_total);
         ("top_categories", VList top_categories);
         ("category_breakdown", VDict breakdown);
         ("savings_rate", VInt 0) ]))))))).

(** The summary and the analysis as step 3 leaves them: an exception on
    the way to the summary leaves both unset, one in the analysis leaves
    the analysis unset. *)
Definition gather_transactions (parsed : value) (user_id : option string)
    : result (option dict * option value) :=
  rbind (Val.getattr_get "requires_transaction_data" (VBool false) parsed) (fun needed =>
    if Val.truthy needed then
      match transaction_summary_of user_id with
      | Ok summary =>
          if analysis_agent self then
            match financial_analysis W summary user_id with
            | Ok a => Ok (Some summary, Some a)
            | Raise _ => Ok (Some summary, None)
            end
          else Ok (Some summary, None)
      | Raise _ => Ok (None, None)
      end
    else Ok (None, None)).

(** The products named by the recommendations. *)
Definition recommended_assets (recommendations : value) : result (list value) :=
  rbind (iterate recommendations) (fun recs =>
  rbind (OutputAgent.map_result
           (fun rec =>
              rbind (LLMClient.oget "specific_products" rec) (fun p =>
                if Val.truthy p
                then rbind (Val.getattr_get "specific_products" (VList []) rec) iterate
                else Ok [])) recs) (fun found => Ok (List.concat found))).

(** Step 7: the plan, or none when there is no agent, nothing to
    allocate, or an exception inside the inner [try]. *)
Definition plan_for (risk_profile : dict) (strategy risk_assessment : value) : M (option value) :=
  match implementation_agent self with
  | None =>
      raise (AttributeError
               "'EnhancedOrchestrator' object has no attribute 'implementation_agent'")
  | Some false => ret None
  | Some true =>
    match
      rbind (OutputAgent.chosen_recommendations strategy risk_assessment) (fun recs =>
      rbind (recommended_assets recs) (fun assets => Ok (recs, assets)))
    with
    | Ok (recs, assets) =>
        if Val.truthy recs then
          emit (EvStage Implementation) ;;;
          match generate_implementation_plan W
                  (Val.get_or "risk_tolerance" (VStr "Moderate") risk_profile) recs
                  (match assets with [] => None | _ => Some assets end) with
          | Ok plan => ret (Some plan)
          | Raise _ => ret None
          end
        else ret None
    | Raise _ => ret None
    end
  end.

Definition type_of (response : dict) : value := Val.get "type" response.

(** The branch for an investment query with knowledge: steps 5 to 8. *)
Definition strategy_branch (message : string) (knowledge_context : list chunk)
    (transaction_summary : option dict) (analysis : option value) : M dict :=
  let risk_profile := RiskAgent.get_risk_profile (profiles W) None in
  emit (EvStage Strategy) ;;;
  strategy <- StrategyAgent.generate_strategy (llm W) message knowledge_context
                (Some risk_profile) transaction_summary None ;;
  emit (EvStage Risk) ;;;
  risk_assessment <- RiskAgent.assess_risk (llm W) strategy risk_profile knowledge_context ;;
  implementation_plan <- plan_for risk_profile strategy risk_assessment ;;
  emit (EvStage Output) ;;;
  response <- lift (OutputAgent.format_response message strategy risk_assessment
                      transaction_summary knowledge_context) ;;
  let response :=
    match analysis with
    | Some a =>
        if Val.truthy a
        then Val.set "type" (VStr "strategy_with_analysis")
                     (Val.set "financial_analysis" a response)
        else response
    | None => response
    end in
  match implementation_plan with
  | Some plan =>
      if Val.truthy plan then
        impl <- lift (format_implementation_response W plan) ;;
        let response := Val.set "implementation_plan" (fst impl) response in
        let response :=
          Val.set "answer"
            (VStr (Val.str (Val.get "answer" response) +++ Py.nl +++ Py.nl +++ "---" +++
                   Py.nl +++ Py.nl +++ snd impl)) response in
        ret (Val.set "type"
               (match type_of response with
                | VStr "strategy_with_analysis" =>
                    VStr "strategy_with_analysis_and_implementation"
                | _ => VStr "strategy_with_implementation"
                end) response)
      else ret response
  | None => ret response
  end.

Fixpoint numbered (i : Z) (cs : list chunk) : string :=
  match cs with
  | [] => ""
  | c :: r => Py.nl +++ "[" +++ Py.str_of_Z i +++ "] " +++ content c +++ Py.nl +++ numbered (i + 1) r
  end.

(** The consolidated prompt of the workflow's other branch. *)
Definition simple_prompt (message : string) (knowledge_context : list chunk)
    (data_analysis : string) : string :=
  system_advisor W +++ Py.nl +++ Py.nl +++
  (match knowledge_context with
   | [] => ""
   | _ => "RELEVANT KNOWLEDGE:" +++ Py.nl +++ numbered 1 (firstn 3 knowledge_context)
          +++ Py.nl +++ Py.nl
   end) +++
  (if String.eqb data_analysis "" then ""
   else "TRANSACTION DATA CONTEXT:" +++ Py.nl +++ data_analysis +++ Py.nl +++ Py.nl) +++
  "User Question: " +++ message +++ Py.nl +++ Py.nl.

(** The branch for every other query. *)
Definition simple_branch (message : string) (user_id : option string)
    (knowledge_context : list chunk) (analysis : option value) : M dict :=
  let '(data_analysis, visualizations) := _get_comprehensive_data_context message user_id in
  response_text <- complete (llm W) (simple_prompt message knowledge_context data_analysis) ;;
  let response := OutputAgent.format_simple_response response_text knowledge_context in
  let response :=
    match visualizations with
    | [] => response
    | _ => Val.set "type" (VStr "visualization")
                   (Val.set "visualizations" (VDict visualizations) response)
    end in
  ret (match analysis with
       | Some a =>
           if Val.truthy a then
             let response := Val.set "financial_analysis" a response in
             Val.set "type"
               (match type_of response with
                | VStr "visualization" => VStr "visualization_with_analysis"
                | _ => VStr "analysis"
                end) response
           else response
       | None => response
       end).

Definition investment_types : list string :=
  ["investment_advice"; "portfolio_question"; "market_question"].

(** [query_type in [...]] *)
Definition is_investment_query (query_type : value) : bool :=
  match query_type with
  | VStr s => Py.mem s investment_types
  | _ => false
  end.

(** [_process_with_vectordb_workflow]; [None] is the result when anything
    inside raised. *)
Definition _process_with_vectordb_workflow (message : string) (context : list dict)
    (user_id : option string) : M (option dict) :=
  try_except
    (emit (EvStage Parsing) ;;;
     parsed <- ParsingAgent.parse_query (llm W) message context ;;
     needs <- lift (Val.getattr_get "requires_knowledge" (VBool false) parsed) ;;
     knowledge_context <-
       (if Val.truthy needs then
          keywords <- lift (Val.getattr_get "keywords" (VList [VStr message]) parsed) ;;
          query <- lift (join_words keywords) ;;
          emit (EvStage Retrieval) ;;;
          lift (retrieve_knowledge W query)
        else ret []) ;;
     gathered <- lift (gather_transactions parsed user_id) ;;
     query_type <- lift (Val.getattr_get "query_type" (VStr "") parsed) ;;
     response <-
       (match knowledge_context with
        | _ :: _ =>
            if is_investment_query query_type
            then strategy_branch message knowledge_context (fst gathered) (snd gathered)
            else simple_branch message user_id knowledge_context (snd gathered)
        | [] => simple_branch message user_id knowledge_context (snd gathered)
        end) ;;
     ret (Some response))
    (fun _ => ret None).

Definition context_turn (msg : dict) : string :=
  Val.str (Val.get_or "role" (VStr "user") msg) +++ ": " +++
  Val.str (Val.get_or "content" (VStr "") msg).

(** The prompt of the original workflow. *)
Definition chat_prompt (message : string) (context : list dict) (data_analysis : string)
    : string :=
  let context_str :=
    match context with
    | [] => ""
    | _ => Py.join Py.nl (map context_turn (Py.last_n 5 context))
    end in
  system_advisor W +++ Py.nl +++ Py.nl +++
  (if String.eqb data_analysis "" then ""
   else "TRANSACTION DATA CONTEXT:" +++ Py.nl +++ data_analysis +++ Py.nl +++ Py.nl) +++
  "User Question: " +++ message +++ Py.nl +++ Py.nl +++
  (if String.eqb context_str "" then ""
   else "Recent conversation:" +++ Py.nl +++ context_str +++ Py.nl +++ Py.nl) +++
  instructions.

(** The original workflow: one prompt, one completion, and the answer
    read as JSON when it is JSON. *)
Definition original_workflow (message : string) (context : list dict)
    (user_id : option string) : M dict :=
  let '(data_analysis, visualizations) := _get_comprehensive_data_context message user_id in
  response <- complete (llm W) (chat_prompt message context data_analysis) ;;
  let response_data :=
    [ ("answer", VStr response); ("status", VStr "success"); ("type", VStr "text") ] in
  let response_data :=
    match visualizations with
    | [] => response_data
    | _ => Val.set "type" (VStr "visualization")
                   (Val.set "visualizations" (VDict visualizations) response_data)
    end in
  ret (match Json.validate_json_response response with
       | Ok (VDict json_response) =>
           Val.set "data" (VDict json_response)
             (Val.set "type" (VStr "json")
                (Val.set "answer" (Val.get_or "answer" (VStr response) json_response)
                         response_data))
       | _ => response_data
       end).

(** The envelope of the outer [except]. *)
Definition error_envelope (e : exn) : dict :=
  [ ("answer", VStr ("I apologize, but I encountered an error: " +++ exn_msg e));
    ("status", VStr "error");
    ("type", VStr "error") ].

(** The [try] block of [chat]: the agent workflow when it is switched on
    and answers, else the original workflow. *)
Definition chat_body (message : string) (context : list dict) (user_id : option string)
    : M dict :=
  vectordb_response <-
    (if use_vectordb self
     then _process_with_vectordb_workflow message context user_id
     else ret None) ;;
  match vectordb_response with
  | Some ((_ :: _) as r) => ret r
  | _ => original_workflow message context user_id
  end.

(** [EnhancedOrchestrator.chat] *)
Definition chat (message : string) (context : list dict) (user_id : option string)
    : M dict :=
  try_except (chat_body message context user_id) (fun e => ret (error_envelope e)).

End Chat.

End Orchestrator.

(* ===================================================================== *)
(** * A runtime to compute with                                           *)
(* ===================================================================== *)

(** An instance of [PyRuntime] on which the definitions above evaluate:
    a JSON decoder after the grammar [json.loads] accepts, [repr] and
    [format] of floats by exact arithmetic on the value of the double.
    Sets are listed in insertion order, which is one of the orders a
    process may give, and the middle character of the currency marker is
    written as a comma. *)
Module Reference.

(** The double nearest to [(-1)^s * m * 10^e]. *)
Definition float_of_decimal (s : bool) (m : Z) (e : Z) : float :=
  match m with
  | Z.pos p =>
      if 0 <=? e then
        SF2Prim (binary_normalize prec emax (if s then - (m * 10 ^ e) else m * 10 ^ e) 0 s)
      else
        SF2Prim (SFdiv prec emax (S754_finite s p 0)
                       (S754_finite false (Z.to_pos (10 ^ (- e))) 0))
  | _ => if s then (- 0)%float else 0%float
  end.

(** ** Decoding JSON *)

Definition is_digit (c : ascii) : bool := Py.between 48 57 (Py.code c).

Definition digit_val (c : ascii) : Z := Z.of_nat (Py.code c) - 48.

Definition json_ws (c : ascii) : bool :=
  let n := Py.code c in
  (n =? 32)%nat || (n =? 9)%nat || (n =? 10)%nat || (n =? 13)%nat.

Fixpoint skip_ws (s : string) : string :=
  match s with
  | String c r => if json_ws c then skip_ws r else s
  | EmptyString => EmptyString
  end.

(** A run of digits: its value, how many there are, and the rest. *)
Fixpoint digits (acc : Z) (count : Z) (s : string) : Z * Z * string :=
  match s with
  | String c r => if is_digit c then digits (10 * acc + digit_val c) (count + 1) r
                  else (acc, count, s)
  | EmptyString => (acc, count, s)
  end.

Definition hex_val (c : ascii) : option nat :=
  let n := Py.code c in
  if Py.between 48 57 n then Some (n - 48)%nat
  else if Py.between 97 102 n then Some (n - 87)%nat
  else if Py.between 65 70 n then Some (n - 55)%nat
  else None.

(** The body of a string, after its opening quote: the text and what
    follows the closing quote.  Control characters are refused, and so is
    an escape above U+00FF, which [string] cannot hold. *)
Fixpoint string_body (acc : list ascii) (s : string) : option (string * string) :=
  match s with
  | EmptyString => None
  | String c r =>
      let n := Py.code c in
      if (n =? 34)%nat then Some (Py.rev_string acc, r)
      else if (n <? 32)%nat then None
      else if (n =? 92)%nat then
        match r with
        | String e r' =>
            let simple (x : nat) := string_body (ascii_of_nat x :: acc) r' in
            match Py.code e with
            | 34%nat => simple 34%nat
            | 92%nat => simple 92%nat
            | 47%nat => simple 47%nat
            | 98%nat => simple 8%nat
            | 102%nat => simple 12%nat
            | 110%nat => simple 10%nat
            | 114%nat => simple 13%nat
            | 116%nat => simple 9%nat
            | 117%nat =>
                match r' with
                | String h1 (String h2 (String h3 (String h4 r''))) =>
                    match hex_val h1, hex_val h2, hex_val h3, hex_val h4 with
                    | Some O, Some O, Some a, Some b =>
                        string_body (ascii_of_nat (16 * a + b) :: acc) r''
                    | _, _, _, _ => None
                    end
                | _ => None
                end
            | _ => None
            end
        | EmptyString => None
        end
      else string_body (c :: acc) r
  end.

(** A number: an optional minus sign, an integer part with no leading
    zero, an optional fraction and an optional exponent; an int when it
    has neither fraction nor exponent. *)
Definition number (s : string) : option (value * string) :=
  let '(neg, s1) :=
    match s with
    | String "-" r => (true, r)
    | _ => (false, s)
    end in
  let '(int_part, n_int, s2) := digits 0 0 s1 in
  if (n_int =? 0) || ((1 <? n_int) && Py.startswith "0" s1) then None
  else
    let '(mant, n_frac, s3, has_frac, frac_ok) :=
      match s2 with
      | String "." r =>
          let '(m, k, r') := digits int_part 0 r in
          (m, k, r', true, 0 <? k)
      | _ => (int_part, 0, s2, false, true)
      end in
    (* a "." with no digit after it is no part of the number *)
    let '(mant, n_frac, s3, has_frac) :=
      if frac_ok then (mant, n_frac, s3, has_frac) else (int_part, 0, s2, false) in
    let '(exp, s4, has_exp) :=
      match s3 with
      | String c r =>
          if (Py.code c =? 101)%nat || (Py.code c =? 69)%nat then
            let '(eneg, r1) :=
              match r with
              | String "-" r' => (true, r')
              | String "+" r' => (false, r')
              | _ => (false, r)
              end in
            let '(e, k, r2) := digits 0 0 r1 in
            if 0 <? k then ((if eneg then - e else e), r2, true) else (0, s3, false)
          else (0, s3, false)
      | EmptyString => (0, s3, false)
      end in
    if has_frac || has_exp
    then Some (VFloat (float_of_decimal neg mant (exp - n_frac)), s4)
    else Some (VInt (if neg then - int_part else int_part), s4).

Definition literal (s : string) : option (value * string) :=
  let after (w : string) := String.substring (String.length w)
                                             (String.length s - String.length w) s in
  if Py.startswith "null" s then Some (VNone, after "null")
  else if Py.startswith "true" s then Some (VBool true, after "true")
  else if Py.startswith "false" s then Some (VBool false, after "false")
  else if Py.startswith "NaN" s then Some (VFloat nan, after "NaN")
  else if Py.startswith "Infinity" s then Some (VFloat infinity, after "Infinity")
  else if Py.startswith "-Infinity" s then Some (VFloat neg_infinity, after "-Infinity")
  else number s.

(** A value from the head of [s], and the rest.  [fuel] bounds the
    nesting and the number of members; the length of the text is
    enough. *)
Fixpoint parse_value (fuel : nat) (s : string) : option (value * string) :=
  match fuel with
  | O => None
  | S f =>
      match s with
      | String c r =>
          match Py.code c with
          | 34%nat =>
              match string_body [] r with
              | Some (t, r') => Some (VStr t, r')
              | None => None
              end
          | 123%nat =>
              match skip_ws r with
              | String "}" r' => Some (VDict [], r')
              | r' => parse_members f [] r'
              end
          | 91%nat =>
              match skip_ws r with
              | String "]" r' => Some (VList [], r')
              | r' => parse_items f [] r'
              end
          | _ => literal s
          end
      | EmptyString => None
      end
  end
with parse_members (fuel : nat) (acc : dict) (s : string) : option (value * string) :=
  match fuel with
  | O => None
  | S f =>
      match s with
      | String c r =>
          if (Py.code c =? 34)%nat then
            match string_body [] r with
            | Some (key, r1) =>
                match skip_ws r1 with
                | String ":" r2 =>
                    match parse_value f (skip_ws r2) with
                    | Some (v, r3) =>
                        let acc := Val.set key v acc in
                        match skip_ws r3 with
                        | String "}" r4 => Some (VDict acc, r4)
                        | String "," r4 => parse_members f acc (skip_ws r4)
                        | _ => None
                        end
                    | None => None
                    end
                | _ => None
                end
            | None => None
            end
          else None
      | EmptyString => None
      end
  end
with parse_items (fuel : nat) (acc : list value) (s : string) : option (value * string) :=
  match fuel with
  | O => None
  | S f =>
      match parse_value f s with
      | Some (v, r) =>
          match skip_ws r with
          | String "]" r' => Some (VList (acc ++ [v]), r')
          | String "," r' => parse_items f (acc ++ [v]) (skip_ws r')
          | _ => None
          end
      | None => None
      end
  end.

(** [json.loads] *)
Definition loads (s : string) : result value :=
  match parse_value (S (String.length s)) (skip_ws s) with
  | Some (v, rest) =>
      match skip_ws rest with
      | EmptyString => Ok v
      | _ => Raise (Exn "JSONDecodeError" "Extra data")
      end
  | None => Raise (Exn "JSONDecodeError" "Expecting value")
  end.

(** ** Printing floats *)

(** The exact value [n / d] of a positive finite double [m * 2^e]. *)
Definition exact (m : positive) (e : Z) : Z * Z :=
  if 0 <=? e then (Z.pos m * 2 ^ e, 1) else (Z.pos m, 2 ^ (- e)).

(** [10^k * d <= n]: the quotient is at least [10^k]. *)
Definition at_least_pow10 (n d k : Z) : bool :=
  if 0 <=? k then 10 ^ k * d <=? n else d <=? n * 10 ^ (- k).

(** The decimal exponent [k] of [n / d]: [10^k <= n/d < 10^(k+1)], found
    upwards from an estimate that is not above it. *)
Fixpoint exponent_from (fuel : nat) (n d k : Z) : Z :=
  match fuel with
  | O => k
  | S f => if at_least_pow10 n d (k + 1) then exponent_from f n d (k + 1) else k
  end.

Definition decimal_exponent (n d : Z) : Z :=
  let estimate := ((Z.log2 n - Z.log2 d - 1) * 30102) / 100000 - 1 in
  exponent_from 8 n d estimate.

(** [n / d] rounded half-even to [p] significant digits: the digits as an
    integer below [10^p] and the exponent of its last digit. *)
Definition to_precision (n d k : Z) (p : Z) : Z * Z :=
  let shift := p - 1 - k in
  let q := if 0 <=? shift then Frame.div_half_even (n * 10 ^ shift) d
           else Frame.div_half_even n (d * 10 ^ (- shift)) in
  if 10 ^ p <=? q then (10 ^ (p - 1), k + 1 - p + 1) else (q, k - p + 1).

(** The shortest digits that read back as the same double. *)
Fixpoint shortest (x : float) (n d k : Z) (ps : list Z) : Z * Z :=
  match ps with
  | [] => to_precision n d k 17
  | p :: r =>
      let '(q, e) := to_precision n d k p in
      if PrimFloat.eqb (float_of_decimal false q e) x then (q, e)
      else shortest x n d k r
  end.

Fixpoint strip_zeros (fuel : nat) (q e : Z) : Z * Z :=
  match fuel with
  | O => (q, e)
  | S f => if (q mod 10 =? 0) && negb (q =? 0) then strip_zeros f (q / 10) (e + 1) else (q, e)
  end.

Fixpoint zeros (n : nat) : string :=
  match n with O => "" | S k => "0" +++ zeros k end.

Definition tail (s : string) : string :=
  match s with String _ r => r | EmptyString => EmptyString end.

(** [repr] of a float. *)
Definition repr_float (x : float) : string :=
  match Prim2SF x with
  | S754_nan => "nan"
  | S754_infinity s => if s then "-inf" else "inf"
  | S754_zero s => if s then "-0.0" else "0.0"
  | S754_finite s m e =>
      let '(n, d) := exact m e in
      let k := decimal_exponent n d in
      let '(q, qe) := shortest (abs x) n d k (map Z.of_nat (seq 1 16)) in
      let '(q, qe) := strip_zeros 20 q qe in
      let ds := Py.str_of_Z q in
      let len := Z.of_nat (String.length ds) in
      let decpt := qe + len in
      let body :=
        if (16 <? decpt) || (decpt <? -3) then
          let ex := decpt - 1 in
          Py.take 1 ds +++ (if 1 <? len then "." +++ tail ds else "") +++ "e" +++
          (if ex <? 0 then "-" else "+") +++ Frame.pad2 (Z.abs ex)
        else if decpt <=? 0 then "0." +++ zeros (Z.to_nat (- decpt)) +++ ds
        else if len <=? decpt then ds +++ zeros (Z.to_nat (decpt - len)) +++ ".0"
        else Py.take (Z.to_nat decpt) ds +++ "." +++
             String.substring (Z.to_nat decpt) (Z.to_nat (len - decpt)) ds in
      (if s then "-" else "") +++ body
  end.

(** Digits in groups of three, from the right. *)
Fixpoint group3 (fuel : nat) (n : Z) : string :=
  match fuel with
  | O => Py.str_of_Z n
  | S f =>
      if n <? 1000 then Py.str_of_Z n
      else
        let r := n mod 1000 in
        group3 f (n / 1000) +++ "," +++
        (if r <? 10 then "00" else if r <? 100 then "0" else "") +++ Py.str_of_Z r
  end.

(** [format(x, ".<places>f")], with a comma every three digits when
    [grouped]. *)
Definition fixed (grouped : bool) (places : Z) (x : float) : string :=
  match Prim2SF x with
  | S754_nan => "nan"
  | S754_infinity s => if s then "-inf" else "inf"
  | S754_zero s =>
      (if s then "-" else "") +++ "0" +++
      (if 0 <? places then "." +++ zeros (Z.to_nat places) else "")
  | S754_finite s m e =>
      let '(n, d) := exact m e in
      let q := Frame.div_half_even (n * 10 ^ places) d in
      let whole := q / 10 ^ places in
      let frac := Py.str_of_Z (q mod 10 ^ places) in
      (if s then "-" else "") +++
      (if grouped then group3 120 whole else Py.str_of_Z whole) +++
      (if 0 <? places
       then "." +++ zeros (Z.to_nat places - String.length frac) +++ frac
       else "")
  end.

(** [format(v, spec)] for the two specs the output agent uses. *)
Definition format (spec : string) (v : value) : result string :=
  let number :=
    match v with
    | VFloat f => Ok f
    | VInt z => Ok (float_of_decimal (z <? 0) (Z.abs z) 0)
    | VBool b => Ok (if b then 1%float else 0%float)
    | VStr _ => Raise (ValueError "Unknown format code 'f' for object of type 'str'")
    | _ => Raise (TypeError ("unsupported format string passed to " +++
                             Val.type_name v +++ ".__format__"))
    end in
  rbind number (fun x =>
    if String.eqb spec ",.0f" then Ok (fixed true 0 x)
    else if String.eqb spec ".1f" then Ok (fixed false 1 x)
    else Raise (ValueError "Invalid format specifier")).

#[export] Instance runtime : PyRuntime := {
  float_repr := repr_float;
  py_format := format;
  json_loads := loads;
  set_order := fun xs => xs;
  currency_mark := String (ascii_of_nat 226) (String "," (String (ascii_of_nat 185) EmptyString))
}.

End Reference.

(* ===================================================================== *)
(** * Further text operations                                             *)
(* ===================================================================== *)

Set Warnings "-inexact-float".

Module Str.

(** [all(p(c) for c in s)] *)
Fixpoint all_chars (p : ascii -> bool) (s : string) : bool :=
  match s with
  | EmptyString => true
  | String c r => p c && all_chars p r
  end.

(** [c != a] *)
Definition other_than (a : ascii) (c : ascii) : bool := negb (Ascii.eqb c a).

(** The longest prefix of characters that [p] accepts, and what follows
    it. *)
Fixpoint take_while (p : ascii -> bool) (s : string) : string :=
  match s with
  | EmptyString => EmptyString
  | String c r => if p c then String c (take_while p r) else EmptyString
  end.

Fixpoint drop_while (p : ascii -> bool) (s : string) : string :=
  match s with
  | EmptyString => EmptyString
  | String c r => if p c then drop_while p r else s
  end.

(** [s[n:]] *)
Fixpoint drop (n : nat) (s : string) : string :=
  match n, s with
  | S k, String _ r => drop k r
  | _, _ => s
  end.

(** [s.rstrip(chars)]: a character is kept when something that is kept
    follows it, or when it is none of [chars]. *)
Fixpoint rstrip_chars (chars : list ascii) (s : string) : string :=
  match s with
  | EmptyString => EmptyString
  | String c r =>
      match rstrip_chars chars r with
      | EmptyString =>
          if existsb (Ascii.eqb c) chars then EmptyString else String c EmptyString
      | r' => String c r'
      end
  end.

End Str.

(** Whether a result is an exception of the class [cls]. *)
Definition raises {A} (cls : string) (r : result A) : bool :=
  match r with
  | Raise e => String.eqb (exn_class e) cls
  | Ok _ => false
  end.

(** [sum(entry["percent"] for entry in allocation)] for an inferred
    allocation, whose percents are ints. *)
Definition percent_total (allocation : list value) : Z :=
  fold_left (fun acc entry =>
               match entry with
               | VDict d => match Val.get "percent" d with VInt p => acc + p | _ => acc end
               | _ => acc
               end) allocation 0.

(** A computation that makes at most [n] LLM completions, from whatever
    trace it starts, whether it returns or raises. *)
Definition completes_at_most {A} (n : nat) (m : M A) : Prop :=
  forall t, (completions (snd (m t)) <= completions t + n)%nat.

(** The lengths [time.sleep] accepts: numbers whose nanoseconds lie
    within 64 bits, and that are not negative. *)
Definition sleep_accepts (seconds : float) : bool :=
  PrimFloat.eqb seconds seconds
  && negb (PrimFloat.ltb (seconds * 1000000000)%float (-9223372036854775808)%float
           || PrimFloat.ltb 9223372036854775808%float (seconds * 1000000000)%float)
  && negb (PrimFloat.ltb seconds 0%float
           || PrimFloat.eqb (seconds * 1000000000)%float 9223372036854775808%float).

(** What the retry loop of the LLM client leaves on the trace when no
    attempt gets through: a post per attempt, and between two posts a
    sleep of [backoff_seconds * (attempt + 1)]. *)
Fixpoint retry_trace (url : string) (backoff : float) (attempts : list Z) : trace :=
  match attempts with
  | [] => []
  | [_] => [EvPost url]
  | attempt :: rest =>
      EvPost url :: EvSleep (backoff * LLMClient.float_of_Z (attempt + 1))%float
      :: retry_trace url backoff rest
  end.

(* ===================================================================== *)
(** * vectordb/orchestrator.py: the data context                          *)
(* ===================================================================== *)

Module DataContext.

Section Context_.
Context `{PyRuntime}.
Variable W : Orchestrator.world.

(** [EnhancedOrchestrator._get_date_range]; what it prints is left
    out. *)
Definition _get_date_range (user_id : option string) : string :=
  match EnhancedCsvTools.time_coverage (Orchestrator.csv W) None user_id with
  | Ok cov =>
      if Val.truthy (Val.get "min" cov) || Val.truthy (Val.get "max" cov) then
        Val.str (Val.get_or "min" (VStr "Unknown") cov) +++ " to " +++
        Val.str (Val.get_or "max" (VStr "Unknown") cov)
      else "Unknown"
  | Raise _ => "Unknown"
  end.

End Context_.

End DataContext.

(* ===================================================================== *)
(** * llm/json_guard.py: the two response parsers                         *)
(* ===================================================================== *)

Module JsonGuard.

(** The pattern of the fallback: the word category in any case, then any
    run of double quotes, white space and colons, then (group 1) one or
    more letters and spaces.  These are its two character classes, on the
    characters a [string] holds: read without regard to case, the class
    of letters also has four characters above them (U+0130, U+0131,
    U+017F and U+212A). *)
Definition sep_char (c : ascii) : bool :=
  (Py.code c =? 34)%nat || Py.is_space c || (Py.code c =? 58)%nat.

Definition name_char (c : ascii) : bool :=
  let n := Py.code c in
  Py.between 65 90 n || Py.between 97 122 n || (n =? 32)%nat.

(** Group 1 of a match that starts where the word "category" ends.  The
    separators are taken greedily; when no name follows them, the matcher
    gives back separators until one of them can start the name, and the
    only separator that can is the space, after which no name character
    follows. *)
Definition category_group (rest : string) : option string :=
  let seps := Str.take_while sep_char rest in
  match Str.take_while name_char (Str.drop_while sep_char rest) with
  | String c r => Some (String c r)
  | EmptyString => if Py.contains " " seps then Some " " else None
  end.

(** [re.search(pattern, txt)], giving [m.group(1)]: the leftmost place
    where the word stands, in any case, and the pattern matches. *)
Fixpoint search_category (txt : string) : option string :=
  match (if Py.startswith "category" (Py.lower txt)
         then category_group (Str.drop 8 txt) else None) with
  | Some g => Some g
  | None =>
      match txt with
      | EmptyString => None
      | String _ r => search_category r
      end
  end.

(** [float(z)] for an int: an int beyond the doubles raises. *)
Definition float_of_int (z : Z) : result float :=
  let f := LLMClient.float_of_Z z in
  if is_infinity f
  then Raise (Exn "OverflowError" "int too large to convert to float")
  else Ok f.

Section Guard.
Context `{PyRuntime}.

(** [float(s)] for a str, as the runtime reads it. *)
Variable float_of_str : string -> result float.

(** [float(v)] *)
Definition to_float (v : value) : result float :=
  match v with
  | VFloat f => Ok f
  | VInt z => float_of_int z
  | VBool b => Ok (if b then 1%float else 0%float)
  | VStr s => float_of_str s
  | _ => Raise (TypeError ("float() argument must be a string or a real number, not '"
                           +++ Val.type_name v +++ "'"))
  end.

(** The [try] block of [parse_expense_json]. *)
Definition expense_body (txt : string) : result dict :=
  rbind (json_loads (Json._strip_code_fences txt)) (fun obj =>
  rbind (LLMClient.oget "predicted_category" obj) (fun predicted =>
  rbind (if Val.truthy predicted then Ok predicted
         else rbind (LLMClient.oget "category" obj) (fun c =>
                Ok (Val.py_or c (VStr "Other")))) (fun cat =>
  rbind (Val.getattr_get "confidence" (VFloat 0.35) obj) (fun confidence =>
  rbind (to_float confidence) (fun conf =>
  rbind (LLMClient.oget "reasoning" obj) (fun reasoning =>
    let rsn := Val.py_or reasoning (VStr "") in
    Ok [ ("predicted_category", VStr (Val.str cat));
         ("confidence", VFloat conf);
         ("reasoning", VStr (Val.str rsn)) ])))))).

(** The [except] block of [parse_expense_json]. *)
Definition expense_fallback (txt : string) : dict :=
  let cat :=
    match search_category txt with
    | Some g => Py.strip g
    | None => "Other"
    end in
  [ ("predicted_category", VStr cat);
    ("confidence", VFloat 0.2);
    ("reasoning", VStr "fallback parse") ].

(** [parse_expense_json] *)
Definition parse_expense_json (txt : string) : dict :=
  match expense_body txt with
  | Ok d => d
  | Raise _ => expense_fallback txt
  end.

(** The dict [parse_budget_json] returns when anything raised. *)
Definition budget_default : dict :=
  [ ("status", VStr "On Track");
    ("budget_diff", VFloat 0);
    ("utilization", VFloat 0);
    ("recommendations", VList [VStr "Enable alerts at 90% of category limits"]) ].

(** The [try] block of [parse_budget_json]. *)
Definition budget_body (txt : string) : result dict :=
  rbind (json_loads (Json._strip_code_fences txt)) (fun obj =>
  rbind (LLMClient.oget "status" obj) (fun status0 =>
    let status := Val.py_or status0 (VStr "On Track") in
  rbind (Val.getattr_get "budget_diff" (VFloat 0) obj) (fun diff0 =>
  rbind (to_float diff0) (fun budget_diff =>
  rbind (Val.getattr_get "utilization" (VFloat 0) obj) (fun utilization0 =>
  rbind (to_float utilization0) (fun utilization =>
  rbind (LLMClient.oget "recommendations" obj) (fun recs0 =>
    let recs :=
      match Val.py_or recs0 (VList []) with
      | VList l => l
      | v => [VStr (Val.str v)]
      end in
    Ok [ ("status", VStr (Val.str status));
         ("budget_diff", VFloat budget_diff);
         ("utilization", VFloat utilization);
         ("recommendations", VList (map (fun r => VStr (Val.str r)) recs)) ]))))))).

(** [parse_budget_json] *)
Definition parse_budget_json (txt : string) : dict :=
  match budget_body txt with
  | Ok d => d
  | Raise _ => budget_default
  end.

End Guard.

End JsonGuard.

(* ===================================================================== *)
(** * app/tools/csv_tools.py: free queries and aggregates                 *)
(* ===================================================================== *)

Module CsvQuery.
Import Frame.

(** [sql.strip().lower().split()[0]] *)
Definition first_word (sql : string) : result string :=
  match Py.split (Py.lower (Py.strip sql)) with
  | w :: _ => Ok w
  | [] => Raise (Exn "IndexError" "list index out of range")
  end.

(** [limit = int(limit or 1000)], then 1000 again when it is not within
    1..10000. *)
Definition effective_limit (limit : Z) : Z :=
  let limit := if limit =? 0 then 1000 else limit in
  if (limit <=? 0) || (10000 <? limit) then 1000 else limit.

(** The SQL that is run: the caller's, or the default when that is
    blank. *)
Definition effective_sql (sql : string) (limit : Z) : string :=
  if String.eqb (Py.strip sql) ""
  then "SELECT * FROM t LIMIT " +++ Py.str_of_Z (effective_limit limit)
  else sql.

(** What [query_csv] hands to [con.execute] when DuckDB is there, or the
    exception of its guard. *)
Definition statement (sql : string) (limit : Z) : result string :=
  let sql := effective_sql sql limit in
  rbind (first_word sql) (fun w =>
    if negb (String.eqb w "select")
    then Raise (ValueError "Only SELECT queries are allowed")
    else if Py.contains " limit " (Py.lower sql) then Ok sql
    else Ok (Str.rstrip_chars [";"%char; " "%char] sql +++ " LIMIT " +++
             Py.str_of_Z (effective_limit limit))).

Section Query.
Variable E : env.

(** DuckDB: the table [t] made from the file at a path, then a query run
    on it, which gives a frame or raises. *)
Variable duckdb_query : string -> string -> result frame.

(** A row as [DataFrame.to_dict(orient='records')] hands it over. *)
Variable record_of : list string -> list cell -> value.

Definition records (df : frame) (rs : list (list cell)) : list value :=
  map (record_of (columns df)) rs.

(** [query_csv] *)
Definition query_csv (sql : string) (limit : Z) (csv_path user_id : option string)
    : result dict :=
  match resolve_path E csv_path user_id with
  | None =>
      Ok [ ("rows", VList []); ("columns", VList []);
           ("error", VStr "No transaction data available. Please upload a CSV file.") ]
  | Some path =>
      rbind (_ensure_csv_exists E path) (fun _ =>
        let n := effective_limit limit in
        if _HAS_DUCKDB E then
          rbind (statement sql limit) (fun q =>
          rbind (duckdb_query path q) (fun df =>
            let rows := records df (Frame.rows df) in
            Ok [ ("rows", VList rows);
                 ("columns", VList (map VStr (columns df)));
                 ("row_count", VInt (Z.of_nat (List.length rows)));
                 ("truncated", VBool (n <=? Z.of_nat (List.length rows))) ]))
        else
          rbind (read_csv E path) (fun df =>
            let rows := records df (head n (Frame.rows df)) in
            Ok [ ("rows", VList rows);
                 ("columns", VList (map VStr (columns df)));
                 ("row_count", VInt (Z.of_nat (List.length rows)));
                 ("truncated",
                   VBool (Z.of_nat (List.length rows) <? Z.of_nat (List.length (Frame.rows df))));
                 ("notes", VStr "duckdb not installed; returned first rows") ]))
  end.

(** [_run_duckdb] of [app/tools/enhanced_csv_tools.py] *)
Definition _run_duckdb (sql csv_path : string) : result frame :=
  rbind (first_word sql) (fun w =>
    if negb (Py.mem w ["select"; "with"])
    then Raise (ValueError ("Only SELECT and WITH queries are allowed. Found: " +++ w))
    else duckdb_query csv_path sql).

End Query.

End CsvQuery.

Module CsvAggregate.
Import Frame.

Section Aggregate.
Context `{PyRuntime}.
Variable E : env.

(** The column [df["__month"]]: the month of the row's date as text, or
    [None] in every row when the table has no date column. *)
Definition month_of (df : frame) (date_col : option string) (row : list cell)
    : option string :=
  match date_col with
  | Some dc => Some (period_month (date_of (cell_at df dc row)))
  | None => None
  end.

(** [df[df["__month"] == month]] when a month is asked for. *)
Definition in_month (df : frame) (date_col : option string) (month : option string)
    : list (list cell) :=
  match month with
  | Some m =>
      if String.eqb m "" then rows df
      else filter (fun r => option_string_eqb (month_of df date_col r) (Some m)) (rows df)
  | None => rows df
  end.

(** The column to group by: [group_by] when the table, to which
    [__month] has been added, has it, else [category] when it has that. *)
Definition key_column (df : frame) (group_by : string) : option string :=
  if String.eqb group_by "__month" || has_column df group_by then Some group_by
  else if has_column df "category" then Some "category"
  else None.

(** One record of [totals]. *)
Definition total (g : option string * float) : value :=
  VDict [("key", CsvTools.merchant_value (fst g)); ("spent", VFloat (snd g))].

(** [spend_aggregate].  Grouping by the amount column itself makes
    [reset_index] raise, the column being there already. *)
Definition spend_aggregate (month : option string) (group_by : string)
    (csv_path user_id : option string) : result dict :=
  match resolve_path E csv_path user_id with
  | None => Ok [("totals", VList []); ("notes", VStr "No transaction data available")]
  | Some path =>
      rbind (_ensure_csv_exists E path) (fun _ =>
      rbind (read_csv E path) (fun df =>
        let date_col := first_present ["ts"; "date"; "Date"; "DATE"] df in
        let kept := in_month df date_col month in
        match first_present ["amount"; "Amount"; "AMOUNT"; "monthly_expense_total"] df with
        | None => Ok [("totals", VList []); ("notes", VStr "amount column not found")]
        | Some amt_col =>
            match key_column df group_by with
            | None => Ok [("totals", VList []); ("notes", VStr "group_by column not found")]
            | Some key =>
                rbind (EnhancedCsvTools.cast_amounts df amt_col kept) (fun cast =>
                  if String.eqb key amt_col then
                    Raise (ValueError ("cannot insert " +++ amt_col +++ ", already exists"))
                  else
                    let key_of_row r :=
                      if String.eqb key "__month" then month_of df date_col r
                      else EnhancedCsvTools.key_of (cell_at df key r) in
                    let grp :=
                      CsvTools.sort_merchants
                        (map (fun g => (fst g, CsvTools.series_round 2 (fsum (snd g))))
                             (Frame.group_by option_string_eqb
                                (map (fun rx => (key_of_row (fst rx), snd rx)) cast))) in
                    let totals :=
                      map total (sort_by (fun a b => not_less (snd a) (snd b)) grp) in
                    Ok [ ("month", VStr (CsvTools.month_label month));
                         ("totals", VList totals);
                         ("top", VList (firstn 5 totals)) ])
            end
        end))
  end.

End Aggregate.

End CsvAggregate.

(* ===================================================================== *)
(** * Numbers among the values                                            *)
(* ===================================================================== *)

(** What [sum], [+], [-] and the comparisons work on: an int (a bool
    counts as one) or a float. *)
Module Num.

Inductive num : Type :=
| NInt (z : Z)
| NFloat (f : float).

Definition of_value (v : value) : option num :=
  match v with
  | VInt z => Some (NInt z)
  | VBool b => Some (NInt (if b then 1 else 0))
  | VFloat f => Some (NFloat f)
  | _ => None
  end.

Definition to_value (n : num) : value :=
  match n with
  | NInt z => VInt z
  | NFloat f => VFloat f
  end.

Definition type_name (n : num) : string :=
  match n with NInt _ => "int" | NFloat _ => "float" end.

(** [a + b]: exact on ints; an int meets a float as a float. *)
Definition add (a b : num) : result num :=
  match a, b with
  | NInt x, NInt y => Ok (NInt (x + y))
  | NInt x, NFloat g => rbind (JsonGuard.float_of_int x) (fun f => Ok (NFloat (f + g)))
  | NFloat f, NInt y => rbind (JsonGuard.float_of_int y) (fun g => Ok (NFloat (f + g)))
  | NFloat f, NFloat g => Ok (NFloat (f + g))
  end.

(** [acc + v] *)
Definition plus (acc : num) (v : value) : result num :=
  match of_value v with
  | Some b => add acc b
  | None =>
      Raise (TypeError ("unsupported operand type(s) for +: '" +++ type_name acc +++
                        "' and '" +++ Val.type_name v +++ "'"))
  end.

(** [sum(f(x) for x in xs if ...)]: from the int 0, each term computed
    and added in turn; [f] gives no term for an [x] the filter drops. *)
Definition sum_by {A} (f : A -> result (option value)) (xs : list A) : result num :=
  fold_left
    (fun acc x =>
       rbind acc (fun a =>
       rbind (f x) (fun term =>
         match term with
         | Some v => plus a v
         | None => Ok a
         end)))
    xs (Ok (NInt 0)).

(** [n < k] and [n > k] for a small int [k]. *)
Definition ltb (n : num) (k : Z) : bool :=
  match n with
  | NInt z => z <? k
  | NFloat f => (f <? LLMClient.float_of_Z k)%float
  end.

Definition gtb (n : num) (k : Z) : bool :=
  match n with
  | NInt z => k <? z
  | NFloat f => (LLMClient.float_of_Z k <? f)%float
  end.

(** [k - n] for a small int [k]. *)
Definition sub_from (k : Z) (n : num) : num :=
  match n with
  | NInt z => NInt (k - z)
  | NFloat f => NFloat (LLMClient.float_of_Z k - f)
  end.

End Num.

(* ===================================================================== *)
(** * agents/implementation_agent.py                                      *)
(* ===================================================================== *)

Module ImplementationAgent.

Definition PLATFORMS : list (string * list string) :=
  [ ("mutual_funds", ["Groww"; "Zerodha"; "Kuvera"; "Paytm Money"; "ET Money"; "HDFC Securities"]);
    ("etf", ["Zerodha"; "Groww"; "Upstox"; "ICICI Direct"; "HDFC Securities"]);
    ("gold", ["Groww"; "Zerodha"; "Paytm Money"; "SBI Gold ETF"; "HDFC Gold ETF"]);
    ("fd", ["Bank websites"; "Bank mobile apps"; "CRED"; "Groww"; "Paytm Money"]) ].

Definition FUND_SUGGESTIONS : list (string * list string) :=
  [ ("large_cap",
      [ "HDFC Top 100 Fund - Direct Growth";
        "ICICI Prudential Bluechip Fund - Direct Growth";
        "SBI Bluechip Fund - Direct Growth";
        "Nippon India Large Cap Fund - Direct Growth" ]);
    ("mid_cap",
      [ "HDFC Mid-Cap Opportunities Fund - Direct Growth";
        "SBI Magnum Midcap Fund - Direct Growth";
        "ICICI Prudential Midcap Fund - Direct Growth" ]);
    ("small_cap",
      [ "HDFC Small Cap Fund - Direct Growth";
        "SBI Small Cap Fund - Direct Growth";
        "Nippon India Small Cap Fund - Direct Growth" ]);
    ("index_fund",
      [ "HDFC Index Fund - Nifty 50 Plan - Direct Growth";
        "ICICI Prudential Nifty Index Fund - Direct Growth";
        "UTI Nifty Index Fund - Direct Growth" ]);
    ("etf",
      [ "Nippon India ETF Nifty BeES";
        "ICICI Prudential Nifty ETF";
        "HDFC Nifty 50 ETF";
        "SBI Nifty ETF" ]);
    ("debt",
      [ "HDFC Short Term Debt Fund - Direct Growth";
        "ICICI Prudential Short Term Fund - Direct Growth";
        "SBI Magnum Gilt Fund - Direct Growth" ]);
    ("hybrid",
      [ "HDFC Balanced Advantage Fund - Direct Growth";
        "ICICI Prudential Balanced Advantage Fund - Direct Growth";
        "SBI Balanced Advantage Fund - Direct Growth" ]);
    ("gold",
      [ "SBI Gold ETF";
        "HDFC Gold ETF";
        "ICICI Prudential Gold ETF";
        "Nippon India Gold ETF" ]) ].

(** [category_mapping] of [_get_fund_suggestion], in the order of its
    keys. *)
Definition category_mapping : list (string * string) :=
  [ ("equity", "large_cap");
    ("large cap", "large_cap");
    ("large-cap", "large_cap");
    ("mid cap", "mid_cap");
    ("mid-cap", "mid_cap");
    ("small cap", "small_cap");
    ("small-cap", "small_cap");
    ("index", "index_fund");
    ("index fund", "index_fund");
    ("etf", "etf");
    ("debt", "debt");
    ("fixed deposit", "fd");
    ("fd", "fd");
    ("gold", "gold");
    ("hybrid", "hybrid");
    ("balanced", "hybrid") ].

(** A dict of lists of str, read by key. *)
Fixpoint table_get (key : string) (table : list (string * list string))
    : option (list string) :=
  match table with
  | [] => None
  | (k, v) :: r => if String.eqb key k then Some v else table_get key r
  end.

(** [v.lower()] on any object: only a str has it. *)
Definition lower_of (v : value) : result string :=
  match v with
  | VStr s => Ok (Py.lower s)
  | _ => Raise (Val.no_attribute v "lower")
  end.

(** The title case of a first character: a small letter becomes the
    capital, the sharp s becomes Ss, and two letters (the micro sign and
    y with diaeresis) have capitals that lie above the characters of
    [string]. *)
Definition title_char (c : ascii) : option string :=
  let n := Py.code c in
  if Py.between 97 122 n || (Py.between 224 254 n && negb (n =? 247)%nat)
  then Some (String (ascii_of_nat (n - 32)) EmptyString)
  else if (n =? 223)%nat then Some "Ss"
  else if (n =? 181)%nat || (n =? 255)%nat then None
  else Some (String c EmptyString).

(** [s.capitalize()], where it stays within [string]. *)
Definition capitalize (s : string) : option string :=
  match s with
  | EmptyString => Some EmptyString
  | String c r => option_map (fun t => t +++ Py.lower r) (title_char c)
  end.

Definition risk_profiles : list string := ["Safe"; "Moderate"; "Aggressive"].

(** [risk_profile.lower().capitalize()], then "Moderate" for what is not
    one of the three names. *)
Definition normalize_profile (risk_profile : value) : result string :=
  rbind (lower_of risk_profile) (fun lowered =>
    match capitalize lowered with
    | Some name => Ok (if Py.mem name risk_profiles then name else "Moderate")
    | None => Ok "Moderate"
    end).

(** The first of [category_mapping] whose key occurs in the text. *)
Fixpoint mapped_type (mapping : list (string * string)) (category_lower : string) : string :=
  match mapping with
  | [] => "large_cap"
  | (key, fund_type) :: r =>
      if Py.contains key category_lower then fund_type else mapped_type r category_lower
  end.

(** [any(keyword in asset.lower() for keyword in keywords)] *)
Definition names_any (keywords : list string) (asset : value) : result bool :=
  match keywords with
  | [] => Ok false
  | _ => rbind (lower_of asset) (fun a => Ok (Py.any_in keywords a))
  end.

(** The first asset that names one of the keywords. *)
Fixpoint first_naming (keywords : list string) (assets : list value)
    : result (option value) :=
  match assets with
  | [] => Ok None
  | asset :: r =>
      rbind (names_any keywords asset) (fun hit =>
        if hit then Ok (Some asset) else first_naming keywords r)
  end.

(** [_get_fund_suggestion] *)
Definition _get_fund_suggestion (category : value) (recommended_assets : option (list value))
    : result value :=
  match recommended_assets with
  | Some (first :: rest) =>
      rbind (lower_of category) (fun category_lower =>
      rbind (first_naming (Py.split category_lower) (first :: rest)) (fun found =>
        match found with
        | Some asset => Ok asset
        | None => Ok first
        end))
  | _ =>
      rbind (lower_of category) (fun category_lower =>
        let fund_type := mapped_type category_mapping category_lower in
        let funds :=
          match table_get fund_type FUND_SUGGESTIONS with
          | Some l => l
          | None => match table_get "large_cap" FUND_SUGGESTIONS with
                    | Some l => l
                    | None => []
                    end
          end in
        match funds with
        | f :: _ => Ok (VStr f)
        | [] => Ok (VStr "Consult with a financial advisor")
        end)
  end.

Section Agent.
Context `{PyRuntime}.

(** The bullet that opens a line of the explanation, a character above
    those of [string]. *)
Variable bullet_mark : string.

(** [_get_category_instructions] *)
Definition _get_category_instructions (category fund_name : value) : result (list string) :=
  rbind (lower_of category) (fun category_lower =>
    if Py.contains "etf" category_lower || Py.contains "exchange traded" category_lower then
      Ok [ "Search for '" +++ Val.str fund_name +++ "' in the app";
           "Click 'Buy' or 'Invest'";
           "Enter the amount you want to invest";
           "Choose 'Market Order' (executes immediately) or 'Limit Order' (executes at your price)";
           "Review and confirm the order";
           "The ETF units will be credited to your Demat account" ]
    else if Py.contains "gold" category_lower then
      Ok [ "Search for '" +++ Val.str fund_name +++ "' or 'Gold ETF'";
           "Click 'Invest' or 'Buy'";
           "Enter investment amount";
           "Choose SIP (recommended) or Lumpsum";
           "Set up auto-debit if doing SIP";
           "Confirm the transaction" ]
    else if Py.contains "fd" category_lower || Py.contains "fixed deposit" category_lower then
      Ok [ "Open your bank's mobile app or website";
           "Navigate to 'Fixed Deposit' or 'FD' section";
           "Click 'Open New FD'";
           "Enter the amount and tenure (recommended: 1-3 years)";
           "Choose interest payout frequency (monthly/quarterly/at maturity)";
           "Review terms and confirm" ]
    else
      Ok [ "Search for '" +++ Val.str fund_name +++ "' in the investment app";
           "Click on the fund name to see details";
           "Click 'Invest' or 'Start SIP'";
           "Enter the investment amount";
           "Choose 'Direct Plan - Growth' (lower fees)";
           "Select SIP frequency (monthly recommended) or Lumpsum";
           "Set up auto-debit from your bank account (for SIP)";
           "Review all details and confirm" ]).

Definition kyc_step (step_num : Z) : dict :=
  [ ("step", VInt step_num);
    ("title", VStr "Complete KYC (Know Your Customer)");
    ("description",
      VStr "You need to complete KYC before investing. This is a one-time process.");
    ("instructions",
      VList [ VStr "Choose a platform (we'll suggest options below)";
              VStr "Download the app or visit the website";
              VStr "Sign up with your PAN card, Aadhaar, and bank details";
              VStr "Complete e-KYC (usually takes 5-10 minutes)";
              VStr "Link your bank account" ]);
    ("estimated_time", VStr "10-15 minutes") ].

Definition monitoring_step (step_num : Z) : dict :=
  [ ("step", VInt step_num);
    ("title", VStr "Set Up Regular Monitoring");
    ("description",
      VStr "Review your portfolio periodically to ensure it stays aligned with your goals.");
    ("instructions",
      VList [ VStr "Check your portfolio once a month";
              VStr "Review performance quarterly";
              VStr "Rebalance if allocation drifts by more than 5%";
              VStr "Continue SIPs as planned" ]);
    ("estimated_time", VStr "Ongoing") ].

(** The step of one allocation entry. *)
Definition allocation_step (recommended_assets : option (list value)) (step_num : Z)
    (rec : value) : result dict :=
  rbind (Val.getattr_get "category" (VStr "Unknown") rec) (fun category =>
  rbind (Val.getattr_get "allocation_percentage" (VInt 0) rec) (fun percentage =>
  rbind (_get_fund_suggestion category recommended_assets) (fun fund_name =>
  rbind (_get_category_instructions category fund_name) (fun instructions =>
    Ok [ ("step", VInt step_num);
         ("title", VStr ("Invest " +++ Val.str percentage +++ "% in " +++ Val.str category));
         ("description",
           VStr ("Allocate " +++ Val.str percentage +++ "% of your investment amount to " +++
                 Val.str category +++ " funds."));
         ("fund_suggestion", fund_name);
         ("instructions", VList (map VStr instructions));
         ("estimated_time", VStr "5-10 minutes per fund") ])))).

(** The loop over the allocation: the steps, and the number the next
    step gets. *)
Fixpoint allocation_steps (recommended_assets : option (list value)) (step_num : Z)
    (allocation : list value) : result (list dict * Z) :=
  match allocation with
  | [] => Ok ([], step_num)
  | rec :: r =>
      rbind (allocation_step recommended_assets step_num rec) (fun step =>
      rbind (allocation_steps recommended_assets (step_num + 1) r) (fun rest =>
        Ok (step :: fst rest, snd rest)))
  end.

(** [_generate_action_plan] *)
Definition _generate_action_plan (allocation : list value)
    (recommended_assets : option (list value)) : result (list dict) :=
  rbind (allocation_steps recommended_assets 2 allocation) (fun middle =>
    Ok (kyc_step 1 :: fst middle ++ [monitoring_step (snd middle)])).

(** One line of the explanation. *)
Definition explanation_line (rec : value) : result string :=
  rbind (Val.getattr_get "category" (VStr "Unknown") rec) (fun category =>
  rbind (Val.getattr_get "allocation_percentage" (VInt 0) rec) (fun percentage =>
  rbind (Val.getattr_get "rationale" (VStr "") rec) (fun rationale =>
    Ok (bullet_mark +++ " **" +++ Val.str category +++ "**: " +++ Val.str percentage +++ "%"
        +++ (if Val.truthy rationale then " - " +++ Val.str rationale else "")
        +++ Py.nl)))).

(** [_generate_short_explanation] *)
Definition _generate_short_explanation (risk_profile : string) (allocation : list value)
    : result string :=
  rbind (Num.sum_by
           (fun rec =>
              rbind (Val.getattr_get "allocation_percentage" (VInt 0) rec)
                    (fun p => Ok (Some p)))
           allocation) (fun total_allocation =>
  rbind (OutputAgent.map_result explanation_line allocation) (fun body =>
    Ok ("Based on your " +++ risk_profile +++ " risk profile, here's your investment plan:"
        +++ Py.nl +++ Py.nl +++ "Your portfolio is divided into:" +++ Py.nl
        +++ String.concat "" body
        +++ (if Num.ltb total_allocation 100 then
               Py.nl +++ "*Note: Total allocation is " +++
               Val.str (Num.to_value total_allocation) +++
               "%. Consider allocating the remaining " +++
               Val.str (Num.to_value (Num.sub_from 100 total_allocation)) +++
               "% to emergency fund or savings.*" +++ Py.nl
             else "")))).

(** [rec.get("category", "").lower()] for every entry. *)
Definition categories_of (allocation : list value) : result (list string) :=
  OutputAgent.map_result
    (fun rec => rbind (Val.getattr_get "category" (VStr "") rec) lower_of) allocation.

Definition strs (l : list string) : value := VList (map VStr l).

(** [_suggest_platforms] *)
Definition _suggest_platforms (allocation : list value) : result dict :=
  rbind (categories_of allocation) (fun categories =>
    let has_etf :=
      existsb (fun cat => Py.contains "etf" cat || Py.contains "exchange traded" cat)
              categories in
    let has_mf :=
      existsb (fun cat => Py.contains "equity" cat || Py.contains "mutual" cat
                          || Py.contains "fund" cat)
              (filter (fun cat => negb (Py.contains "etf" cat)) categories) in
    let has_gold := existsb (Py.contains "gold") categories in
    let first3 key :=
      match table_get key PLATFORMS with
      | Some l => firstn 3 l
      | None => []
      end in
    Ok [ ("mutual_funds", strs (if has_mf || has_gold then first3 "mutual_funds" else []));
         ("etf", strs (if has_etf then first3 "etf" else []));
         ("general", strs ["Groww"; "Zerodha"; "Kuvera"]) ]).

Definition equity_categories : list string :=
  ["equity"; "large cap"; "mid cap"; "small cap"; "index"; "etf"].

(** The term an entry adds to the equity exposure: its percentage when
    its category names an equity class. *)
Definition equity_term (rec : value) : result (option value) :=
  rbind (rbind (Val.getattr_get "category" (VStr "") rec) lower_of) (fun cat =>
    if Py.any_in equity_categories cat
    then rbind (Val.getattr_get "allocation_percentage" (VInt 0) rec) (fun p => Ok (Some p))
    else Ok None).

Definition sip_benefits : list string :=
  [ "Reduces impact of market volatility";
    "Builds investment discipline";
    "Averages out purchase price";
    "Requires smaller initial capital" ].

Definition lumpsum_uses : list string :=
  [ "You have a large amount ready (bonus, tax refund)";
    "Market is in a correction phase";
    "You're comfortable with timing the market" ].

Definition lumpsum_considerations : list string :=
  [ "Higher risk if market falls immediately after investment";
    "Requires larger initial capital";
    "Better for experienced investors" ].

(** [_suggest_sip_vs_lumpsum] *)
Definition _suggest_sip_vs_lumpsum (risk_profile : string) (allocation : list value)
    : result dict :=
  rbind (Num.sum_by equity_term allocation) (fun equity_percentage =>
    let reason :=
      if String.eqb risk_profile "Safe" then
        "SIP is safer as it spreads risk over time. Perfect for conservative investors."
      else if String.eqb risk_profile "Moderate" then
        "SIP helps moderate investors build wealth gradually while managing risk."
      else
        "Even aggressive investors benefit from SIP discipline. Consider 60% SIP + 40% Lumpsum if you have capital ready." in
    let more_uses :=
      if String.eqb risk_profile "Safe" then []
      else if String.eqb risk_profile "Moderate"
      then ["Consider 70% SIP + 30% Lumpsum for balance"]
      else ["You can take advantage of market dips with lumpsum"] in
    let more_benefits :=
      if Num.gtb equity_percentage 60
      then ["Especially important for high equity exposure"] else [] in
    Ok [ ("recommendation", VStr "SIP (Systematic Investment Plan)");
         ("reason", VStr reason);
         ("sip_details",
           VDict [ ("frequency", VStr "Monthly");
                   ("start_date", VStr "1st or 15th of each month");
                   ("benefits", strs (sip_benefits ++ more_benefits)) ]);
         ("lumpsum_details",
           VDict [ ("when_to_use", strs (lumpsum_uses ++ more_uses));
                   ("considerations", strs lumpsum_considerations) ]) ]).

(** [generate_implementation_plan] *)
Definition generate_implementation_plan (risk_profile : value) (allocation : list value)
    (recommended_assets : option (list value)) : result dict :=
  rbind (normalize_profile risk_profile) (fun profile =>
  rbind (_generate_short_explanation profile allocation) (fun explanation =>
  rbind (_generate_action_plan allocation recommended_assets) (fun action_plan =>
  rbind (_suggest_platforms allocation) (fun platforms =>
  rbind (_suggest_sip_vs_lumpsum profile allocation) (fun sip =>
    Ok [ ("risk_profile", VStr profile);
         ("short_explanation", VStr explanation);
         ("action_plan", VList (map VDict action_plan));
         ("platform_suggestions", VDict platforms);
         ("sip_vs_lumpsum", VDict sip) ]))))).

End Agent.

End ImplementationAgent.

(** An allocation entry the implementation agent can work with: a dict
    whose category and rationale, if it has them, are strs, and whose
    percentage, if it has one, is an int of 64 bits, far from the ints
    too long to be printed. *)
Definition plain_entry (rec : value) : bool :=
  match rec with
  | VDict d =>
      Val.is_str (Val.get_or "category" (VStr "") d) &&
      (match Val.get_or "allocation_percentage" (VInt 0) d with
       | VInt z => (-9223372036854775808 <=? z) && (z <? 9223372036854775808)
       | VBool _ => true
       | _ => false
       end &&
       Val.is_str (Val.get_or "rationale" (VStr "") d))
  | _ => false
  end.

(** Recommended assets that are all strs, or none given. *)
Definition plain_assets (recommended_assets : option (list value)) : bool :=
  match recommended_assets with
  | Some assets => forallb Val.is_str assets
  | None => true
  end.

(* ===================================================================== *)
(** * Historical queries                                                  *)
(* ===================================================================== *)

(** [parse_historical_query] of [app/tools/enhanced_csv_tools.py] and
    [HistoricalAnalysisOrchestrator._extract_historical_data] of
    [vectordb/enhanced_orchestrator.py]. *)
Module Historical.

Definition is_digit (c : ascii) : bool := Py.between 48 57 (Py.code c).

Definition digit (c : ascii) : Z := Z.of_nat (Py.code c - 48).

(** A word character of a pattern: a letter, a digit or a numeric
    character, or the underscore. *)
Definition is_word_char (c : ascii) : bool :=
  let n := Py.code c in
  Py.between 48 57 n || Py.between 65 90 n || Py.between 97 122 n || (n =? 95)%nat
  || (n =? 170)%nat || (n =? 178)%nat || (n =? 179)%nat || (n =? 181)%nat
  || (n =? 185)%nat || (n =? 186)%nat || Py.between 188 190 n
  || (Py.between 192 255 n && negb (n =? 215)%nat && negb (n =? 247)%nat).

(** The year pattern at the head of a text that a word boundary
    precedes: 20 and two digits, and then a word boundary. *)
Definition year_here (s : string) : option Z :=
  match s with
  | String a (String b (String c (String d rest))) =>
      if Ascii.eqb a "2" && Ascii.eqb b "0" && is_digit c && is_digit d
         && match rest with
            | EmptyString => true
            | String e _ => negb (is_word_char e)
            end
      then Some (2000 + 10 * digit c + digit d)
      else None
  | _ => None
  end.

(** [re.findall] of the year pattern, read as ints: the matches from left
    to right, none overlapping another.  [skip] counts the characters of
    a match still to pass; [prev_word] tells whether the character before
    is a word character. *)
Fixpoint years_go (skip : nat) (prev_word : bool) (s : string) : list Z :=
  match s with
  | EmptyString => []
  | String c r =>
      match skip with
      | S k => years_go k true r
      | O =>
          match (if prev_word then None else year_here s) with
          | Some y => y :: years_go 3 true r
          | None => years_go 0 (is_word_char c) r
          end
      end
  end.

Definition find_years (query : string) : list Z := years_go 0 false query.

Definition month_names : list string :=
  [ "january"; "february"; "march"; "april"; "may"; "june";
    "july"; "august"; "september"; "october"; "november"; "december" ].

(** The months whose name occurs in the text, in calendar order. *)
Fixpoint months_from (i : Z) (names : list string) (query_lower : string) : list Z :=
  match names with
  | [] => []
  | name :: r =>
      (if Py.contains name query_lower then [i] else []) ++ months_from (i + 1) r query_lower
  end.

(** Pieces of the date-range patterns, each giving what it leaves of the
    text: a date written with four, two and two digits; a run of white
    space; a literal. *)
Definition date_here (s : string) : option (string * string) :=
  match s with
  | String y1 (String y2 (String y3 (String y4 (String h1 (String m1 (String m2
      (String h2 (String d1 (String d2 rest))))))))) =>
      if is_digit y1 && is_digit y2 && is_digit y3 && is_digit y4 && Ascii.eqb h1 "-"
         && is_digit m1 && is_digit m2 && Ascii.eqb h2 "-" && is_digit d1 && is_digit d2
      then Some (Py.take 10 s, rest)
      else None
  | _ => None
  end.

Definition spaces (s : string) : option string :=
  match s with
  | String c r => if Py.is_space c then Some (Py.lstrip r) else None
  | EmptyString => None
  end.

Definition literal (p s : string) : option string :=
  if Py.startswith p s then Some (Str.drop (String.length p) s) else None.

Definition and_then {A B} (o : option A) (k : A -> option B) : option B :=
  match o with Some a => k a | None => None end.

(** White space, a joining word, white space and the second date. *)
Definition second_date (word rest : string) : option string :=
  and_then (spaces rest) (fun r =>
  and_then (literal word r) (fun r =>
  and_then (spaces r) (fun r =>
  and_then (date_here r) (fun d => Some (fst d))))).

(** The three patterns, matched at the head of a text. *)
Definition to_pattern (s : string) : option (string * string) :=
  and_then (date_here s) (fun d1 =>
  and_then (second_date "to" (snd d1)) (fun d2 => Some (fst d1, d2))).

Definition from_pattern (s : string) : option (string * string) :=
  and_then (literal "from" s) (fun r =>
  and_then (spaces r) to_pattern).

Definition between_pattern (s : string) : option (string * string) :=
  and_then (literal "between" s) (fun r =>
  and_then (spaces r) (fun r =>
  and_then (date_here r) (fun d1 =>
  and_then (second_date "and" (snd d1)) (fun d2 => Some (fst d1, d2))))).

(** [re.search]: the match at the leftmost place where there is one. *)
Fixpoint search {A} (pattern : string -> option A) (s : string) : option A :=
  match pattern s with
  | Some m => Some m
  | None =>
      match s with
      | EmptyString => None
      | String _ r => search pattern r
      end
  end.

(** The first of the three patterns that is found. *)
Definition find_date_range (query : string) : option (string * string) :=
  match search to_pattern query with
  | Some m => Some m
  | None =>
      match search from_pattern query with
      | Some m => Some m
      | None => search between_pattern query
      end
  end.

(** The dict [parse_historical_query] returns. *)
Record parsed_query : Type := {
  years : list Z;
  months : list Z;
  date_range : option (string * string);
  query_type : string
}.

(** [parse_historical_query] *)
Definition parse_historical_query (query : string) : parsed_query :=
  let query_lower := Py.lower query in
  let years := find_years query in
  let months := months_from 1 month_names query_lower in
  let date_range := find_date_range query in
  {| years := years;
     months := months;
     date_range := date_range;
     query_type :=
       match years, months, date_range with
       | _ :: _, _, _ => "year"
       | [], _ :: _, _ => "month"
       | [], [], Some _ => "date_range"
       | [], [], None => "general"
       end |}.

Section Extract.

(** The extractors of [enhanced_csv_tools.py], which read the CSV file,
    and the years the file covers, oldest first. *)
Variable extract_year_data : value -> result dict.
Variable extract_year_range_data : value -> value -> result dict.
Variable extract_month_data : value -> value -> result dict.
Variable extract_date_range_data : string -> string -> result dict.
Variable get_available_years : list value.

Definition no_data : dict :=
  [("error", VStr "No data available"); ("data_available", VBool false)].

(** [min(years)] and [max(years)] of a list that is not empty. *)
Definition least (y : Z) (ys : list Z) : Z := fold_left Z.min ys y.
Definition greatest (y : Z) (ys : list Z) : Z := fold_left Z.max ys y.

(** The latest year of the file, [available_years[-1]]. *)
Definition latest_year : option value :=
  match get_available_years with
  | [] => None
  | y :: r => Some (last r y)
  end.

(** The [try] block of [_extract_historical_data]. *)
Definition extract_body (message : string) : result dict :=
  let parsed := parse_historical_query message in
  if String.eqb (query_type parsed) "year" then
    match years parsed with
    | [y] => extract_year_data (VInt y)
    | y :: ys => extract_year_range_data (VInt (least y ys)) (VInt (greatest y ys))
    | [] =>
        match latest_year with
        | Some y => extract_year_data y
        | None => Ok no_data
        end
    end
  else if String.eqb (query_type parsed) "month" then
    let year :=
      match years parsed with
      | y :: _ => VInt y
      | [] => match latest_year with Some y => y | None => VInt 2023 end
      end in
    match months parsed with
    | m :: _ => extract_month_data year (VInt m)
    | [] => extract_year_data year
    end
  else if String.eqb (query_type parsed) "date_range" then
    match date_range parsed with
    | Some (start_date, end_date) => extract_date_range_data start_date end_date
    | None => Raise (TypeError "cannot unpack non-iterable NoneType object")
    end
  else
    match latest_year with
    | Some y => extract_year_data y
    | None => Ok no_data
    end.

(** [_extract_historical_data] *)
Definition _extract_historical_data (message : string) : dict :=
  match extract_body message with
  | Ok d => d
  | Raise e => [("error", VStr (exn_msg e)); ("data_available", VBool false)]
  end.

End Extract.

(** An int handed to [datetime], which takes its arguments as C ints: one
    beyond a C long is refused, then one beyond a C int. *)
Definition fits_c_int (z : Z) : bool := (-2147483648 <=? z) && (z <=? 2147483647).

Definition as_c_int (z : Z) : result Z :=
  if (z <? -9223372036854775808) || (9223372036854775807 <? z) then
    Raise (OverflowError "Python int too large to convert to C long")
  else if 2147483647 <? z then
    Raise (OverflowError "signed integer is greater than maximum")
  else if z <? -2147483648 then
    Raise (OverflowError "signed integer is less than minimum")
  else Ok z.

(** [datetime(year, month, 1).strftime('%B')]: the constructor reads the
    year and the month as C ints, then checks the year, then the
    month. *)
Definition calendar : list string :=
  [ "January"; "February"; "March"; "April"; "May"; "June";
    "July"; "August"; "September"; "October"; "November"; "December" ].

Definition month_name (year month : Z) : result string :=
  rbind (as_c_int year) (fun year =>
  rbind (as_c_int month) (fun month =>
    if (year <? 1) || (9999 <? year) then
      Raise (ValueError ("year " +++ Py.str_of_Z year +++ " is out of range"))
    else if (month <? 1) || (12 <? month) then
      Raise (ValueError "month must be in 1..12")
    else Ok (nth (Z.to_nat (month - 1)) calendar ""))).

Section Month.

(** What the file gives for a month: nothing when no row is of that
    month, else the number of rows, their total as a float and the totals
    by category; or the exception raised on the way. *)
Variable month_summary : Z -> Z -> result (option (value * value * value)).

Definition month_failure (year month : Z) (e : exn) : result dict :=
  rbind (month_name year month) (fun name =>
  Ok [ ("year", VInt year); ("month", VInt month); ("month_name", VStr name);
       ("error", VStr (exn_msg e)); ("data_available", VBool false) ]).

Definition month_body (year month : Z) : result dict :=
  rbind (month_summary year month) (fun s =>
  match s with
  | None =>
      rbind (month_name year month) (fun name =>
      Ok [ ("year", VInt year); ("month", VInt month); ("month_name", VStr name);
           ("total_transactions", VInt 0); ("total_spent", VInt 0);
           ("categories", VList []); ("data_available", VBool false) ])
  | Some (total_transactions, total_spent, categories) =>
      rbind (month_name year month) (fun name =>
      Ok [ ("year", VInt year); ("month", VInt month); ("month_name", VStr name);
           ("total_transactions", total_transactions); ("total_spent", total_spent);
           ("categories", categories); ("data_available", VBool true) ])
  end).

(** [extract_month_data]: the handler of its [try] builds the month's
    name as the body does. *)
Definition extract_month_data (year month : Z) : result dict :=
  match month_body year month with
  | Ok d => Ok d
  | Raise e => month_failure year month e
  end.

End Month.

End Historical.

(* ===================================================================== *)
(** * The configuration of the LLM client                                 *)
(* ===================================================================== *)

(** [LLMClient.__init__] of [llm/llm_client.py], over the environment of
    the process.  The line it prints is left out. *)
Module LLMConfig.

(** [os.getenv(name, default)] *)
Definition getenv (environ : string -> option string) (name default : string) : string :=
  match environ name with
  | Some v => v
  | None => default
  end.

(** [a or b] for strs. *)
Definition or_str (a b : string) : string :=
  match a with
  | EmptyString => b
  | String _ _ => a
  end.

(** [LLMClient.__init__] *)
Definition __init__ (environ : string -> option string) (base_url : option string)
    (timeout retries : Z) (backoff_seconds : float) : LLMClient.client :=
  let model_env := getenv environ "GEMINI_MODEL" "gemini-flash-latest" in
  {| LLMClient.provider := Py.lower (or_str (getenv environ "LLM_PROVIDER" "free") "free");
     LLMClient.base_url :=
       match base_url with
       | Some ((String _ _) as url) => url
       | _ => getenv environ "LLM_BASE_URL" "https://apifreellm.com/api/chat"
       end;
     LLMClient.timeout := timeout;
     LLMClient.retries := retries;
     LLMClient.backoff_seconds := backoff_seconds;
     LLMClient.payload_style :=
       or_str (Py.strip (Py.lower (getenv environ "LLM_PAYLOAD_STYLE" "message"))) "message";
     LLMClient.gemini_api_key := environ "GEMINI_API_KEY";
     LLMClient.gemini_model :=
       if Py.contains "2.0" model_env || String.eqb "1.5-flash" model_env
       then "gemini-flash-latest"
       else model_env;
     LLMClient.openrouter_api_key := environ "OPENROUTER_API_KEY";
     LLMClient.openrouter_model :=
       getenv environ "OPENROUTER_MODEL" "google/gemini-2.0-flash-exp:free" |}.

End LLMConfig.

(** A text in which a year is found whatever is written before it. *)
Definition has_year (s : string) : Prop :=
  forall pre prev, Historical.years_go 0 prev (pre +++ s) <> [].

(* ===================================================================== *)
(** * Scenarios                                                           *)
(* ===================================================================== *)

(** The concrete clients, worlds and files the properties below are
    evaluated on. *)

(** An LLM client whose every completion fails in transit. *)
Definition failing_llm : llm_client :=
  {| answer_at := fun _ _ => Raise (RuntimeError "LLM request failed: timed out") |}.


(** The text [{"k1": v1, "k2": v2, ...}] for raw JSON texts [v]. *)
Definition json_object (fields : list (string * string)) : string :=
  "{" +++ Py.join ", " (map (fun kv => Py.quoted (fst kv) +++ ": " +++ snd kv) fields) +++ "}".

Definition demo_intent_text : string :=
  json_object
    [ ("query_type", Py.quoted "investment_advice");
      ("intent", Py.quoted "allocation advice");
      ("requires_knowledge", "true");
      ("requires_transaction_data", "false");
      ("requires_market_data", "false");
      ("keywords", "[" +++ Py.quoted "index" +++ ", " +++ Py.quoted "funds" +++ "]");
      ("risk_profile_needed", "true") ].

Definition demo_strategy_text : string :=
  json_object
    [ ("strategy_summary", Py.quoted "Favour low-cost index funds.");
      ("recommendations", "[]");
      ("action_items", "[" +++ Py.quoted "Start a monthly SIP" +++ "]");
      ("risk_notes", Py.quoted "");
      ("time_horizon", Py.quoted "long") ].

Definition demo_risk_text : string :=
  json_object
    [ ("risk_alignment", Py.quoted "high");
      ("risk_score", "4");
      ("adjustments_needed", "false");
      ("adjusted_recommendations", "[]");
      ("risk_warnings", "[]");
      ("suitability", Py.quoted "suitable") ].

Definition demo_intent : dict :=
  [ ("query_type", VStr "investment_advice");
    ("intent", VStr "allocation advice");
    ("requires_knowledge", VBool true);
    ("requires_transaction_data", VBool false);
    ("requires_market_data", VBool false);
    ("keywords", VList [VStr "index"; VStr "funds"]);
    ("risk_profile_needed", VBool true) ].

Definition demo_chunk : chunk :=
  {| content := "Index funds track a market index at low cost.";
     metadata := [("title", VStr "Index investing"); ("type", VStr "strategy")] |}.

(** An LLM that answers the parsing prompt with an investment intent,
    then a strategy, then a risk assessment; a knowledge store with one
    chunk; no CSV file and no profile. *)
Definition demo_world : Orchestrator.world :=
  {| Orchestrator.llm :=
       {| answer_at := fun n _ =>
            match n with
            | O => Ok demo_intent_text
            | S O => Ok demo_strategy_text
            | _ => Ok demo_risk_text
            end |};
     Orchestrator.system_advisor := "You are Co Penny Advisor.";
     Orchestrator.retrieve_knowledge := fun _ => Ok [demo_chunk];
     Orchestrator.profiles :=
       {| RiskAgent.stored_profile := fun _ => None; RiskAgent.profile_file := None |};
     Orchestrator.csv :=
       {| _BASE_DIR := "/srv/copenny"; DATA_PATH := "/srv/copenny/data/transactions.csv";
          files := fun _ => None; _HAS_DUCKDB := false;
          sql_date_text := Frame.iso_day |};
     Orchestrator.data_context := fun _ _ => Ok ("", []);
     Orchestrator.financial_analysis := fun _ _ => Ok VNone;
     Orchestrator.generate_implementation_plan := fun _ _ _ => Ok (VDict [("steps", VList [])]);
     Orchestrator.format_implementation_response := fun plan => Ok (plan, "Plan") |}.

Definition demo_message : string := "Should I invest in index funds?".


(** A risk assessment with one adjusted recommendation, and a strategy
    whose own recommendation differs. *)
Definition demo_adjusted : list value :=
  [ VDict [ ("category", VStr "Equity");
            ("original_allocation", VInt 70);
            ("adjusted_allocation", VInt 50);
            ("reason", VStr "Moderate risk tolerance") ] ].

Definition demo_assessment : dict :=
  [ ("risk_alignment", VStr "medium");
    ("risk_score", VInt 6);
    ("adjustments_needed", VBool true);
    ("adjusted_recommendations", VList demo_adjusted);
    ("risk_warnings", VList [VStr "Equity is volatile"]);
    ("suitability", VStr "moderately_suitable") ].

Definition demo_strategy : dict :=
  [ ("strategy_summary", VStr "Grow wealth with equity.");
    ("recommendations",
      VList [ VDict [ ("category", VStr "Equity");
                      ("allocation_percentage", VInt 70);
                      ("rationale", VStr "Long horizon") ] ]);
    ("action_items", VList [VStr "Open a demat account"]);
    ("risk_notes", VStr "");
    ("time_horizon", VStr "long") ].

(** A response holds no JSON object the agents can use when the pattern
    finds no brace group in it, or [json.loads] refuses the group found. *)
Definition no_usable_object `{PyRuntime} (response : string) : Prop :=
  match Json.search_flat_object response with
  | None => True
  | Some text => is_ok (json_loads text) = false
  end.

(** An LLM whose assessment gives the adjusted recommendations as texts,
    and one that answers in the format the Risk prompt asks for, with an
    object for each adjusted recommendation. *)
Definition flat_risk_response : string :=
  json_object
    [ ("risk_score", "7");
      ("adjusted_recommendations",
        "[" +++ Py.quoted "Equity 50%" +++ ", " +++ Py.quoted "Debt 50%" +++ "]") ].

Definition flat_risk_llm : llm_client :=
  {| answer_at := fun _ _ => Ok flat_risk_response |}.

Definition flat_assessment : dict :=
  [ ("risk_score", VInt 7);
    ("adjusted_recommendations", VList [VStr "Equity 50%"; VStr "Debt 50%"]) ].

Definition nested_risk_response : string :=
  json_object
    [ ("risk_alignment", Py.quoted "medium");
      ("risk_score", "7");
      ("adjustments_needed", "true");
      ("adjusted_recommendations",
        "[" +++ json_object [ ("category", Py.quoted "Equity");
                              ("original_allocation", "70");
                              ("adjusted_allocation", "50");
                              ("reason", Py.quoted "Moderate risk tolerance") ] +++ "]");
      ("risk_warnings", "[" +++ Py.quoted "Equity is volatile" +++ "]");
      ("suitability", Py.quoted "moderately_suitable") ].

Definition nested_risk_llm : llm_client :=
  {| answer_at := fun _ _ => Ok nested_risk_response |}.

(** An LLM that answers in prose, and one that wraps a small JSON object
    in prose. *)
Definition prose_llm : llm_client :=
  {| answer_at := fun _ _ => Ok "I would rather explain this in words." |}.

Definition chatty_response : string :=
  "Sure! " +++ json_object [("strategy_summary", Py.quoted "Buy index funds")] +++
  " Let me know if you need more.".

Definition chatty_llm : llm_client :=
  {| answer_at := fun _ _ => Ok chatty_response |}.

(** The table of the specification's example: one March-2024 row of
    Groceries for 500 and one of Rent for 15000. *)
Definition march_frame (day1 day2 : Z) : Frame.frame :=
  {| Frame.columns := ["date"; "amount"; "category"];
     Frame.rows :=
       [ [Frame.CDate 2024 3 day1; Frame.CNum 500; Frame.CStr "Groceries"];
         [Frame.CDate 2024 3 day2; Frame.CNum 15000; Frame.CStr "Rent"] ] |}.

(** A table with neither a date nor a merchant column, and one with no
    amount column. *)
Definition no_date_frame : Frame.frame :=
  {| Frame.columns := ["amount"; "category"];
     Frame.rows := [ [Frame.CNum 500; Frame.CStr "Groceries"] ] |}.

Definition no_amount_frame : Frame.frame :=
  {| Frame.columns := ["date"; "category"];
     Frame.rows := [ [Frame.CDate 2024 3 5; Frame.CStr "Groceries"] ] |}.

(** A file system with the example as the shared default file, the two
    tables above, and a file of zero bytes. *)
Definition demo_env (duckdb : bool) : env :=
  {| _BASE_DIR := "/srv/copenny";
     DATA_PATH := "/srv/copenny/data/transactions.csv";
     files := fun path =>
       if String.eqb path "/srv/copenny/data/transactions.csv"
       then Some (Frame.Csv (march_frame 5 1))
       else if String.eqb path "/tmp/no_date.csv" then Some (Frame.Csv no_date_frame)
       else if String.eqb path "/tmp/no_amount.csv" then Some (Frame.Csv no_amount_frame)
       else if String.eqb path "/tmp/empty.csv" then Some Frame.EmptyCsv
       else None;
     _HAS_DUCKDB := duckdb;
     sql_date_text := Frame.iso_day |}.

(** A file system with no CSV file at all. *)
Definition bare_env (duckdb : bool) : env :=
  {| _BASE_DIR := "/srv/copenny";
     DATA_PATH := "/srv/copenny/data/transactions.csv";
     files := fun _ => None;
     _HAS_DUCKDB := duckdb;
     sql_date_text := Frame.iso_day |}.

(** Merchant tables: a purchase and its refund, which sum to zero, and
    two amounts that pandas reads as [inf] and [-inf], which sum to NaN. *)
Definition refund_frame : Frame.frame :=
  {| Frame.columns := ["date"; "merchant"; "amount"];
     Frame.rows :=
       [ [Frame.CDate 2024 3 5; Frame.CStr "Shop"; Frame.CNum 50];
         [Frame.CDate 2024 3 9; Frame.CStr "Refund"; Frame.CNum (-50)] ] |}.

Definition infinite_frame : Frame.frame :=
  {| Frame.columns := ["date"; "merchant"; "amount"];
     Frame.rows :=
       [ [Frame.CDate 2024 3 5; Frame.CStr "A"; Frame.CNum infinity];
         [Frame.CDate 2024 3 9; Frame.CStr "B"; Frame.CNum neg_infinity] ] |}.

(** A file system whose shared default file is the given table. *)
Definition env_with (df : Frame.frame) : env :=
  {| _BASE_DIR := "/srv/copenny";
     DATA_PATH := "/srv/copenny/data/transactions.csv";
     files := fun path =>
       if String.eqb path "/srv/copenny/data/transactions.csv"
       then Some (Frame.Csv df) else None;
     _HAS_DUCKDB := false;
     sql_date_text := Frame.iso_day |}.

(** The client as its constructor leaves it with no environment
    variable set: the default provider, two retries, 1.5 s of backoff. *)
Definition default_client : LLMClient.client :=
  {| LLMClient.provider := "free";
     LLMClient.base_url := "https://apifreellm.com/api/chat";
     LLMClient.timeout := 60;
     LLMClient.retries := 2;
     LLMClient.backoff_seconds := 1.5%float;
     LLMClient.payload_style := "message";
     LLMClient.gemini_api_key := None;
     LLMClient.gemini_model := "gemini-flash-latest";
     LLMClient.openrouter_api_key := None;
     LLMClient.openrouter_model := "google/gemini-2.0-flash-exp:free" |}.

(** A provider that answers 200 with the JSON array [[]], and a network
    on which no request gets through. *)
Definition array_transport : LLMClient.transport :=
  {| LLMClient.post_at := fun _ _ _ => LLMClient.Response 200 "[]" |}.

Definition dead_transport : LLMClient.transport :=
  {| LLMClient.post_at := fun _ _ _ => LLMClient.RequestException "connection refused" |}.

(** A spending question, which the keyword chain types as a transaction
    analysis, and an investment question that names two buckets. *)
Definition budget_query : string :=
  "How can I budget my monthly grocery expenses better this year?".

Definition bucket_query : string :=
  "Should I invest mostly in blue chip stocks with some mid cap funds?".

(** The demonstration world with the example table as the shared CSV
    file, read through pandas. *)
Definition march_world : Orchestrator.world :=
  {| Orchestrator.llm := Orchestrator.llm demo_world;
     Orchestrator.system_advisor := Orchestrator.system_advisor demo_world;
     Orchestrator.retrieve_knowledge := Orchestrator.retrieve_knowledge demo_world;
     Orchestrator.profiles := Orchestrator.profiles demo_world;
     Orchestrator.csv := demo_env false;
     Orchestrator.data_context := Orchestrator.data_context demo_world;
     Orchestrator.financial_analysis := Orchestrator.financial_analysis demo_world;
     Orchestrator.generate_implementation_plan :=
       Orchestrator.generate_implementation_plan demo_world;
     Orchestrator.format_implementation_response :=
       Orchestrator.format_implementation_response demo_world |}.

(** A client constructed with [retries=-1]. *)
Definition hasty_client : LLMClient.client :=
  {| LLMClient.provider := "free";
     LLMClient.base_url := "https://apifreellm.com/api/chat";
     LLMClient.timeout := 60;
     LLMClient.retries := -1;
     LLMClient.backoff_seconds := 1.5%float;
     LLMClient.payload_style := "message";
     LLMClient.gemini_api_key := None;
     LLMClient.gemini_model := "gemini-flash-latest";
     LLMClient.openrouter_api_key := None;
     LLMClient.openrouter_model := "google/gemini-2.0-flash-exp:free" |}.

(** A DuckDB that answers every query with the example table, and rows
    handed over as the list of their cells' texts left out. *)
Definition march_engine (path query : string) : result Frame.frame :=
  Ok (march_frame 5 1).

Definition bare_record (columns : list string) (row : list Frame.cell) : value :=
  VDict (map (fun c => (c, VNone)) columns).

(** A table of purchases with no date column. *)
Definition undated_frame : Frame.frame :=
  {| Frame.columns := ["merchant"; "amount"; "category"];
     Frame.rows :=
       [ [Frame.CStr "Grocer"; Frame.CNum 500; Frame.CStr "Groceries"];
         [Frame.CStr "Landlord"; Frame.CNum 15000; Frame.CStr "Rent"] ] |}.

(** An allocation as the strategy stage hands it over, with a fixed
    deposit among the categories, and two funds a strategy named. *)
Definition demo_allocation : list value :=
  [ VDict [ ("category", VStr "Equity Index Fund"); ("allocation_percentage", VInt 50);
            ("rationale", VStr "Growth") ];
    VDict [ ("category", VStr "Fixed Deposit"); ("allocation_percentage", VInt 30) ];
    VDict [ ("category", VStr "Gold"); ("allocation_percentage", VInt 10) ] ].

Definition demo_assets : list value :=
  [VStr "UTI Nifty Index Fund"; VStr "SBI Gold ETF"].

(* ===================================================================== *)
(** * Properties                                                          *)
(* ===================================================================== *)

(** ** General facts *)

Lemma mem_In (x : string) (xs : list string) :
  Py.mem x xs = true <-> In x xs.
Proof.
  unfold Py.mem. rewrite existsb_exists. split.
  - intros [y [Hy Heq]]. apply String.eqb_eq in Heq. now subst.
  - intros Hin. exists x. split; [assumption | apply String.eqb_refl].
Qed.

Lemma completions_app (t u : trace) :
  completions (t ++ u) = (completions t + completions u)%nat.
Proof.
  unfold completions. rewrite filter_app, length_app. reflexivity.
Qed.

Lemma ran_stage_app (s : stage) (t u : trace) :
  ran_stage s (t ++ u) = ran_stage s t || ran_stage s u.
Proof. unfold ran_stage. apply existsb_app. Qed.

Lemma try_except_ok {A} (m : M A) (handler : exn -> M A) (t t' : trace) (a : A) :
  m t = (Ok a, t') -> try_except m handler t = (Ok a, t').
Proof. intros Hm. unfold try_except. now rewrite Hm. Qed.

Lemma try_except_raise {A} (m : M A) (handler : exn -> M A) (t t' : trace) (e : exn) :
  m t = (Raise e, t') -> try_except m handler t = handler e t'.
Proof. intros Hm. unfold try_except. now rewrite Hm. Qed.

Lemma bind_ok {A B} (m : M A) (k : A -> M B) (t t' : trace) (a : A) :
  m t = (Ok a, t') -> bind m k t = k a t'.
Proof. intros Hm. unfold bind. now rewrite Hm. Qed.

Lemma bind_raise {A B} (m : M A) (k : A -> M B) (t t' : trace) (e : exn) :
  m t = (Raise e, t') -> bind m k t = (Raise e, t').
Proof. intros Hm. unfold bind. now rewrite Hm. Qed.

(** A completion extends the trace by itself, whatever it answers. *)
Lemma complete_trace (c : llm_client) (prompt : string) (t : trace) :
  snd (complete c prompt t) = t ++ [EvComplete prompt].
Proof. reflexivity. Qed.

(* --------------------------------------------------------------------- *)
(** ** The parsing stage                                                  *)
(* --------------------------------------------------------------------- *)

Section ParsingProperties.
Context `{PyRuntime}.

(** C5.  A message that, lowercased and stripped, is one of the fixed
    greetings or has fewer than 4 characters is answered by the fixed
    greeting intent (intent "greeting", every requires_* flag false, no
    keywords), and the trace of external calls is left as it was: no LLM
    completion is made. *)
Theorem greeting_fast_path (client : llm_client) (user_query : string)
    (context : list dict) (t : trace) :
  In (Py.strip (Py.lower user_query)) ParsingAgent.greetings \/
  Py.len (Py.strip (Py.lower user_query)) < 4 ->
  ParsingAgent.parse_query client user_query context t
    = (Ok (VDict ParsingAgent.greeting_intent), t)
  /\ Val.get "intent" ParsingAgent.greeting_intent = VStr "greeting"
  /\ Val.get "requires_knowledge" ParsingAgent.greeting_intent = VBool false
  /\ Val.get "requires_transaction_data" ParsingAgent.greeting_intent = VBool false
  /\ Val.get "requires_market_data" ParsingAgent.greeting_intent = VBool false
  /\ Val.get "keywords" ParsingAgent.greeting_intent = VList [].
Proof.
  intros Hfast.
  assert (Hgate : Py.mem (Py.strip (Py.lower user_query)) ParsingAgent.greetings
                  || (Py.len (Py.strip (Py.lower user_query)) <? 4) = true).
  { apply orb_true_iff. destruct Hfast as [Hin | Hshort].
    - left. now apply mem_In.
    - right. now apply Z.ltb_lt. }
  unfold ParsingAgent.parse_query. rewrite Hgate.
  repeat split.
Qed.

(** The market branch of [_fallback_parse] assigns no
    [requires_transaction_data], and the result dict reads it. *)
Lemma fallback_parse_market_unbound (query : string) :
  ParsingAgent.query_type (ParsingAgent.classify (Py.lower query)) = "market_question" ->
  ParsingAgent._fallback_parse query = Raise (UnboundLocalError "requires_transaction_data").
Proof.
  intros Hq.
  assert (Hlocals :
    ParsingAgent.requires_knowledge (ParsingAgent.classify (Py.lower query)) = Some true
    /\ ParsingAgent.requires_transaction_data (ParsingAgent.classify (Py.lower query)) = None).
  { revert Hq. unfold ParsingAgent.classify.
    repeat match goal with
           | |- context [if Py.any_in ?ws ?q then _ else _] => destruct (Py.any_in ws q)
           end;
      cbn [ParsingAgent.query_type ParsingAgent.requires_knowledge
           ParsingAgent.requires_transaction_data];
      intros Hq; try discriminate Hq; split; reflexivity. }
  destruct Hlocals as [Hk Ht].
  unfold ParsingAgent._fallback_parse. rewrite Hk, Ht. reflexivity.
Qed.

(** When the completion raises, [parse_query] returns what
    [_fallback_parse] returns, and raises what it raises. *)
Lemma parse_query_llm_failure (client : llm_client) (user_query : string)
    (context : list dict) (t : trace) (e : exn) :
  Py.mem (Py.strip (Py.lower user_query)) ParsingAgent.greetings
  || (Py.len (Py.strip (Py.lower user_query)) <? 4) = false ->
  answer_at client (completions t) (ParsingAgent.parse_prompt user_query context) = Raise e ->
  fst (ParsingAgent.parse_query client user_query context t)
    = match ParsingAgent._fallback_parse user_query with
      | Ok d => Ok (VDict d)
      | Raise e' => Raise e'
      end.
Proof.
  intros Hgate Hllm. unfold ParsingAgent.parse_query. rewrite Hgate.
  unfold try_except, bind, complete, lift, ret. rewrite Hllm. simpl.
  destruct (ParsingAgent._fallback_parse user_query); reflexivity.
Qed.

End ParsingProperties.

(** C3 (the code departs from the claim).  With a failing LLM,
    [parse_query] on the market question below does not return the
    keyword-matching fallback: the fallback itself raises
    [UnboundLocalError], first inside the [try] block's handler and then
    out of [parse_query]. *)
Theorem parse_query_raises_on_market_query `{PyRuntime} (context : list dict) (t : trace) :
  fst (ParsingAgent.parse_query failing_llm "What is the market price today?" context t)
    = Raise (UnboundLocalError "requires_transaction_data").
Proof.
  rewrite (parse_query_llm_failure failing_llm _ context t
             (RuntimeError "LLM request failed: timed out")).
  - rewrite fallback_parse_market_unbound; reflexivity.
  - reflexivity.
  - reflexivity.
Qed.

(** The greeting fast path at the message [" Hello "]. *)
Lemma greeting_fast_path_witness :
  ParsingAgent.parse_query (H := Reference.runtime) failing_llm " Hello " [] []
    = (Ok (VDict ParsingAgent.greeting_intent), [])
  /\ Val.get "intent" ParsingAgent.greeting_intent = VStr "greeting"
  /\ Val.get "requires_knowledge" ParsingAgent.greeting_intent = VBool false
  /\ Val.get "requires_transaction_data" ParsingAgent.greeting_intent = VBool false
  /\ Val.get "requires_market_data" ParsingAgent.greeting_intent = VBool false
  /\ Val.get "keywords" ParsingAgent.greeting_intent = VList [].
Proof.
  apply (greeting_fast_path (H := Reference.runtime) failing_llm " Hello " [] []).
  left. vm_compute. tauto.
Defined.

(* --------------------------------------------------------------------- *)
(** ** The orchestrator                                                   *)
(* --------------------------------------------------------------------- *)

Section OrchestratorProperties.
Context `{PyRuntime}.
Variable W : Orchestrator.world.

(** Every branch of the constructor switches the agent workflow off. *)
Lemma init_use_vectordb (VECTORDB_AVAILABLE constructed : bool) :
  Orchestrator.use_vectordb (Orchestrator.__init__ VECTORDB_AVAILABLE constructed) = false.
Proof. destruct VECTORDB_AVAILABLE, constructed; reflexivity. Qed.

(** The original workflow makes its one completion and nothing else. *)
Lemma original_workflow_trace (self : Orchestrator.orchestrator) (message : string)
    (context : list dict) (user_id : option string) (t : trace) :
  snd (Orchestrator.original_workflow W message context user_id t)
    = t ++ [EvComplete
              (Orchestrator.chat_prompt W message context
                 (fst (Orchestrator._get_comprehensive_data_context W message user_id)))].
Proof.
  unfold Orchestrator.original_workflow.
  destruct (Orchestrator._get_comprehensive_data_context W message user_id)
    as [data_analysis visualizations].
  unfold bind, complete, ret. cbn [fst snd].
  destruct (answer_at (Orchestrator.llm W) (completions t)
              (Orchestrator.chat_prompt W message context data_analysis));
    reflexivity.
Qed.

(** With the agent workflow off, [chat] is the original workflow inside
    the outer handler. *)
Lemma chat_without_vectordb (self : Orchestrator.orchestrator) (message : string)
    (context : list dict) (user_id : option string) (t : trace) :
  Orchestrator.use_vectordb self = false ->
  Orchestrator.chat W self message context user_id t
    = try_except (Orchestrator.original_workflow W message context user_id)
                 (fun e => ret (Orchestrator.error_envelope e)) t.
Proof.
  intros Hoff. unfold Orchestrator.chat, Orchestrator.chat_body. rewrite Hoff.
  unfold try_except, bind, ret. reflexivity.
Qed.

(** C1, as the code has it.  An orchestrator built by its constructor has
    the agent workflow switched off, so [chat], for every message and
    whatever intent the message would parse to, extends the trace by one
    event: the completion of the single consolidated prompt (system text,
    data context, user message, recent conversation, instructions).  It
    issues exactly one LLM completion and enters no stage of the agent
    pipeline. *)
Theorem chat_single_completion (VECTORDB_AVAILABLE constructed : bool)
    (message : string) (context : list dict) (user_id : option string) (t : trace) :
  snd (Orchestrator.chat W (Orchestrator.__init__ VECTORDB_AVAILABLE constructed)
         message context user_id t)
    = t ++ [EvComplete
              (Orchestrator.chat_prompt W message context
                 (fst (Orchestrator._get_comprehensive_data_context W message user_id)))]
  /\ completions
       (snd (Orchestrator.chat W (Orchestrator.__init__ VECTORDB_AVAILABLE constructed)
               message context user_id t))
     = S (completions t)
  /\ forall s : stage,
       ran_stage s
         (snd (Orchestrator.chat W (Orchestrator.__init__ VECTORDB_AVAILABLE constructed)
                 message context user_id t))
       = ran_stage s t.
Proof.
  assert (Htrace :
    snd (Orchestrator.chat W (Orchestrator.__init__ VECTORDB_AVAILABLE constructed)
           message context user_id t)
    = t ++ [EvComplete
              (Orchestrator.chat_prompt W message context
                 (fst (Orchestrator._get_comprehensive_data_context W message user_id)))]).
  { rewrite chat_without_vectordb by apply init_use_vectordb.
    pose proof (original_workflow_trace
                  (Orchestrator.__init__ VECTORDB_AVAILABLE constructed)
                  message context user_id t) as Hw.
    unfold try_except.
    destruct (Orchestrator.original_workflow W message context user_id t) as [[d | e] t'];
      cbn [snd] in *; assumption. }
  split; [exact Htrace |]. rewrite Htrace. split.
  - rewrite completions_app. cbn. apply Nat.add_1_r.
  - intros s. rewrite ran_stage_app. cbn. destruct s; apply orb_false_r.
Qed.

(** C9.  [chat] never raises: whatever its [try] block does, the result
    is a response.  When the block raises [e], the response is the uniform
    envelope whose answer is the apology followed by [str(e)] and whose
    status is "error"; when it returns, the response is what it returned. *)
Theorem chat_never_raises (self : Orchestrator.orchestrator) (message : string)
    (context : list dict) (user_id : option string) (t : trace) :
  (exists envelope : dict,
      fst (Orchestrator.chat W self message context user_id t) = Ok envelope)
  /\ match Orchestrator.chat_body W self message context user_id t with
     | (Raise e, t') =>
         Orchestrator.chat W self message context user_id t
           = (Ok [ ("answer", VStr ("I apologize, but I encountered an error: " +++ exn_msg e));
                   ("status", VStr "error");
                   ("type", VStr "error") ], t')
     | (Ok response, t') =>
         Orchestrator.chat W self message context user_id t = (Ok response, t')
     end.
Proof.
  unfold Orchestrator.chat, try_except.
  destruct (Orchestrator.chat_body W self message context user_id t) as [[d | e] t'].
  - split; [exists d |]; reflexivity.
  - split; [eexists |]; reflexivity.
Qed.

(** With the constructor's orchestrator the only thing that can raise in
    the [try] block is the completion, and its message is the one the
    envelope carries. *)
Lemma chat_llm_failure (VECTORDB_AVAILABLE constructed : bool)
    (message : string) (context : list dict) (user_id : option string) (t : trace)
    (e : exn) :
  answer_at (Orchestrator.llm W) (completions t)
    (Orchestrator.chat_prompt W message context
       (fst (Orchestrator._get_comprehensive_data_context W message user_id))) = Raise e ->
  fst (Orchestrator.chat W (Orchestrator.__init__ VECTORDB_AVAILABLE constructed)
         message context user_id t)
    = Ok (Orchestrator.error_envelope e).
Proof.
  intros Hllm. rewrite chat_without_vectordb by apply init_use_vectordb.
  unfold try_except, Orchestrator.original_workflow.
  destruct (Orchestrator._get_comprehensive_data_context W message user_id)
    as [data_analysis visualizations].
  cbn [fst] in Hllm. unfold bind, complete. rewrite Hllm. reflexivity.
Qed.

End OrchestratorProperties.

(** *** A concrete run *)

(** C1, as the specification states it, fails.  The message parses to an
    investment query that requires knowledge, and retrieval returns a
    chunk; yet [chat] on the constructor's orchestrator enters none of the
    Strategy, Risk and Output stages. *)
Lemma chat_skips_agent_pipeline :
  fst (run (ParsingAgent.parse_query (H := Reference.runtime)
              (Orchestrator.llm demo_world) demo_message []))
    = Ok (VDict demo_intent)
  /\ Orchestrator.is_investment_query (Val.get "query_type" demo_intent) = true
  /\ Orchestrator.retrieve_knowledge demo_world "index funds" = Ok [demo_chunk]
  /\ ran_stage Strategy
       (snd (run (Orchestrator.chat (H := Reference.runtime) demo_world
                    (Orchestrator.__init__ true true) demo_message [] None))) = false
  /\ ran_stage Risk
       (snd (run (Orchestrator.chat (H := Reference.runtime) demo_world
                    (Orchestrator.__init__ true true) demo_message [] None))) = false
  /\ ran_stage Output
       (snd (run (Orchestrator.chat (H := Reference.runtime) demo_world
                    (Orchestrator.__init__ true true) demo_message [] None))) = false.
Proof. vm_compute. repeat split. Qed.

(** The workflow that [chat] leaves out does run the pipeline on the same
    message when it is entered: parsing, retrieval, strategy, risk and
    output, with three completions. *)
Example workflow_runs_pipeline :
  let self := {| Orchestrator.use_vectordb := true; Orchestrator.analysis_agent := true;
                 Orchestrator.implementation_agent := Some true |} in
  let t := snd (run (Orchestrator._process_with_vectordb_workflow (H := Reference.runtime)
                       demo_world self demo_message [] None)) in
  map (fun s => ran_stage s t) [Parsing; Retrieval; Strategy; Risk; Output]
    = [true; true; true; true; true]
  /\ completions t = 3%nat.
Proof. vm_compute. split; reflexivity. Qed.

(* --------------------------------------------------------------------- *)
(** ** The output stage                                                   *)
(* --------------------------------------------------------------------- *)

Lemma lookup_set_other (k k' : string) (v : value) (d : dict) :
  k <> k' -> Val.lookup k (Val.set k' v d) = Val.lookup k d.
Proof.
  intros Hne. induction d as [| [k0 v0] d IH]; simpl.
  - destruct (String.eqb_spec k k'); [contradiction | reflexivity].
  - destruct (String.eqb_spec k' k0) as [-> | Hk0]; simpl.
    + destruct (String.eqb_spec k k0); [contradiction | reflexivity].
    + destruct (String.eqb_spec k k0); [reflexivity | exact IH].
Qed.

Lemma get_or_set_other (k k' : string) (default v : value) (d : dict) :
  k <> k' -> Val.get_or k default (Val.set k' v d) = Val.get_or k default d.
Proof. intros Hne. unfold Val.get_or. now rewrite lookup_set_other. Qed.

Section OutputProperties.
Context `{PyRuntime}.

(** A non-empty adjusted list is what the [or] selects; the strategy is
    not consulted. *)
Lemma chosen_adjusted (strategy : value) (risk_assessment : dict) (adjusted : list value) :
  Val.lookup "adjusted_recommendations" risk_assessment = Some (VList adjusted) ->
  adjusted <> [] ->
  OutputAgent.chosen_recommendations strategy (VDict risk_assessment) = Ok (VList adjusted).
Proof.
  intros Hlook Hne. unfold OutputAgent.chosen_recommendations, Val.getattr_get, Val.get_or.
  rewrite Hlook. cbn [rbind]. destruct adjusted; [contradiction | reflexivity].
Qed.

(** The summary and the action items do not read the recommendations. *)
Lemma summary_block_set_recommendations (strategy : dict) (other : value) :
  OutputAgent.summary_block (VDict (Val.set "recommendations" other strategy))
    = OutputAgent.summary_block (VDict strategy).
Proof.
  unfold OutputAgent.summary_block, Val.getattr_get.
  rewrite get_or_set_other by discriminate. reflexivity.
Qed.

Lemma actions_block_set_recommendations (strategy : dict) (other : value) :
  OutputAgent.actions_block (VDict (Val.set "recommendations" other strategy))
    = OutputAgent.actions_block (VDict strategy).
Proof.
  unfold OutputAgent.actions_block, Val.getattr_get.
  rewrite !get_or_set_other by discriminate. reflexivity.
Qed.

(** The choice between the two lists.  When the risk assessment holds a
    non-empty list under [adjusted_recommendations], the recommendations
    [format_response] reads are that list: the allocation block is the
    heading followed by what the first five entries give, and the answer
    parts are the same whatever the strategy holds under
    [recommendations]. *)
Lemma adjusted_recommendations_are_chosen
    (strategy : dict) (risk_assessment : dict) (adjusted : list value)
    (transaction_insights : option dict) (knowledge_sources : list chunk) :
  Val.lookup "adjusted_recommendations" risk_assessment = Some (VList adjusted) ->
  adjusted <> [] ->
  OutputAgent.chosen_recommendations (VDict strategy) (VDict risk_assessment)
    = Ok (VList adjusted)
  /\ OutputAgent.recommendation_block (VList adjusted)
     = rbind (OutputAgent.map_result OutputAgent.recommendation_line (firstn 5 adjusted))
             (fun ls => Ok ((Py.nl +++ "**Recommended Allocation:**") :: ls))
  /\ forall other : value,
       OutputAgent.answer_parts (VDict (Val.set "recommendations" other strategy))
         (VDict risk_assessment) transaction_insights knowledge_sources
       = OutputAgent.answer_parts (VDict strategy)
           (VDict risk_assessment) transaction_insights knowledge_sources.
Proof.
  intros Hlook Hne. split; [| split].
  - now apply chosen_adjusted.
  - unfold OutputAgent.recommendation_block.
    destruct adjusted as [| a r]; [contradiction | reflexivity].
  - intros other. unfold OutputAgent.answer_parts.
    rewrite summary_block_set_recommendations, actions_block_set_recommendations.
    rewrite !(chosen_adjusted _ _ _ Hlook Hne). reflexivity.
Qed.

End OutputProperties.

(** The choice at an assessment written by hand, whose entries are
    dicts: the rendered line carries the adjusted 50%, not the strategy's
    70%. *)
Lemma adjusted_recommendations_are_chosen_example :
  OutputAgent.chosen_recommendations (VDict demo_strategy) (VDict demo_assessment)
    = Ok (VList demo_adjusted)
  /\ OutputAgent.recommendation_block (H := Reference.runtime) (VList demo_adjusted)
     = Ok [Py.nl +++ "**Recommended Allocation:**"; "- **Equity**: 50% - "].
Proof.
  destruct (adjusted_recommendations_are_chosen (H := Reference.runtime)
              demo_strategy demo_assessment demo_adjusted None [])
    as [Hchosen [Hblock _]].
  - reflexivity.
  - discriminate.
  - split; [exact Hchosen | rewrite Hblock; reflexivity].
Defined.

(* --------------------------------------------------------------------- *)
(** ** What the Risk stage hands to the Output stage                      *)
(* --------------------------------------------------------------------- *)

Lemma append_assoc_s (a b c : string) : (a +++ b) +++ c = a +++ (b +++ c).
Proof. induction a; simpl; congruence. Qed.

(** The three characters that open a JSON value other than a literal. *)
Lemma dispatch {A} (n : nat) (a b d e : A) :
  n <> 34%nat -> n <> 123%nat -> n <> 91%nat ->
  match n with 34%nat => a | 123%nat => b | 91%nat => d | _ => e end = e.
Proof.
  intros H1 H2 H3.
  do 124 (destruct n as [| n]; [first [reflexivity | exfalso; congruence] |]).
  reflexivity.
Qed.

Lemma brace_free_app (a b : string) :
  Json.brace_free (a +++ b) = Json.brace_free a && Json.brace_free b.
Proof. induction a as [| c a IH]; simpl; [reflexivity |]. now rewrite IH, andb_assoc. Qed.

(** What the decoder leaves of a text with no opening brace has none. *)
Lemma skip_ws_free (s : string) :
  Json.brace_free s = true -> Json.brace_free (Reference.skip_ws s) = true.
Proof.
  induction s as [| c s IH]; simpl; [trivial |].
  intros H. destruct (Reference.json_ws c); [| exact H].
  apply andb_prop in H as [_ H]. now apply IH.
Qed.

Lemma string_body_free (n : nat) :
  forall s acc t r,
    (String.length s <= n)%nat -> Json.brace_free s = true ->
    Reference.string_body acc s = Some (t, r) -> Json.brace_free r = true.
Proof.
  induction n as [| n IH]; intros s acc t r Hlen Hfree Hbody.
  - destruct s; [discriminate | simpl in Hlen; lia].
  - destruct s as [| c s]; [discriminate |].
    cbn [Reference.string_body] in Hbody. cbv zeta in Hbody.
    simpl in Hlen. cbn [Json.brace_free] in Hfree. apply andb_prop in Hfree as [_ Hfree].
    destruct (Py.code c =? 34)%nat.
    { injection Hbody as <- <-. exact Hfree. }
    destruct (Py.code c <? 32)%nat; [discriminate |].
    destruct (Py.code c =? 92)%nat;
      [| apply (IH s (c :: acc) t r); [lia | exact Hfree | exact Hbody]].
    destruct s as [| e s]; [discriminate |].
    simpl in Hlen. cbn [Json.brace_free] in Hfree. apply andb_prop in Hfree as [_ Hfree].
    assert (Hsimple : forall x, Reference.string_body (ascii_of_nat x :: acc) s = Some (t, r) ->
                                Json.brace_free r = true).
    { intros x Hx. apply (IH s (ascii_of_nat x :: acc) t r); [lia | exact Hfree | exact Hx]. }
    remember (Py.code e) as k eqn:Hk. clear Hk.
    do 118 (destruct k as [| k];
            [first [discriminate Hbody | exact (Hsimple _ Hbody) | idtac] |]);
      try discriminate Hbody.
    destruct s as [| h1 [| h2 [| h3 [| h4 s]]]]; try discriminate Hbody.
    destruct (Reference.hex_val h1) as [[|?] |]; try discriminate Hbody.
    destruct (Reference.hex_val h2) as [[|?] |]; try discriminate Hbody.
    destruct (Reference.hex_val h3) as [a |]; try discriminate Hbody.
    destruct (Reference.hex_val h4) as [b |]; try discriminate Hbody.
    simpl in Hlen. cbn [Json.brace_free] in Hfree.
    repeat (apply andb_prop in Hfree as [_ Hfree]).
    apply (IH s (ascii_of_nat (16 * a + b) :: acc) t r); [lia | exact Hfree | exact Hbody].
Qed.


Lemma digits_free (s : string) :
  forall acc count a c r,
    Reference.digits acc count s = (a, c, r) -> Json.brace_free s = true -> Json.brace_free r = true.
Proof.
  induction s as [| ch s IH]; intros acc count a c r; cbn [Reference.digits].
  - intros [= _ _ <-]. trivial.
  - destruct (Reference.is_digit ch).
    + intros Hd Hf. cbn [Json.brace_free] in Hf. apply andb_prop in Hf as [_ Hf].
      now apply (IH _ _ _ _ _ Hd).
    + intros [= _ _ <-]. trivial.
Qed.

Lemma substring_free (s : string) :
  forall a b, Json.brace_free s = true -> Json.brace_free (String.substring a b s) = true.
Proof.
  induction s as [| c s IH]; intros a b Hf.
  - destruct a, b; reflexivity.
  - cbn [Json.brace_free] in Hf. apply andb_prop in Hf as [Hc Hf].
    destruct a as [| a].
    + destruct b as [| b]; [reflexivity |]. cbn [String.substring Json.brace_free].
      rewrite Hc. now apply IH.
    + cbn [String.substring]. now apply IH.
Qed.

Lemma sign_free (s s1 : string) (neg : bool) :
  match s with
  | String "-"%char r => (true, r)
  | _ => (false, s)
  end = (neg, s1) ->
  Json.brace_free s = true -> Json.brace_free s1 = true.
Proof.
  destruct s as [| c r]; [intros [= _ <-]; trivial |].
  intros Hs Hf. pose proof Hf as Hr. cbn [Json.brace_free] in Hr. apply andb_prop in Hr as [_ Hr].
  destruct c as [[] [] [] [] [] [] [] []]; injection Hs as _ <-; assumption.
Qed.

Lemma exp_sign_free (r r1 : string) (eneg : bool) :
  match r with
  | String "-"%char r' => (true, r')
  | String "+"%char r' => (false, r')
  | _ => (false, r)
  end = (eneg, r1) ->
  Json.brace_free r = true -> Json.brace_free r1 = true.
Proof.
  destruct r as [| c r]; [intros [= _ <-]; trivial |].
  intros Hs Hf. pose proof Hf as Hr. cbn [Json.brace_free] in Hr. apply andb_prop in Hr as [_ Hr].
  destruct c as [[] [] [] [] [] [] [] []]; injection Hs as _ <-; assumption.
Qed.

Lemma fraction_free (s2 s3 : string) (int_part mant n_frac : Z) (has_frac frac_ok : bool) :
  match s2 with
  | String "."%char r =>
      let '(m, k, r') := Reference.digits int_part 0 r in
      (m, k, r', true, (0 <? k)%Z)
  | _ => (int_part, 0%Z, s2, false, true)
  end = (mant, n_frac, s3, has_frac, frac_ok) ->
  Json.brace_free s2 = true -> Json.brace_free s3 = true.
Proof.
  destruct s2 as [| c r]; [intros [= _ _ <- _ _]; trivial |].
  intros Hs Hf. pose proof Hf as Hr. cbn [Json.brace_free] in Hr. apply andb_prop in Hr as [_ Hr].
  destruct (Reference.digits int_part 0 r) as [[m k] r'] eqn:Hd.
  pose proof (digits_free _ _ _ _ _ _ Hd Hr) as Hr'.
  destruct c as [[] [] [] [] [] [] [] []]; injection Hs as _ _ <- _ _; assumption.
Qed.

Lemma exponent_free (s3 s4 : string) (exp : Z) (has_exp : bool) :
  match s3 with
  | String c r =>
      if (Py.code c =? 101)%nat || (Py.code c =? 69)%nat then
        let '(eneg, r1) :=
          match r with
          | String "-"%char r' => (true, r')
          | String "+"%char r' => (false, r')
          | _ => (false, r)
          end in
        let '(e, k, r2) := Reference.digits 0 0 r1 in
        if (0 <? k)%Z then ((if eneg then (- e)%Z else e), r2, true) else (0%Z, s3, false)
      else (0%Z, s3, false)
  | EmptyString => (0%Z, s3, false)
  end = (exp, s4, has_exp) ->
  Json.brace_free s3 = true -> Json.brace_free s4 = true.
Proof.
  destruct s3 as [| c r]; [intros [= _ <- _]; trivial |].
  intros Hs Hf. pose proof Hf as Hr. cbn [Json.brace_free] in Hr. apply andb_prop in Hr as [_ Hr].
  destruct (_ || _); [| injection Hs as _ <- _; exact Hf].
  destruct (match r with String "-"%char r' => (true, r') | String "+"%char r' => (false, r')
                       | _ => (false, r) end) as [eneg r1] eqn:Hsign.
  pose proof (exp_sign_free _ _ _ Hsign Hr) as Hr1.
  destruct (Reference.digits 0 0 r1) as [[e k] r2] eqn:Hd.
  pose proof (digits_free _ _ _ _ _ _ Hd Hr1) as Hr2.
  destruct (0 <? k)%Z; injection Hs as _ <- _; assumption.
Qed.

Lemma number_free (s : string) (v : value) (r : string) :
  Reference.number s = Some (v, r) -> Json.brace_free s = true ->
  Val.atom v = true /\ Json.brace_free r = true.
Proof.
  unfold Reference.number. intros Hn Hf.
  destruct (match s with String "-"%char r => (true, r) | _ => (false, s) end)
    as [neg s1] eqn:Hsign.
  pose proof (sign_free _ _ _ Hsign Hf) as Hf1.
  destruct (Reference.digits 0 0 s1) as [[int_part n_int] s2] eqn:Hd.
  pose proof (digits_free _ _ _ _ _ _ Hd Hf1) as Hf2.
  destruct (_ || _); [discriminate |].
  destruct (match s2 with String "."%char r => _ | _ => _ end)
    as [[[[mant n_frac] s3] has_frac] frac_ok] eqn:Hfrac.
  pose proof (fraction_free _ _ _ _ _ _ _ Hfrac Hf2) as Hf3.
  assert (Hrest : forall m k s3' h,
            (if frac_ok then (mant, n_frac, s3, has_frac) else (int_part, 0%Z, s2, false))
            = (m, k, s3', h) -> Json.brace_free s3' = true).
  { intros m k s3' h. destruct frac_ok; intros [= _ _ <- _]; assumption. }
  destruct (if frac_ok then _ else _) as [[[mant' n_frac'] s3'] has_frac'] eqn:Hsel.
  pose proof (Hrest _ _ _ _ eq_refl) as Hf3'.
  destruct (match s3' with String c r => _ | EmptyString => _ end)
    as [[exp s4] has_exp] eqn:Hexp.
  pose proof (exponent_free _ _ _ _ Hexp Hf3') as Hf4.
  destruct (_ || _); injection Hn as <- <-; split; trivial.
Qed.

Lemma literal_free (s : string) (v : value) (r : string) :
  Reference.literal s = Some (v, r) -> Json.brace_free s = true ->
  Val.atom v = true /\ Json.brace_free r = true.
Proof.
  unfold Reference.literal. intros Hl Hf.
  repeat (destruct (Py.startswith _ s);
          [injection Hl as <- <-; split; [reflexivity | now apply substring_free] |]).
  exact (number_free s v r Hl Hf).
Qed.


Lemma flat_no_dict (v : value) : Val.flat v = true -> Val.no_dict v = true.
Proof. destruct v; cbn; try discriminate; trivial. Qed.

Lemma atom_flat (v : value) : Val.atom v = true -> Val.flat v = true.
Proof. destruct v; cbn; try discriminate; trivial. Qed.

Lemma lbrace_code (c : ascii) :
  Ascii.eqb c Json.lbrace = false -> Py.code c <> 123%nat.
Proof.
  intros Hc Hcode. apply (f_equal ascii_of_nat) in Hcode. unfold Py.code in Hcode.
  rewrite ascii_nat_embedding in Hcode. subst c. discriminate.
Qed.

(** A value decoded from a text with no opening brace is no object and,
    when an array, holds none. *)
Lemma parse_free (fuel : nat) :
  (forall s v r, Json.brace_free s = true ->
     Reference.parse_value fuel s = Some (v, r) -> Val.flat v = true /\ Json.brace_free r = true) /\
  (forall acc s v r, Json.brace_free s = true -> forallb Val.no_dict acc = true ->
     Reference.parse_items fuel acc s = Some (v, r) -> Val.flat v = true /\ Json.brace_free r = true).
Proof.
  induction fuel as [| f [IHv IHi]]; [split; intros; discriminate |].
  split.
  - intros s v r Hf Hp. destruct s as [| c s]; [discriminate |].
    cbn [Reference.parse_value] in Hp.
    pose proof Hf as Hs. cbn [Json.brace_free] in Hs. apply andb_prop in Hs as [Hc Hs].
    apply negb_true_iff in Hc. apply lbrace_code in Hc.
    destruct (Nat.eq_dec (Py.code c) 34) as [E | N34].
    { rewrite E in Hp.
      destruct (Reference.string_body [] s) as [[t r'] |] eqn:Hb; [| discriminate].
      injection Hp as <- <-. split; [reflexivity |].
      exact (string_body_free _ _ _ _ _ (Nat.le_refl _) Hs Hb). }
    destruct (Nat.eq_dec (Py.code c) 91) as [E | N91].
    { rewrite E in Hp.
      pose proof (skip_ws_free s Hs) as Hw.
      destruct (Reference.skip_ws s) as [| c' r'] eqn:Hsk.
      - now apply (IHi [] "" v r).
      - destruct (Ascii.eqb c' "]") eqn:Hclose.
        + apply Ascii.eqb_eq in Hclose. subst c'. injection Hp as <- <-.
          split; [reflexivity |]. cbn [Json.brace_free] in Hw. now apply andb_prop in Hw as [_ Hw].
        + assert (Hp' : Reference.parse_items f [] (String c' r') = Some (v, r)).
          { revert Hp. clear -Hclose.
            destruct c' as [[] [] [] [] [] [] [] []]; try discriminate Hclose; trivial. }
          now apply (IHi [] (String c' r') v r). }
    rewrite dispatch in Hp by assumption.
    destruct (literal_free _ _ _ Hp Hf) as [Ha Hr]. split; [now apply atom_flat | exact Hr].
  - intros acc s v r Hf Hacc Hp. cbn [Reference.parse_items] in Hp.
    destruct (Reference.parse_value f s) as [[x r1] |] eqn:Hv; [| discriminate].
    destruct (IHv _ _ _ Hf Hv) as [Hx Hr1].
    assert (Hacc' : forallb Val.no_dict (acc ++ [x]) = true).
    { rewrite forallb_app, Hacc. cbn. now rewrite (flat_no_dict x Hx). }
    pose proof (skip_ws_free r1 Hr1) as Hw.
    destruct (Reference.skip_ws r1) as [| c' r'] eqn:Hsk; [discriminate |].
    pose proof Hw as Hr'. cbn [Json.brace_free] in Hr'. apply andb_prop in Hr' as [_ Hr'].
    destruct (Ascii.eqb c' "]") eqn:Hclose.
    { apply Ascii.eqb_eq in Hclose. subst c'. injection Hp as <- <-.
      split; [exact Hacc' | exact Hr']. }
    destruct (Ascii.eqb c' ",") eqn:Hcomma.
    { apply Ascii.eqb_eq in Hcomma. subst c'.
      apply (IHi (acc ++ [x]) (Reference.skip_ws r') v r);
        [now apply skip_ws_free | exact Hacc' | exact Hp]. }
    exfalso. revert Hp. clear -Hclose Hcomma.
    destruct c' as [[] [] [] [] [] [] [] []]; try discriminate Hclose; try discriminate Hcomma;
      discriminate.
Qed.


Lemma set_flat (k : string) (v : value) (d : dict) :
  Val.flat v = true -> Val.values_flat d = true -> Val.values_flat (Val.set k v d) = true.
Proof.
  intros Hv. induction d as [| [k' v'] d IH]; cbn [Val.set Val.values_flat forallb snd].
  - intros _. now rewrite Hv.
  - intros Hd. apply andb_prop in Hd as [Hv' Hd].
    destruct (String.eqb k k'); cbn [forallb snd].
    + now rewrite Hv.
    + rewrite Hv'. now apply IH.
Qed.

Lemma lookup_flat (k : string) (d : dict) (v : value) :
  Val.values_flat d = true -> Val.lookup k d = Some v -> Val.flat v = true.
Proof.
  induction d as [| [k' v'] d IH]; cbn [Val.lookup Val.values_flat forallb snd]; [discriminate |].
  intros Hd. apply andb_prop in Hd as [Hv' Hd].
  destruct (String.eqb k k'); [intros [= <-]; exact Hv' | now apply IH].
Qed.

Lemma members_free (fuel : nat) :
  forall acc s v r, Json.brace_free s = true -> Val.values_flat acc = true ->
    Reference.parse_members fuel acc s = Some (v, r) ->
    exists d, v = VDict d /\ Val.values_flat d = true.
Proof.
  induction fuel as [| f IH]; intros acc s v r Hf Hacc Hp; [discriminate |].
  cbn [Reference.parse_members] in Hp.
  destruct s as [| c s]; [discriminate |].
  pose proof Hf as Hs. cbn [Json.brace_free] in Hs. apply andb_prop in Hs as [_ Hs].
  destruct (Py.code c =? 34)%nat; [| discriminate].
  destruct (Reference.string_body [] s) as [[key r1] |] eqn:Hb; [| discriminate].
  pose proof (string_body_free _ _ _ _ _ (Nat.le_refl _) Hs Hb) as Hr1.
  pose proof (skip_ws_free r1 Hr1) as Hw1.
  destruct (Reference.skip_ws r1) as [| c1 r2] eqn:Hsk1; [discriminate |].
  pose proof Hw1 as Hr2. cbn [Json.brace_free] in Hr2. apply andb_prop in Hr2 as [_ Hr2].
  destruct (Ascii.eqb c1 ":") eqn:Hcolon.
  2:{ exfalso. revert Hp. clear -Hcolon.
      destruct c1 as [[] [] [] [] [] [] [] []]; try discriminate Hcolon; discriminate. }
  apply Ascii.eqb_eq in Hcolon. subst c1.
  destruct (Reference.parse_value f (Reference.skip_ws r2)) as [[x r3] |] eqn:Hv;
    [| discriminate].
  destruct (proj1 (parse_free f) _ _ _ (skip_ws_free r2 Hr2) Hv) as [Hx Hr3].
  pose proof (set_flat key x acc Hx Hacc) as Hacc'.
  pose proof (skip_ws_free r3 Hr3) as Hw3.
  destruct (Reference.skip_ws r3) as [| c3 r4] eqn:Hsk3; [discriminate |].
  pose proof Hw3 as Hr4. cbn [Json.brace_free] in Hr4. apply andb_prop in Hr4 as [_ Hr4].
  destruct (Ascii.eqb c3 "}") eqn:Hclose.
  { apply Ascii.eqb_eq in Hclose. subst c3. injection Hp as <- <-.
    eexists. split; [reflexivity | exact Hacc']. }
  destruct (Ascii.eqb c3 ",") eqn:Hcomma.
  { apply Ascii.eqb_eq in Hcomma. subst c3.
    apply (IH _ _ _ _ (skip_ws_free r4 Hr4) Hacc' Hp). }
  exfalso. revert Hp. clear -Hclose Hcomma.
  destruct c3 as [[] [] [] [] [] [] [] []]; try discriminate Hclose; try discriminate Hcomma;
    discriminate.
Qed.

(** The reference decoder on an opening brace followed by a text with no
    other. *)
Lemma loads_flat (body : string) (v : value) :
  Json.brace_free body = true ->
  Reference.loads (String Json.lbrace body) = Ok v ->
  exists d, v = VDict d /\
    forall k l, Val.lookup k d = Some (VList l) -> forallb Val.no_dict l = true.
Proof.
  intros Hf. unfold Reference.loads.
  change (Reference.skip_ws (String Json.lbrace body)) with (String Json.lbrace body).
  destruct (Reference.parse_value _ _) as [[x rest] |] eqn:Hp; [| discriminate].
  intros Hv. assert (Hx : exists d, x = VDict d /\ Val.values_flat d = true).
  { cbn [Reference.parse_value] in Hp.
    change (Py.code Json.lbrace) with 123%nat in Hp. cbv iota in Hp.
    pose proof (skip_ws_free body Hf) as Hw.
    destruct (Reference.skip_ws body) as [| c r] eqn:Hsk.
    - now apply (members_free _ [] _ _ _ Hw (eq_refl true) Hp).
    - destruct (Ascii.eqb c "}") eqn:Hclose.
      + apply Ascii.eqb_eq in Hclose. subst c. injection Hp as <- _. now exists [].
      + assert (Hp' : Reference.parse_members (String.length (String Json.lbrace body)) []
                        (String c r) = Some (x, rest)).
        { revert Hp. clear -Hclose.
          destruct c as [[] [] [] [] [] [] [] []]; try discriminate Hclose; trivial. }
        now apply (members_free _ [] _ _ _ Hw (eq_refl true) Hp'). }
  destruct Hx as (d & -> & Hd).
  destruct (Reference.skip_ws rest); [| discriminate]. injection Hv as <-.
  exists d. split; [reflexivity |]. intros k l Hl. exact (lookup_flat k d _ Hd Hl).
Qed.

Lemma rev_string_fold (cs : list ascii) :
  forall a, fold_left (fun acc c => String c acc) cs a = Py.rev_string cs +++ a.
Proof.
  unfold Py.rev_string. induction cs as [| c cs IH]; intros a; cbn [fold_left]; [reflexivity |].
  rewrite IH, (IH (String c "")), append_assoc_s. reflexivity.
Qed.

Lemma rev_string_cons (c : ascii) (cs : list ascii) :
  Py.rev_string (c :: cs) = Py.rev_string cs +++ String c "".
Proof. unfold Py.rev_string at 1. cbn [fold_left]. apply rev_string_fold. Qed.

(** A match of the pattern is an opening brace followed by a text with
    no other. *)
Lemma search_go_shape (s : string) :
  forall pending text,
    (forall acc, pending = Some acc ->
       exists body, Py.rev_string acc = String Json.lbrace body /\ Json.brace_free body = true) ->
    Json.search_go pending s = Some text ->
    exists body, text = String Json.lbrace body /\ Json.brace_free body = true.
Proof.
  induction s as [| c s IH]; intros pending text Hinv; cbn [Json.search_go]; [discriminate |].
  destruct (Ascii.eqb c Json.lbrace) eqn:Hl.
  - apply IH. intros acc [= <-]. exists "". apply Ascii.eqb_eq in Hl. subst c. now split.
  - destruct (Ascii.eqb c Json.rbrace).
    + destruct pending as [acc |].
      * intros [= <-]. destruct (Hinv acc eq_refl) as (body & Hb & Hfree).
        exists (body +++ String c ""). rewrite rev_string_cons, Hb. split; [reflexivity |].
        rewrite brace_free_app, Hfree. cbn [Json.brace_free andb]. now rewrite Hl.
      * apply IH. intros acc Hacc. discriminate.
    + apply IH. intros acc Hacc. destruct pending as [acc0 |]; [| discriminate].
      injection Hacc as <-. destruct (Hinv acc0 eq_refl) as (body & Hb & Hfree).
      exists (body +++ String c ""). rewrite rev_string_cons, Hb. split; [reflexivity |].
      rewrite brace_free_app, Hfree. cbn [Json.brace_free andb]. now rewrite Hl.
Qed.

Lemma search_flat_object_shape (response text : string) :
  Json.search_flat_object response = Some text ->
  exists body, text = String Json.lbrace body /\ Json.brace_free body = true.
Proof. apply search_go_shape. intros acc Hacc. discriminate. Qed.

Lemma reference_decoder_is_flat : Json.flat_decoder (H := Reference.runtime).
Proof. intros body v. apply loads_flat. Qed.

Section RiskOutput.
Context `{PyRuntime}.

(** C4.  The adjusted recommendations of an assessment the Risk stage
    returns are never rendered.  The stage decodes a match of a pattern
    that admits no inner brace, so the entries of a list it returns under
    [adjusted_recommendations] are no dicts; when that list is not empty,
    [format_response], given a strategy whose summary is a str or is
    missing, raises [AttributeError] at the first entry and returns no
    response. *)
Theorem risk_stage_adjustments_are_not_rendered
    (client : llm_client) (proposed : value) (risk_profile : dict)
    (knowledge_context : list chunk) (t t' : trace) (assessment : value)
    (adjusted : list value)
    (user_query : string) (strategy : dict) (transaction_insights : option dict)
    (knowledge_sources : list chunk) :
  Json.flat_decoder ->
  RiskAgent.assess_risk client proposed risk_profile knowledge_context t
    = (Ok assessment, t') ->
  Val.getattr_get "adjusted_recommendations" VNone assessment = Ok (VList adjusted) ->
  adjusted <> [] ->
  Val.is_str (Val.get_or "strategy_summary" (VStr "") strategy) = true ->
  raises "AttributeError"
    (OutputAgent.format_response user_query (VDict strategy) assessment
       transaction_insights knowledge_sources) = true.
Proof.
  intros Hdec Hrun Hadj Hne _.
  assert (Hflat : exists d, assessment = VDict d /\ forallb Val.no_dict adjusted = true).
  { unfold RiskAgent.assess_risk, bind, lift, try_except, complete in Hrun.
    destruct (RiskAgent.risk_prompt proposed risk_profile knowledge_context) as [prompt | e];
      [| discriminate].
    destruct (answer_at client (completions t) prompt) as [response | e].
    - destruct (Json.search_flat_object response) as [text |] eqn:Hsearch.
      + destruct (search_flat_object_shape _ _ Hsearch) as (body & -> & Hfree).
        destruct (json_loads (String Json.lbrace body)) as [v | e] eqn:Hv.
        * injection Hrun as <- _. destruct (Hdec body v Hfree Hv) as (d & -> & Hd).
          exists d. split; [reflexivity |].
          cbn [Val.getattr_get] in Hadj. unfold Val.get_or in Hadj.
          destruct (Val.lookup "adjusted_recommendations" d) as [x |] eqn:Hx;
            [| discriminate].
          injection Hadj as ->. exact (Hd _ _ Hx).
        * unfold ret in Hrun. injection Hrun as <- _. exfalso. apply Hne.
          cbn in Hadj. now injection Hadj as <-.
      + unfold ret in Hrun. injection Hrun as <- _. exfalso. apply Hne.
        cbn in Hadj. now injection Hadj as <-.
    - unfold ret in Hrun. injection Hrun as <- _. exfalso. apply Hne.
      cbn in Hadj. now injection Hadj as <-. }
  destruct Hflat as (d & -> & Hflat).
  destruct adjusted as [| a rest]; [contradiction |].
  cbn [forallb] in Hflat. apply andb_prop in Hflat as [Ha _].
  unfold OutputAgent.format_response, OutputAgent.answer_parts.
  unfold OutputAgent.summary_block at 1. cbn [Val.getattr_get rbind].
  assert (Hsum : exists p1,
            (if Val.truthy (Val.get_or "strategy_summary" VNone strategy)
             then Ok ["**Investment Strategy:**" +++ Py.nl +++
                      Val.str (Val.get_or "strategy_summary" VNone strategy)]
             else Ok []) = Ok p1).
  { destruct (Val.truthy _); eexists; reflexivity. }
  destruct Hsum as [p1 ->]. cbn [rbind].
  unfold OutputAgent.chosen_recommendations. rewrite Hadj. cbn [rbind Val.truthy].
  unfold OutputAgent.recommendation_block.
  cbn [Val.truthy Val.head_slice firstn rbind OutputAgent.map_result].
  unfold OutputAgent.recommendation_line at 1.
  destruct a; try discriminate Ha; reflexivity.
Qed.

End RiskOutput.

(** The Risk stage on an answer that gives the adjusted recommendations
    as texts: the assessment holds them, and the Output stage raises. *)
Lemma risk_stage_adjustments_are_not_rendered_witness :
  fst (RiskAgent.assess_risk (H := Reference.runtime) flat_risk_llm (VDict demo_strategy)
         RiskAgent.default_profile [] [])
    = Ok (VDict flat_assessment)
  /\ raises "AttributeError"
       (OutputAgent.format_response (H := Reference.runtime) "How should I invest?"
          (VDict demo_strategy) (VDict flat_assessment) None []) = true.
Proof.
  split; [vm_compute; reflexivity |].
  apply (risk_stage_adjustments_are_not_rendered (H := Reference.runtime)
           flat_risk_llm (VDict demo_strategy) RiskAgent.default_profile [] []
           (snd (RiskAgent.assess_risk (H := Reference.runtime) flat_risk_llm
                   (VDict demo_strategy) RiskAgent.default_profile [] []))
           (VDict flat_assessment) [VStr "Equity 50%"; VStr "Debt 50%"]).
  - exact reference_decoder_is_flat.
  - vm_compute. reflexivity.
  - reflexivity.
  - discriminate.
  - reflexivity.
Defined.

(** The exception is the one of the first entry; and on an answer in the
    format the Risk prompt asks for, the stage returns the object of the
    first adjusted recommendation as the assessment, which holds no
    adjusted recommendations at all. *)
Example risk_stage_on_its_own_format :
  OutputAgent.format_response (H := Reference.runtime) "How should I invest?"
    (VDict demo_strategy) (VDict flat_assessment) None []
    = Raise (AttributeError "'str' object has no attribute 'get'")
  /\ fst (RiskAgent.assess_risk (H := Reference.runtime) nested_risk_llm (VDict demo_strategy)
            RiskAgent.default_profile [] [])
     = Ok (VDict [ ("category", VStr "Equity");
                   ("original_allocation", VInt 70);
                   ("adjusted_allocation", VInt 50);
                   ("reason", VStr "Moderate risk tolerance") ]).
Proof. split; vm_compute; reflexivity. Qed.

(* --------------------------------------------------------------------- *)
(** ** The strategy and risk stages                                       *)
(* --------------------------------------------------------------------- *)

Section StageProperties.
Context `{PyRuntime}.

Lemma strategy_fallback (client : llm_client) (user_query : string)
    (knowledge_context : list chunk)
    (risk_profile transaction_summary market_context : option dict) (t : trace) :
  (forall response,
      answer_at client (completions t)
        (StrategyAgent.strategy_prompt user_query knowledge_context risk_profile
           transaction_summary market_context) = Ok response ->
      no_usable_object response) ->
  exists summary : string,
    fst (StrategyAgent.generate_strategy client user_query knowledge_context
           risk_profile transaction_summary market_context t)
      = Ok (VDict (StrategyAgent.fallback summary)).
Proof.
  intros Hresp. unfold StrategyAgent.generate_strategy, try_except, bind, complete.
  destruct (answer_at client (completions t) _) as [response | e] eqn:Hllm.
  - specialize (Hresp response eq_refl). unfold no_usable_object in Hresp.
    unfold lift, ret.
    destruct (Json.search_flat_object response) as [text |].
    + destruct (json_loads text) as [v | e]; [discriminate |].
      eexists; reflexivity.
    + eexists; reflexivity.
  - unfold ret. eexists; reflexivity.
Qed.

Lemma risk_fallback (client : llm_client) (strategy risk_profile : dict)
    (knowledge_context : list chunk) (t : trace) :
  (forall prompt response,
      answer_at client (completions t) prompt = Ok response ->
      no_usable_object response) ->
  exists assessment : dict,
    fst (RiskAgent.assess_risk client (VDict strategy) risk_profile knowledge_context t)
      = Ok (VDict assessment)
    /\ Val.get "risk_score" assessment = VInt 5
    /\ Val.get "adjusted_recommendations" assessment = VList [].
Proof.
  intros Hresp. unfold RiskAgent.assess_risk.
  unfold RiskAgent.risk_prompt, Val.getattr_get. cbn [rbind].
  unfold bind at 1. unfold lift at 1.
  unfold try_except, bind, complete.
  match goal with
  | |- context [answer_at client (completions t) ?p] =>
      destruct (answer_at client (completions t) p) as [response | e] eqn:Hllm
  end.
  - specialize (Hresp _ response Hllm). unfold no_usable_object in Hresp.
    unfold lift, ret.
    destruct (Json.search_flat_object response) as [text |].
    + destruct (json_loads text) as [v | e]; [discriminate |].
      exists (RiskAgent.fallback_error e). repeat split.
    + exists RiskAgent.fallback_no_json. repeat split.
  - unfold ret. exists (RiskAgent.fallback_error e). repeat split.
Qed.

(** A group that decodes is what both stages return, whatever surrounds
    it in the response. *)
Lemma stages_return_decoded_object (client : llm_client) (user_query : string)
    (knowledge_context : list chunk)
    (risk_profile_opt transaction_summary market_context : option dict)
    (strategy risk_profile : dict) (t : trace) (response text : string) (v : value) :
  (forall prompt, answer_at client (completions t) prompt = Ok response) ->
  Json.search_flat_object response = Some text ->
  json_loads text = Ok v ->
  fst (StrategyAgent.generate_strategy client user_query knowledge_context
         risk_profile_opt transaction_summary market_context t) = Ok v
  /\ fst (RiskAgent.assess_risk client (VDict strategy) risk_profile knowledge_context t)
     = Ok v.
Proof.
  intros Hllm Hfound Hdecoded. split.
  - unfold StrategyAgent.generate_strategy, try_except, bind, complete.
    rewrite Hllm, Hfound. unfold lift. now rewrite Hdecoded.
  - unfold RiskAgent.assess_risk, RiskAgent.risk_prompt, Val.getattr_get. cbn [rbind].
    unfold bind at 1. unfold lift at 1.
    unfold try_except, bind, complete.
    rewrite Hllm, Hfound. unfold lift. now rewrite Hdecoded.
Qed.

(** C7, as the code has it.  Whenever the completion raises, or its
    response holds no JSON object the stage can use (no brace group
    without inner braces, or a first such group that [json.loads]
    refuses), the Strategy stage returns its static fallback with
    [recommendations = []], [action_items = []] and
    [time_horizon = "medium"], and the Risk stage returns a fallback
    assessment with [risk_score = 5] and [adjusted_recommendations = []];
    neither raises. *)
Theorem stages_fall_back (client : llm_client) (user_query : string)
    (knowledge_context : list chunk)
    (risk_profile_opt transaction_summary market_context : option dict)
    (strategy risk_profile : dict) (t : trace) :
  (forall prompt response,
      answer_at client (completions t) prompt = Ok response ->
      no_usable_object response) ->
  (exists summary : string,
      fst (StrategyAgent.generate_strategy client user_query knowledge_context
             risk_profile_opt transaction_summary market_context t)
        = Ok (VDict (StrategyAgent.fallback summary))
      /\ Val.get "recommendations" (StrategyAgent.fallback summary) = VList []
      /\ Val.get "action_items" (StrategyAgent.fallback summary) = VList []
      /\ Val.get "time_horizon" (StrategyAgent.fallback summary) = VStr "medium")
  /\ (exists assessment : dict,
        fst (RiskAgent.assess_risk client (VDict strategy) risk_profile knowledge_context t)
          = Ok (VDict assessment)
        /\ Val.get "risk_score" assessment = VInt 5
        /\ Val.get "adjusted_recommendations" assessment = VList []).
Proof.
  intros Hresp. split.
  - destruct (strategy_fallback client user_query knowledge_context risk_profile_opt
                transaction_summary market_context t) as [summary Hs].
    + intros response. apply Hresp.
    + exists summary. repeat split. exact Hs.
  - now apply risk_fallback.
Qed.

End StageProperties.

(** The fallbacks with an LLM that answers in prose. *)
Lemma stages_fall_back_witness :
  (exists summary : string,
      fst (StrategyAgent.generate_strategy (H := Reference.runtime) prose_llm
             demo_message [demo_chunk] None None None [])
        = Ok (VDict (StrategyAgent.fallback summary))
      /\ Val.get "recommendations" (StrategyAgent.fallback summary) = VList []
      /\ Val.get "action_items" (StrategyAgent.fallback summary) = VList []
      /\ Val.get "time_horizon" (StrategyAgent.fallback summary) = VStr "medium")
  /\ (exists assessment : dict,
        fst (RiskAgent.assess_risk (H := Reference.runtime) prose_llm
               (VDict demo_strategy) RiskAgent.default_profile [demo_chunk] [])
          = Ok (VDict assessment)
        /\ Val.get "risk_score" assessment = VInt 5
        /\ Val.get "adjusted_recommendations" assessment = VList []).
Proof.
  apply (stages_fall_back (H := Reference.runtime) prose_llm).
  intros prompt response Hanswer. injection Hanswer as <-. exact I.
Defined.

(** C7, as the specification states it, fails.  The response below is no
    valid JSON, yet both stages return the object embedded in it, which
    has neither [recommendations] nor [risk_score]. *)
Lemma stage_returns_embedded_object :
  is_ok (Reference.loads chatty_response) = false
  /\ fst (run (StrategyAgent.generate_strategy (H := Reference.runtime) chatty_llm
                 demo_message [demo_chunk] None None None))
     = Ok (VDict [("strategy_summary", VStr "Buy index funds")])
  /\ fst (run (RiskAgent.assess_risk (H := Reference.runtime) chatty_llm
                 (VDict demo_strategy) RiskAgent.default_profile [demo_chunk]))
     = Ok (VDict [("strategy_summary", VStr "Buy index funds")])
  /\ Val.lookup "recommendations" [("strategy_summary", VStr "Buy index funds")] = None
  /\ Val.lookup "risk_score" [("strategy_summary", VStr "Buy index funds")] = None.
Proof. vm_compute. repeat split. Qed.

(* --------------------------------------------------------------------- *)
(** ** The CSV accessors                                                  *)
(* --------------------------------------------------------------------- *)

Section AccessorProperties.
Context `{PyRuntime}.
Variable E : env.

(** A path at which there is something passes [_ensure_csv_exists]. *)
Lemma ensure_exists (path : string) (f : Frame.csv_file) :
  files E path = Some f -> _ensure_csv_exists E path = Ok tt.
Proof. intros Hf. unfold _ensure_csv_exists, path_exists. now rewrite Hf. Qed.

Lemma read_table (path : string) (df : Frame.frame) :
  files E path = Some (Frame.Csv df) -> read_csv E path = Ok df.
Proof. intros Hf. unfold read_csv. now rewrite Hf. Qed.

Lemma read_empty (path : string) :
  files E path = Some Frame.EmptyCsv ->
  read_csv E path = Raise (Exn "EmptyDataError" "No columns to parse from file").
Proof. intros Hf. unfold read_csv. now rewrite Hf. Qed.

(** Reading the resolved file, the first steps of every accessor. *)
Ltac open_file Hpath Hfile :=
  rewrite Hpath; rewrite (ensure_exists _ _ Hfile); cbn [rbind];
  first [ rewrite (read_table _ _ Hfile) | rewrite (read_empty _ Hfile) ]; cbn [rbind].

(** C2, as the code has it.  For [total_spend], [monthly_spend],
    [daily_spend], [category_stats] and [merchant_stats]:
    (1) when no CSV path resolves, the accessor returns its empty result
        with the note "No data available";
    (2) when the file is a table without the columns the accessor needs
        (amount; date and amount; date and amount; amount and category;
        merchant and amount), it returns its empty result with a
        "... not found" note;
    and in neither case does it raise.
    (3) A file with no header line makes [pd.read_csv] raise
        [EmptyDataError], and all six accessors raise it.
    (4) On a table with no date column [time_coverage] returns
        [{min: None, max: None}], with no note. *)
Theorem accessors_note_missing_data (year month : option Z) (top_n : Z)
    (csv_path user_id : option string) :
  (resolve_path E csv_path user_id = None ->
     EnhancedCsvTools.total_spend E year month csv_path user_id
       = Ok [("total", VFloat 0); ("notes", VStr "No data available")]
     /\ EnhancedCsvTools.monthly_spend E year csv_path user_id
        = Ok [("items", VList []); ("notes", VStr "No data available")]
     /\ EnhancedCsvTools.daily_spend E year month csv_path user_id
        = Ok [("items", VList []); ("notes", VStr "No data available")]
     /\ EnhancedCsvTools.category_stats E year month csv_path user_id
        = Ok [("items", VList []); ("notes", VStr "No data available")]
     /\ EnhancedCsvTools.merchant_stats E year month top_n csv_path user_id
        = Ok [("items", VList []); ("notes", VStr "No data available")])
  /\ (forall (path : string) (df : Frame.frame)
             (date_col amount_col category_col : option string),
        resolve_path E csv_path user_id = Some path ->
        files E path = Some (Frame.Csv df) ->
        EnhancedCsvTools._detect_columns df = (date_col, amount_col, category_col) ->
        (amount_col = None ->
           EnhancedCsvTools.total_spend E year month csv_path user_id
             = Ok [("total", VFloat 0); ("notes", VStr "amount column not found")])
        /\ (date_col = None \/ amount_col = None ->
              EnhancedCsvTools.monthly_spend E year csv_path user_id
                = Ok [("items", VList []); ("notes", VStr "date/amount columns not found")]
              /\ EnhancedCsvTools.daily_spend E year month csv_path user_id
                 = Ok [("items", VList []); ("notes", VStr "date/amount columns not found")])
        /\ (amount_col = None \/ category_col = None ->
              EnhancedCsvTools.category_stats E year month csv_path user_id
                = Ok [("items", VList []);
                      ("notes", VStr "amount/category columns not found")])
        /\ (EnhancedCsvTools._merchant_column df = None \/ amount_col = None ->
              EnhancedCsvTools.merchant_stats E year month top_n csv_path user_id
                = Ok [("items", VList []);
                      ("notes", VStr "merchant/amount columns not found")]))
  /\ (forall path : string,
        resolve_path E csv_path user_id = Some path ->
        files E path = Some Frame.EmptyCsv ->
        let empty := Raise (Exn "EmptyDataError" "No columns to parse from file") in
        EnhancedCsvTools.total_spend E year month csv_path user_id = empty
        /\ EnhancedCsvTools.monthly_spend E year csv_path user_id = empty
        /\ EnhancedCsvTools.daily_spend E year month csv_path user_id = empty
        /\ EnhancedCsvTools.category_stats E year month csv_path user_id = empty
        /\ EnhancedCsvTools.merchant_stats E year month top_n csv_path user_id = empty
        /\ EnhancedCsvTools.time_coverage E csv_path user_id = empty)
  /\ (forall (path : string) (df : Frame.frame),
        resolve_path E csv_path user_id = Some path ->
        files E path = Some (Frame.Csv df) ->
        Frame.first_present ["ts"; "date"; "Date"; "DATE"] df = None ->
        EnhancedCsvTools.time_coverage E csv_path user_id
          = Ok [("min", VNone); ("max", VNone)]).
Proof.
  split; [| split; [| split]].
  - intros Hnone.
    unfold EnhancedCsvTools.total_spend, EnhancedCsvTools.monthly_spend,
      EnhancedCsvTools.daily_spend, EnhancedCsvTools.category_stats,
      EnhancedCsvTools.merchant_stats.
    rewrite Hnone. repeat split.
  - intros path df date_col amount_col category_col Hpath Hfile Hcols.
    unfold EnhancedCsvTools.total_spend, EnhancedCsvTools.monthly_spend,
      EnhancedCsvTools.daily_spend, EnhancedCsvTools.category_stats,
      EnhancedCsvTools.merchant_stats.
    open_file Hpath Hfile. rewrite Hcols.
    split; [| split; [| split]].
    + intros ->. reflexivity.
    + intros [-> | ->]; [| destruct date_col]; split; reflexivity.
    + intros [-> | ->]; [| destruct amount_col]; reflexivity.
    + intros [-> | ->]; [| destruct (EnhancedCsvTools._merchant_column df)]; reflexivity.
  - intros path Hpath Hfile.
    unfold EnhancedCsvTools.total_spend, EnhancedCsvTools.monthly_spend,
      EnhancedCsvTools.daily_spend, EnhancedCsvTools.category_stats,
      EnhancedCsvTools.merchant_stats, EnhancedCsvTools.time_coverage.
    open_file Hpath Hfile. repeat split.
  - intros path df Hpath Hfile Hdate.
    unfold EnhancedCsvTools.time_coverage.
    open_file Hpath Hfile.
    unfold EnhancedCsvTools._detect_columns. rewrite Hdate. reflexivity.
Qed.

(** C6.  On the table with columns [date, amount, category] holding one
    March-2024 row of Groceries for 500 and one of Rent for 15000,
    [category_stats(year=2024, month=3)] returns the two items by
    descending spend, Rent 15000.0 before Groceries 500.0, with DuckDB and
    without. *)
Theorem category_stats_march_example (csv_path user_id : option string)
    (path : string) (day1 day2 : Z) :
  resolve_path E csv_path user_id = Some path ->
  files E path = Some (Frame.Csv (march_frame day1 day2)) ->
  EnhancedCsvTools.category_stats E (Some 2024) (Some 3) csv_path user_id
    = Ok [ ("year", VInt 2024);
           ("month", VInt 3);
           ("items",
             VList [ VDict [("category", VStr "Rent"); ("spent", VFloat 15000)];
                     VDict [("category", VStr "Groceries"); ("spent", VFloat 500)] ]) ].
Proof.
  intros Hpath Hfile. unfold EnhancedCsvTools.category_stats.
  open_file Hpath Hfile.
  unfold EnhancedCsvTools.grouped_desc.
  destruct (_HAS_DUCKDB E); vm_compute; reflexivity.
Qed.

End AccessorProperties.

(** C2, as the specification states it, fails.  On a table with no date
    column [total_spend] and [time_coverage] answer without a note; on a
    file of zero bytes [total_spend] raises; and with no file at all
    [time_coverage] raises where the other five return a note. *)
Lemma accessors_without_note :
  EnhancedCsvTools.total_spend (demo_env false) None None (Some "/tmp/no_date.csv") None
    = Ok [("year", VNone); ("month", VNone); ("total", VFloat 500)]
  /\ EnhancedCsvTools.total_spend (demo_env true) None None (Some "/tmp/no_date.csv") None
     = Ok [("year", VNone); ("month", VNone); ("total", VFloat 500)]
  /\ Val.has_key "notes" [("year", VNone); ("month", VNone); ("total", VFloat 500)] = false
  /\ EnhancedCsvTools.time_coverage (demo_env false) (Some "/tmp/no_date.csv") None
     = Ok [("min", VNone); ("max", VNone)]
  /\ EnhancedCsvTools.total_spend (demo_env false) None None (Some "/tmp/empty.csv") None
     = Raise (Exn "EmptyDataError" "No columns to parse from file")
  /\ is_ok (EnhancedCsvTools.time_coverage (bare_env false) None None) = false
  /\ EnhancedCsvTools.total_spend (bare_env false) None None None None
     = Ok [("total", VFloat 0); ("notes", VStr "No data available")].
Proof. vm_compute. repeat split. Qed.

(** The notes on a file system with no file, and on a table with no
    amount column. *)
Lemma accessors_note_missing_data_witness :
  EnhancedCsvTools.total_spend (bare_env true) None None None (Some "asha")
    = Ok [("total", VFloat 0); ("notes", VStr "No data available")]
  /\ EnhancedCsvTools.category_stats (H := Reference.runtime) (demo_env true)
       (Some 2024) None (Some "/tmp/no_amount.csv") None
     = Ok [("items", VList []); ("notes", VStr "amount/category columns not found")].
Proof.
  split.
  - apply (proj1 (accessors_note_missing_data (H := Reference.runtime) (bare_env true)
                    None None 10 None (Some "asha"))).
    reflexivity.
  - destruct (proj1 (proj2 (accessors_note_missing_data (H := Reference.runtime)
                              (demo_env true) (Some 2024) None 10
                              (Some "/tmp/no_amount.csv") None))
                    "/tmp/no_amount.csv" no_amount_frame (Some "date") None (Some "category")
                    eq_refl eq_refl eq_refl) as [_ [_ [Hcat _]]].
    apply Hcat. now left.
Defined.

(** The example on the shared default file, with DuckDB and without. *)
Lemma category_stats_march_example_witness :
  EnhancedCsvTools.category_stats (H := Reference.runtime) (demo_env true)
    (Some 2024) (Some 3) None None
    = Ok [ ("year", VInt 2024);
           ("month", VInt 3);
           ("items",
             VList [ VDict [("category", VStr "Rent"); ("spent", VFloat 15000)];
                     VDict [("category", VStr "Groceries"); ("spent", VFloat 500)] ]) ]
  /\ EnhancedCsvTools.category_stats (H := Reference.runtime) (demo_env false)
       (Some 2024) (Some 3) None None
     = Ok [ ("year", VInt 2024);
            ("month", VInt 3);
            ("items",
              VList [ VDict [("category", VStr "Rent"); ("spent", VFloat 15000)];
                      VDict [("category", VStr "Groceries"); ("spent", VFloat 500)] ]) ].
Proof.
  split.
  - apply (category_stats_march_example (H := Reference.runtime) (demo_env true) None None
             "/srv/copenny/data/transactions.csv" 5 1); reflexivity.
  - apply (category_stats_march_example (H := Reference.runtime) (demo_env false) None None
             "/srv/copenny/data/transactions.csv" 5 1); reflexivity.
Defined.

(* --------------------------------------------------------------------- *)
(** ** Merchant shares                                                    *)
(* --------------------------------------------------------------------- *)

Lemma In_insert_by {A} (before : A -> A -> bool) (x y : A) (l : list A) :
  In x (Frame.insert_by before y l) -> x = y \/ In x l.
Proof.
  induction l as [| z l IH]; simpl.
  - intros [-> | []]. now left.
  - destruct (before y z); simpl.
    + intros [-> | Hin]; [now left | now right].
    + intros [-> | Hin]; [right; now left |].
      destruct (IH Hin) as [-> | Hl]; [now left | right; now right].
Qed.

Lemma In_sort_by {A} (before : A -> A -> bool) (x : A) (l : list A) :
  In x (Frame.sort_by before l) -> In x l.
Proof.
  induction l as [| y l IH]; simpl; [auto |].
  intros Hin. apply In_insert_by in Hin as [-> | Hin]; [now left | right; auto].
Qed.

Lemma In_firstn {A} (n : nat) (x : A) (l : list A) :
  In x (firstn n l) -> In x l.
Proof.
  revert l. induction n as [| n IH]; intros [| y l]; simpl; try tauto.
  intros [-> | Hin]; [now left | right; auto].
Qed.

Lemma In_head {A} (n : Z) (x : A) (l : list A) :
  In x (Frame.head n l) -> In x l.
Proof. unfold Frame.head. destruct (0 <=? n); apply In_firstn. Qed.

(** The divisor is the sum, but for a zero sum, which gives 1.0. *)
Lemma total_spent_cases (spent : list float) :
  (PrimFloat.eqb (CsvTools.series_sum spent) 0%float = true ->
     CsvTools.total_spent spent = 1%float)
  /\ (PrimFloat.eqb (CsvTools.series_sum spent) 0%float = false ->
        CsvTools.total_spent spent = CsvTools.series_sum spent).
Proof.
  unfold CsvTools.total_spent, CsvTools.float_or.
  destruct (PrimFloat.eqb (CsvTools.series_sum spent) 0%float) eqn:Hz.
  - split; [reflexivity | discriminate].
  - split; [discriminate | now rewrite Hz].
Qed.

Lemma total_spent_nonzero (spent : list float) :
  PrimFloat.eqb (CsvTools.total_spent spent) 0%float = false.
Proof.
  destruct (total_spent_cases spent) as [Hzero Hother].
  destruct (PrimFloat.eqb (CsvTools.series_sum spent) 0%float) eqn:Hz.
  - rewrite (Hzero eq_refl). reflexivity.
  - now rewrite (Hother eq_refl).
Qed.

Lemma with_shares_share (grp : list (option string * float))
    (g : option string * (float * float)) :
  In g (CsvTools.with_shares grp) ->
  snd (snd g)
    = CsvTools.share (fst (snd g)) (CsvTools.total_spent (map snd grp)).
Proof.
  unfold CsvTools.with_shares. rewrite in_map_iff.
  intros [[k x] [<- _]]. reflexivity.
Qed.

Section MerchantProperties.
Context `{PyRuntime}.
Variable E : env.

(** C10, as the code has it.  On a table with a merchant and an amount
    column, [top_merchants] returns the first [n] rows of the merchant
    sums by descending spend, each with its share; the divisor of the
    shares is never zero: it is 1.0 when the summed spend is zero and the
    summed spend itself otherwise (a NaN sum included, which is truthy and
    is not replaced); and every returned share is that merchant's spend
    divided by the divisor and rounded to 4 decimal places. *)
Theorem top_merchants_shares (month : option string) (n : Z)
    (csv_path user_id : option string) (path : string) (df : Frame.frame)
    (merchant_col amt_col : string) (grp : list (option string * float)) :
  resolve_path E csv_path user_id = Some path ->
  files E path = Some (Frame.Csv df) ->
  Frame.first_present ["merchant"; "description"; "narration"; "Merchant"; "Description"] df
    = Some merchant_col ->
  Frame.first_present ["amount"; "Amount"; "AMOUNT"; "monthly_expense_total"] df
    = Some amt_col ->
  CsvTools.merchant_groups df (Frame.first_present ["ts"; "date"; "Date"; "DATE"] df)
    merchant_col amt_col month = Ok grp ->
  exists kept : list (option string * (float * float)),
    CsvTools.top_merchants E month n csv_path user_id
      = Ok [ ("month", VStr (CsvTools.month_label month));
             ("items", VList (map CsvTools.item kept)) ]
    /\ PrimFloat.eqb (CsvTools.total_spent (map snd grp)) 0%float = false
    /\ (PrimFloat.eqb (CsvTools.series_sum (map snd grp)) 0%float = true ->
          CsvTools.total_spent (map snd grp) = 1%float)
    /\ (PrimFloat.eqb (CsvTools.series_sum (map snd grp)) 0%float = false ->
          CsvTools.total_spent (map snd grp) = CsvTools.series_sum (map snd grp))
    /\ forall g, In g kept ->
         snd (snd g)
           = CsvTools.series_round 4
               (fst (snd g) / CsvTools.total_spent (map snd grp))%float.
Proof.
  intros Hpath Hfile Hm Ha Hgrp.
  eexists. split; [| split; [| split; [| split]]].
  - unfold CsvTools.top_merchants.
    rewrite Hpath, (ensure_exists E _ _ Hfile); cbn [rbind].
    rewrite (read_table E _ _ Hfile); cbn [rbind].
    rewrite Hm, Ha, Hgrp; cbn [rbind]. reflexivity.
  - apply total_spent_nonzero.
  - apply (proj1 (total_spent_cases _)).
  - apply (proj2 (total_spent_cases _)).
  - intros g Hin. apply In_head, In_sort_by in Hin.
    now apply with_shares_share.
Qed.

End MerchantProperties.

(** A purchase and its refund: the sum is zero, the divisor is 1.0 and
    the shares are the amounts themselves. *)
Lemma top_merchants_shares_witness :
  exists kept : list (option string * (float * float)),
    CsvTools.top_merchants (H := Reference.runtime) (env_with refund_frame)
      None 10 None None
      = Ok [ ("month", VStr "all"); ("items", VList (map CsvTools.item kept)) ]
    /\ PrimFloat.eqb
         (CsvTools.total_spent (map snd [(Some "Refund", (-50)%float); (Some "Shop", 50%float)]))
         0%float = false
    /\ (PrimFloat.eqb
          (CsvTools.series_sum (map snd [(Some "Refund", (-50)%float); (Some "Shop", 50%float)]))
          0%float = true ->
        CsvTools.total_spent (map snd [(Some "Refund", (-50)%float); (Some "Shop", 50%float)])
          = 1%float)
    /\ (PrimFloat.eqb
          (CsvTools.series_sum (map snd [(Some "Refund", (-50)%float); (Some "Shop", 50%float)]))
          0%float = false ->
        CsvTools.total_spent (map snd [(Some "Refund", (-50)%float); (Some "Shop", 50%float)])
          = CsvTools.series_sum
              (map snd [(Some "Refund", (-50)%float); (Some "Shop", 50%float)]))
    /\ forall g, In g kept ->
         snd (snd g)
           = CsvTools.series_round 4
               (fst (snd g)
                / CsvTools.total_spent
                    (map snd [(Some "Refund", (-50)%float); (Some "Shop", 50%float)]))%float.
Proof.
  apply (top_merchants_shares (H := Reference.runtime) (env_with refund_frame) None 10
           None None "/srv/copenny/data/transactions.csv" refund_frame "merchant" "amount");
    reflexivity.
Defined.

(** What the refund table returns. *)
Example top_merchants_refund :
  CsvTools.top_merchants (H := Reference.runtime) (env_with refund_frame) None 10 None None
    = Ok [ ("month", VStr "all");
           ("items",
             VList [ VDict [ ("merchant", VStr "Shop"); ("spent", VFloat 50);
                             ("share", VFloat 50) ];
                     VDict [ ("merchant", VStr "Refund"); ("spent", VFloat (-50));
                             ("share", VFloat (-50)) ] ]) ].
Proof. vm_compute. reflexivity. Qed.

(** C10, as the specification states it, fails.  The two merchant sums
    [inf] and [-inf] add up to NaN; the divisor is then NaN, not 1.0, and
    both shares are NaN. *)
Lemma nan_total_is_kept :
  Frame.is_nan (CsvTools.series_sum [infinity; neg_infinity]) = true
  /\ Frame.is_nan (CsvTools.total_spent [infinity; neg_infinity]) = true
  /\ PrimFloat.eqb (CsvTools.total_spent [infinity; neg_infinity]) 1%float = false
  /\ CsvTools.top_merchants (H := Reference.runtime) (env_with infinite_frame)
       None 10 None None
     = Ok [ ("month", VStr "all");
            ("items",
              VList [ VDict [ ("merchant", VStr "A"); ("spent", VFloat infinity);
                              ("share", VFloat nan) ];
                      VDict [ ("merchant", VStr "B"); ("spent", VFloat neg_infinity);
                              ("share", VFloat nan) ] ]) ].
Proof. vm_compute. repeat split. Qed.

(* --------------------------------------------------------------------- *)
(** ** The LLM client                                                     *)
(* --------------------------------------------------------------------- *)

Lemma posts_app (t u : trace) : posts (t ++ u) = (posts t + posts u)%nat.
Proof. unfold posts. rewrite filter_app, length_app. reflexivity. Qed.

Section ClientProperties.
Context `{PyRuntime}.
Variable T : LLMClient.transport.
Variable self : LLMClient.client.

(** The loop posts at most once per attempt it is given. *)
Lemma request_loop_posts (who url : string) (payload : value) (attempts : list Z)
    (t : trace) :
  (posts (snd (LLMClient.request_loop T self who url payload attempts t))
   <= posts t + List.length attempts)%nat.
Proof.
  revert t. induction attempts as [| attempt rest IH]; intros t; simpl.
  - lia.
  - unfold bind at 1. unfold LLMClient.do_post at 1.
    destruct (LLMClient.post_at T (posts t) url payload) as [msg | status text].
    + destruct (attempt <? LLMClient.retries self).
      * unfold bind, LLMClient.sleep.
        destruct (negb _); [unfold raise; cbn [snd]; rewrite posts_app; cbn; lia |].
        destruct (_ || _); [unfold raise; cbn [snd]; rewrite posts_app; cbn; lia |].
        destruct (_ || _); [unfold raise; cbn [snd]; rewrite posts_app; cbn; lia |].
        unfold emit.
        specialize (IH ((t ++ [EvPost url]) ++ [EvSleep
          (LLMClient.backoff_seconds self * LLMClient.float_of_Z (attempt + 1))%float])).
        rewrite !posts_app in IH. cbn in IH. lia.
      * unfold raise. cbn [snd]. rewrite posts_app. cbn. lia.
    + unfold ret. cbn [snd]. rewrite posts_app. cbn. lia.
Qed.

Lemma length_range (n : Z) : List.length (LLMClient.range n) = Z.to_nat n.
Proof. unfold LLMClient.range. now rewrite length_map, length_seq. Qed.

(** At most [retries + 1] posts in all. *)
Lemma request_json_posts (who url : string) (payload : value) (snippet : nat) (t : trace) :
  (posts (snd (LLMClient.request_json T self who url payload snippet t))
   <= posts t + Z.to_nat (LLMClient.retries self + 1))%nat.
Proof.
  pose proof (request_loop_posts who url payload
                (LLMClient.range (LLMClient.retries self + 1)) t) as Hloop.
  rewrite length_range in Hloop.
  unfold LLMClient.request_json, bind.
  destruct (LLMClient.request_loop T self who url payload _ t) as [[[[status text] |] | e] t'];
    cbn [snd] in *.
  - destruct (negb _); [exact Hloop |].
    destruct (json_loads text); exact Hloop.
  - exact Hloop.
  - exact Hloop.
Qed.

(** A response ends the loop at once, whatever its status code: an HTTP
    error is not retried, and is raised as a [RuntimeError] that carries
    the status code and the head of the body. *)
Lemma http_error_not_retried (who url : string) (payload : value) (snippet : nat)
    (t : trace) (status : Z) (text : string) :
  0 <= LLMClient.retries self ->
  LLMClient.post_at T (posts t) url payload = LLMClient.Response status text ->
  (200 <=? status) && (status <? 300) = false ->
  LLMClient.request_json T self who url payload snippet t
    = (Raise (RuntimeError (who +++ " HTTP " +++ Py.str_of_Z status +++ ": " +++
                            Py.take snippet text)),
       t ++ [EvPost url]).
Proof.
  intros Hretries Hpost Hstatus. unfold LLMClient.request_json, LLMClient.range.
  replace (Z.to_nat (LLMClient.retries self + 1)) with (S (Z.to_nat (LLMClient.retries self)))
    by lia.
  cbn [seq map LLMClient.request_loop]. unfold bind, LLMClient.do_post.
  rewrite Hpost. unfold ret. rewrite Hstatus. reflexivity.
Qed.

(** A 2xx body that is no JSON is raised as a [RuntimeError] that carries
    the head of the body. *)
Lemma non_json_body (who url : string) (payload : value) (snippet : nat)
    (t : trace) (status : Z) (text : string) (e : exn) :
  0 <= LLMClient.retries self ->
  LLMClient.post_at T (posts t) url payload = LLMClient.Response status text ->
  (200 <=? status) && (status <? 300) = true ->
  json_loads text = Raise e ->
  LLMClient.request_json T self who url payload snippet t
    = (Raise (RuntimeError ("Non-JSON response from " +++ who +++ ": " +++ Py.take 300 text)),
       t ++ [EvPost url]).
Proof.
  intros Hretries Hpost Hstatus Hjson. unfold LLMClient.request_json, LLMClient.range.
  replace (Z.to_nat (LLMClient.retries self + 1)) with (S (Z.to_nat (LLMClient.retries self)))
    by lia.
  cbn [seq map LLMClient.request_loop]. unfold bind, LLMClient.do_post.
  rewrite Hpost. unfold ret. rewrite Hstatus, Hjson. reflexivity.
Qed.

End ClientProperties.

(** C8 (the code departs from the claim).  A provider that answers 200
    with a JSON array is an unrecognized envelope; [complete] raises
    [AttributeError] on it, from [js.get], not the [RuntimeError] that
    carries the body. *)
Theorem complete_array_body (prompt : string) (system : option string) (t : trace) :
  fst (LLMClient.complete (H := Reference.runtime) array_transport default_client
         prompt system t)
    = Raise (AttributeError "'list' object has no attribute 'get'").
Proof. reflexivity. Qed.

(** On a dead network the default client posts three times, sleeps 1.5 s
    and 3.0 s in between, and raises a [RuntimeError]. *)
Example complete_dead_network :
  run (LLMClient.complete (H := Reference.runtime) dead_transport default_client
         "hello" None)
    = (Raise (RuntimeError "LLM request failed: connection refused"),
       [ EvPost "https://apifreellm.com/api/chat"; EvSleep 1.5%float;
         EvPost "https://apifreellm.com/api/chat"; EvSleep 3%float;
         EvPost "https://apifreellm.com/api/chat" ]).
Proof. vm_compute. reflexivity. Qed.

(* ===================================================================== *)
(** * Further properties of the code                                      *)
(* ===================================================================== *)

(** ** Texts *)

Lemma length_append_s (a b : string) :
  String.length (a +++ b) = (String.length a + String.length b)%nat.
Proof. induction a; simpl; congruence. Qed.

Lemma lstrip_append (s t : string) :
  Py.lstrip (s +++ t) = match Py.lstrip s with
                        | EmptyString => Py.lstrip t
                        | r => r +++ t
                        end.
Proof.
  induction s as [| c s IH]; simpl.
  - destruct (Py.lstrip t); reflexivity.
  - destruct (Py.is_space c); [exact IH | reflexivity].
Qed.

Lemma rstrip_append (s t : string) :
  Py.rstrip (s +++ t) = match Py.rstrip t with
                        | EmptyString => Py.rstrip s
                        | r => s +++ r
                        end.
Proof.
  induction s as [| c s IH]; simpl.
  - destruct (Py.rstrip t); reflexivity.
  - rewrite IH. destruct (Py.rstrip t) as [| a r].
    + reflexivity.
    + destruct s; reflexivity.
Qed.

(** What [lstrip] leaves starts with a character that is no space. *)
Lemma lstrip_head (s : string) :
  match Py.lstrip s with
  | EmptyString => True
  | String c _ => Py.is_space c = false
  end.
Proof.
  induction s as [| c s IH]; simpl; [exact I |].
  destruct (Py.is_space c) eqn:E; [exact IH | exact E].
Qed.

Lemma substring_whole (s : string) : String.substring 0 (String.length s) s = s.
Proof. induction s; simpl; congruence. Qed.

Lemma substring_skip (x y : string) (k : nat) :
  String.substring (String.length x) k (x +++ y) = String.substring 0 k y.
Proof. induction x; simpl; [reflexivity | assumption]. Qed.

Lemma take_append (x y : string) : Py.take (String.length x) (x +++ y) = x.
Proof. induction x; simpl; [destruct y; reflexivity | congruence]. Qed.

Lemma endswith_append (x p : string) : Py.endswith p (x +++ p) = true.
Proof.
  unfold Py.endswith. rewrite length_append_s.
  replace (String.length x + String.length p - String.length p)%nat
    with (String.length x) by lia.
  rewrite substring_skip, substring_whole, String.eqb_refl.
  rewrite andb_true_r. apply Nat.leb_le. lia.
Qed.

Lemma drop_last_fence (x : string) : Py.drop_last 3 (x +++ "```") = x.
Proof.
  unfold Py.drop_last. rewrite length_append_s.
  replace (String.length x + String.length "```" - 3)%nat with (String.length x)
    by (simpl; lia).
  apply take_append.
Qed.

(** ** [llm/json_guard.py]: code fences *)

Lemma after_tag_append (tag rest : string) :
  Str.all_chars Json.is_alnum tag = true ->
  Json.after_tag (tag +++ Py.nl +++ rest) = Some rest.
Proof.
  induction tag as [| c tag IH]; simpl; intros Ht.
  - reflexivity.
  - apply andb_prop in Ht as [Hc Ht]. rewrite Hc. auto.
Qed.

(** X1.  [_strip_code_fences] unwraps a fenced block: for a language tag
    of letters and digits (the empty tag included) and any body, the text
    made of the opening fence with the tag, a line end, the body, a line
    end and the closing fence is reduced to the body, stripped of the
    white space around it. *)
Theorem strip_code_fences_unwraps (tag body : string) :
  Str.all_chars Json.is_alnum tag = true ->
  Json._strip_code_fences ("```" +++ tag +++ Py.nl +++ body +++ Py.nl +++ "```")
    = Py.strip body.
Proof.
  intros Htag. unfold Json._strip_code_fences.
  set (inner := body +++ Py.nl +++ "```").
  assert (Hs : Py.strip ("```" +++ tag +++ Py.nl +++ inner)
               = "```" +++ tag +++ Py.nl +++ inner).
  { unfold Py.strip.
    change (Py.lstrip ("```" +++ tag +++ Py.nl +++ inner))
      with ("```" +++ tag +++ Py.nl +++ inner).
    unfold inner. rewrite <- !append_assoc_s. rewrite rstrip_append. reflexivity. }
  change (String.eqb ("```" +++ tag +++ Py.nl +++ inner) "") with false. cbv iota.
  rewrite Hs.
  change (Py.startswith "```" ("```" +++ tag +++ Py.nl +++ inner)) with true. cbv iota.
  assert (Hsub : Json.sub_opening_fence ("```" +++ tag +++ Py.nl +++ inner) = inner).
  { unfold Json.sub_opening_fence.
    change (String.length ("```" +++ tag +++ Py.nl +++ inner) - 3)%nat
      with (String.length (tag +++ Py.nl +++ inner) - 0)%nat.
    rewrite Nat.sub_0_r.
    change (String.substring 3 (String.length (tag +++ Py.nl +++ inner))
              ("```" +++ tag +++ Py.nl +++ inner))
      with (String.substring 0 (String.length (tag +++ Py.nl +++ inner))
              (tag +++ Py.nl +++ inner)).
    rewrite substring_whole, after_tag_append by exact Htag. reflexivity. }
  rewrite Hsub. unfold inner, Py.strip.
  rewrite lstrip_append. pose proof (lstrip_head body) as Hh.
  destruct (Py.lstrip body) as [| c r] eqn:Hb.
  - change (Py.lstrip (Py.nl +++ "```")) with ("" +++ "```").
    rewrite rstrip_append. change (Py.rstrip "```") with "```". cbv iota.
    rewrite endswith_append, drop_last_fence. reflexivity.
  - rewrite <- append_assoc_s. rewrite rstrip_append. change (Py.rstrip "```") with "```".
    cbv iota. rewrite endswith_append, drop_last_fence.
    simpl Py.lstrip. rewrite Hh.
    change (String c (r +++ Py.nl)) with (String c r +++ Py.nl).
    rewrite rstrip_append. reflexivity.
Qed.

Lemma strip_code_fences_unwraps_witness :
  Json._strip_code_fences
    ("```" +++ "json" +++ Py.nl +++ "  {}  " +++ Py.nl +++ "```") = "{}".
Proof. exact (strip_code_fences_unwraps "json" "  {}  " eq_refl). Defined.

(** ** [app/tools/csv_tools.py]: user directories *)

Lemma contains_char_absent (a : ascii) (s : string) :
  Str.all_chars (Str.other_than a) s = true ->
  Py.contains (String a EmptyString) s = false.
Proof.
  induction s as [| c s IH]; simpl; intros Hs.
  - reflexivity.
  - apply andb_prop in Hs as [Hc Hs]. unfold Str.other_than in Hc.
    rewrite Ascii.eqb_sym. apply negb_true_iff in Hc. rewrite Hc. simpl. auto.
Qed.

Lemma all_chars_lstrip (p : ascii -> bool) (s : string) :
  Str.all_chars p s = true -> Str.all_chars p (Py.lstrip s) = true.
Proof.
  induction s as [| c s IH]; simpl; intros Hs; [reflexivity |].
  apply andb_prop in Hs as [Hc Hs].
  destruct (Py.is_space c); [auto | simpl; now rewrite Hc, Hs].
Qed.

Lemma all_chars_rstrip (p : ascii -> bool) (s : string) :
  Str.all_chars p s = true -> Str.all_chars p (Py.rstrip s) = true.
Proof.
  induction s as [| c s IH]; simpl; intros Hs; [reflexivity |].
  apply andb_prop in Hs as [Hc Hs]. specialize (IH Hs).
  destruct (Py.rstrip s) as [| a r].
  - destruct (Py.is_space c); simpl; [reflexivity | now rewrite Hc].
  - cbn [Str.all_chars] in *. now rewrite Hc, IH.
Qed.

Lemma all_chars_replaced (a b : ascii) (s : string) :
  Ascii.eqb b a = false ->
  Str.all_chars (Str.other_than a) (replace_char a b s) = true.
Proof.
  intros Hab. induction s as [| c s IH]; simpl; [reflexivity |].
  rewrite IH, andb_true_r. unfold Str.other_than.
  destruct (Ascii.eqb c a) eqn:Hc; [now rewrite Hab | now rewrite Hc].
Qed.

Lemma all_chars_replace_keeps (p : ascii -> bool) (a b : ascii) (s : string) :
  p b = true -> Str.all_chars p s = true -> Str.all_chars p (replace_char a b s) = true.
Proof.
  intros Hb. induction s as [| c s IH]; simpl; intros Hs; [reflexivity |].
  apply andb_prop in Hs as [Hc Hs]. rewrite (IH Hs), andb_true_r.
  destruct (Ascii.eqb c a); assumption.
Qed.

(** X2.  The directory name [normalize_user_id] gives a user holds no dot
    and no space, whatever the user id: a dot-dot path step or a hidden
    file name cannot come out of it. *)
Theorem normalize_user_id_no_dot_no_space (user_id : option string) :
  Py.contains "." (normalize_user_id user_id) = false /\
  Py.contains " " (normalize_user_id user_id) = false.
Proof.
  assert (Hdir : forall u,
            Str.all_chars (Str.other_than ".") (Py.strip (replace_char " " "_" (replace_char "." "_" u))) = true /\
            Str.all_chars (Str.other_than " ") (Py.strip (replace_char " " "_" (replace_char "." "_" u))) = true).
  { intros u. unfold Py.strip. split.
    - apply all_chars_rstrip, all_chars_lstrip, all_chars_replace_keeps; [reflexivity |].
      apply all_chars_replaced. reflexivity.
    - apply all_chars_rstrip, all_chars_lstrip, all_chars_replaced. reflexivity. }
  unfold normalize_user_id. destruct user_id as [u |]; [| split; reflexivity].
  destruct (String.eqb u ""); [split; reflexivity |].
  destruct (Hdir u) as [Hdot Hspace]. split; now apply contains_char_absent.
Qed.

Lemma replace_char_merge (u : string) :
  replace_char " " "_" (replace_char "." "_" (replace_char "." " " u))
    = replace_char " " "_" (replace_char "." "_" u).
Proof.
  induction u as [| c u IH]; simpl; [reflexivity |]. rewrite IH. f_equal.
  destruct (Ascii.eqb c ".") eqn:Hdot; simpl.
  - reflexivity.
  - now rewrite Hdot.
Qed.

(** X3.  User ids that differ only in having a space where the other has
    a dot are given the same directory: [normalize_user_id] does not tell
    them apart. *)
Theorem normalize_user_id_merges_dots_and_spaces (u : string) :
  normalize_user_id (Some (replace_char "." " " u)) = normalize_user_id (Some u).
Proof.
  unfold normalize_user_id. rewrite replace_char_merge.
  destruct u as [| c u]; [reflexivity |]. simpl String.eqb.
  reflexivity.
Qed.

(** ** The CSV accessors and the file they resolve *)

Lemma raises_rbind {A B} (cls : string) (r : result A) (k : A -> result B) :
  raises cls r = false ->
  (forall a, raises cls (k a) = false) ->
  raises cls (rbind r k) = false.
Proof. intros Hr Hk. destruct r; simpl; auto. Qed.

Lemma raises_map_result {A B} (cls : string) (f : A -> result B) (xs : list A) :
  (forall x, raises cls (f x) = false) ->
  raises cls (OutputAgent.map_result f xs) = false.
Proof.
  intros Hf. induction xs as [| x xs IH]; simpl; [reflexivity |].
  apply raises_rbind; [apply Hf |]. intros y.
  apply raises_rbind; [exact IH |]. reflexivity.
Qed.

Lemma cast_amounts_finds (df : Frame.frame) (amt : string) (rs : list (list Frame.cell)) :
  raises "FileNotFoundError" (EnhancedCsvTools.cast_amounts df amt rs) = false.
Proof.
  unfold EnhancedCsvTools.cast_amounts. apply raises_map_result. intros r.
  apply raises_rbind; [| reflexivity].
  unfold Frame.number_of. destruct (Frame.cell_at df amt r); reflexivity.
Qed.

Section ResolvedFile.
Context `{PyRuntime}.
Variable E : env.

(** [get_user_csv_path] answers with a path only when something is
    there. *)
Lemma get_user_csv_path_exists (user_id : option string) (path : string) :
  get_user_csv_path E user_id = Some path -> path_exists E path = true.
Proof.
  unfold get_user_csv_path. intros Hp.
  assert (Hshared : (if path_exists E (DATA_PATH E) then Some (DATA_PATH E) else None)
                    = Some path -> path_exists E path = true).
  { destruct (path_exists E (DATA_PATH E)) eqn:Hd; [| discriminate].
    intros [= <-]. exact Hd. }
  destruct user_id as [u |]; [| auto].
  destruct (String.eqb u ""); [auto |].
  match type of Hp with
  | (if path_exists E ?p then _ else _) = _ => destruct (path_exists E p) eqn:Hu
  end; [| auto].
  injection Hp as <-. exact Hu.
Qed.

Lemma resolved_file (user_id : option string) (path : string) :
  resolve_path E None user_id = Some path ->
  exists f, files E path = Some f.
Proof.
  intros Hp. apply get_user_csv_path_exists in Hp. unfold path_exists in Hp.
  destruct (files E path) as [f |]; [now exists f | discriminate].
Qed.

Ltac finds_file :=
  repeat first
    [ reflexivity
    | apply cast_amounts_finds
    | apply raises_rbind; [| intros ]
    | match goal with
      | |- context [match ?x with _ => _ end] => destruct x
      end ].

(** X4.  Called without an explicit [csv_path], none of the accessors
    raises [FileNotFoundError]: the path [get_user_csv_path] resolves is
    one that exists.  (Only a [csv_path] handed in by the caller can fail
    [_ensure_csv_exists].) *)
Theorem accessors_find_resolved_file (year month : option Z) (top_n : Z)
    (month_text : option string) (user_id : option string) :
  raises "FileNotFoundError" (EnhancedCsvTools.total_spend E year month None user_id) = false /\
  raises "FileNotFoundError" (EnhancedCsvTools.monthly_spend E year None user_id) = false /\
  raises "FileNotFoundError" (EnhancedCsvTools.daily_spend E year month None user_id) = false /\
  raises "FileNotFoundError" (EnhancedCsvTools.category_stats E year month None user_id) = false /\
  raises "FileNotFoundError"
    (EnhancedCsvTools.merchant_stats E year month top_n None user_id) = false /\
  raises "FileNotFoundError" (EnhancedCsvTools.time_coverage E None user_id) = false /\
  raises "FileNotFoundError" (CsvTools.top_merchants E month_text top_n None user_id) = false.
Proof.
  assert (Hopen : forall path, resolve_path E None user_id = Some path ->
            _ensure_csv_exists E path = Ok tt /\
            raises "FileNotFoundError" (read_csv E path) = false).
  { intros path Hp. destruct (resolved_file _ _ Hp) as [f Hf]. split.
    - exact (ensure_exists E path f Hf).
    - unfold read_csv. rewrite Hf. destruct f; reflexivity. }
  repeat split.
  - unfold EnhancedCsvTools.total_spend.
    destruct (resolve_path E None user_id) as [path |] eqn:Hp; [| reflexivity].
    destruct (Hopen path eq_refl) as [-> Hread]. cbn [rbind].
    apply raises_rbind; [exact Hread |]. intros df. finds_file.
  - unfold EnhancedCsvTools.monthly_spend.
    destruct (resolve_path E None user_id) as [path |] eqn:Hp; [| reflexivity].
    destruct (Hopen path eq_refl) as [-> Hread]. cbn [rbind].
    apply raises_rbind; [exact Hread |]. intros df. finds_file.
  - unfold EnhancedCsvTools.daily_spend.
    destruct (resolve_path E None user_id) as [path |] eqn:Hp; [| reflexivity].
    destruct (Hopen path eq_refl) as [-> Hread]. cbn [rbind].
    apply raises_rbind; [exact Hread |]. intros df. finds_file.
  - unfold EnhancedCsvTools.category_stats, EnhancedCsvTools.grouped_desc.
    destruct (resolve_path E None user_id) as [path |] eqn:Hp; [| reflexivity].
    destruct (Hopen path eq_refl) as [-> Hread]. cbn [rbind].
    apply raises_rbind; [exact Hread |]. intros df. finds_file.
  - unfold EnhancedCsvTools.merchant_stats, EnhancedCsvTools.grouped_desc.
    destruct (resolve_path E None user_id) as [path |] eqn:Hp; [| reflexivity].
    destruct (Hopen path eq_refl) as [-> Hread]. cbn [rbind].
    apply raises_rbind; [exact Hread |]. intros df. finds_file.
  - unfold EnhancedCsvTools.time_coverage.
    destruct (resolve_path E None user_id) as [path |] eqn:Hp; [| reflexivity].
    destruct (Hopen path eq_refl) as [-> Hread]. cbn [rbind].
    apply raises_rbind; [exact Hread |]. intros df. finds_file.
  - unfold CsvTools.top_merchants, CsvTools.merchant_groups.
    destruct (resolve_path E None user_id) as [path |] eqn:Hp; [| reflexivity].
    destruct (Hopen path eq_refl) as [-> Hread]. cbn [rbind].
    apply raises_rbind; [exact Hread |]. intros df. finds_file.
Qed.

End ResolvedFile.

(** ** [agents/parsing_agent.py]: the keyword fallback *)

Lemma Ok_inj {A} (x y : A) : Ok x = Ok y -> x = y.
Proof. now intros [=]. Qed.

Lemma classify_locals (query_lower : string) :
  let loc := ParsingAgent.classify query_lower in
  ParsingAgent.requires_knowledge loc <> None /\
  (ParsingAgent.requires_transaction_data loc = None <->
   ParsingAgent.query_type loc = "market_question").
Proof.
  unfold ParsingAgent.classify.
  repeat match goal with
         | |- context [if Py.any_in ?ws ?q then _ else _] => destruct (Py.any_in ws q)
         end;
    cbn [ParsingAgent.query_type ParsingAgent.requires_knowledge
         ParsingAgent.requires_transaction_data];
    (split; [discriminate | split; intros Hq; (discriminate Hq || reflexivity)]).
Qed.

(** The dict [_fallback_parse] builds before the allocation is added. *)
Lemma fallback_parse_result (query : string) (d : dict) :
  ParsingAgent._fallback_parse query = Ok d ->
  exists (rk rt : bool) (extra : option (list value)),
    let query_lower := Py.lower query in
    let loc := ParsingAgent.classify query_lower in
    let base :=
      [ ("query_type", VStr (ParsingAgent.query_type loc));
        ("intent", VStr (Py.take 100 query));
        ("requires_knowledge", VBool rk);
        ("requires_transaction_data", VBool rt);
        ("requires_market_data",
          VBool (String.eqb (ParsingAgent.query_type loc) "market_question"));
        ("keywords",
          VList (map VStr (firstn 5 (filter (fun w => 3 <? Py.len w)
                                            (Py.split query_lower)))));
        ("risk_profile_needed",
          VBool (Py.contains "risk" query_lower || Py.contains "investment" query_lower)) ] in
    d = match extra with
        | Some alloc => Val.set "inferred_allocation" (VList alloc) base
        | None => base
        end /\
    match extra with
    | Some alloc =>
        ParsingAgent.query_type loc = "investment_advice" /\
        ParsingAgent.infer_allocation query_lower = Some alloc
    | None => True
    end.
Proof.
  unfold ParsingAgent._fallback_parse.
  destruct (ParsingAgent.requires_knowledge _) as [rk |]; [| discriminate].
  destruct (ParsingAgent.requires_transaction_data _) as [rt |]; [| discriminate].
  cbn [rbind read_local].
  destruct (String.eqb_spec
              (ParsingAgent.query_type (ParsingAgent.classify (Py.lower query)))
              "investment_advice") as [Hq | Hq].
  - destruct (ParsingAgent.infer_allocation (Py.lower query)) as [[| a alloc] |] eqn:Ha;
      intros Hd; apply Ok_inj in Hd.
    + exists rk, rt, None. split; [exact (eq_sym Hd) | exact I].
    + exists rk, rt, (Some (a :: alloc)).
      split; [exact (eq_sym Hd) | split; [exact Hq | reflexivity]].
    + exists rk, rt, None. split; [exact (eq_sym Hd) | exact I].
  - intros Hd; apply Ok_inj in Hd. exists rk, rt, None. split; [exact (eq_sym Hd) | exact I].
Qed.

Lemma fallback_parse_off_market (query : string) :
  ParsingAgent.query_type (ParsingAgent.classify (Py.lower query)) <> "market_question" ->
  exists d, ParsingAgent._fallback_parse query = Ok d.
Proof.
  intros Hq. destruct (classify_locals (Py.lower query)) as [Hk Ht].
  unfold ParsingAgent._fallback_parse.
  destruct (ParsingAgent.requires_knowledge _) as [rk |]; [| contradiction].
  destruct (ParsingAgent.requires_transaction_data _) as [rt |];
    [| exfalso; apply Hq, Ht; reflexivity].
  cbn [rbind read_local].
  destruct (if String.eqb _ "investment_advice" then _ else None) as [[| a alloc] |];
    eexists; reflexivity.
Qed.

(** X5.  [_fallback_parse] returns a dict exactly for the queries its
    keyword chain does not type as a market question: on those it raises,
    on every other query it answers. *)
Theorem fallback_parse_answers_off_market (query : string) :
  is_ok (ParsingAgent._fallback_parse query)
    = negb (String.eqb (ParsingAgent.query_type (ParsingAgent.classify (Py.lower query)))
                       "market_question").
Proof.
  destruct (String.eqb_spec
              (ParsingAgent.query_type (ParsingAgent.classify (Py.lower query)))
              "market_question") as [Hq | Hq]; simpl.
  - now rewrite fallback_parse_market_unbound.
  - destruct (fallback_parse_off_market query Hq) as [d ->]. reflexivity.
Qed.

Section FallbackProperties.
Context `{PyRuntime}.

(** X6.  For a query that the keyword chain does not type as a market
    question, [parse_query] never raises, whatever the LLM answers or
    raises and whatever the JSON decoder does, and it makes at most one
    completion. *)
Theorem parse_query_answers_off_market (client : llm_client) (user_query : string)
    (context : list dict) (t : trace) :
  ParsingAgent.query_type (ParsingAgent.classify (Py.lower user_query)) <> "market_question" ->
  exists (parsed : value) (t' : trace),
    ParsingAgent.parse_query client user_query context t = (Ok parsed, t') /\
    (completions t' <= completions t + 1)%nat.
Proof.
  intros Hq. destruct (fallback_parse_off_market user_query Hq) as [d Hd].
  unfold ParsingAgent.parse_query.
  destruct (Py.mem _ ParsingAgent.greetings || _).
  - exists (VDict ParsingAgent.greeting_intent), t. split; [reflexivity | lia].
  - unfold try_except, bind, complete, lift, ret. rewrite Hd.
    assert (Hone : (completions (t ++ [EvComplete (ParsingAgent.parse_prompt user_query context)])
                    <= completions t + 1)%nat).
    { rewrite completions_app. cbn. lia. }
    destruct (answer_at client (completions t) _) as [response | e].
    + destruct (Json.search_flat_object response) as [text |].
      * destruct (json_loads text) as [v | e]; eexists; eexists; (split; [reflexivity | exact Hone]).
      * eexists; eexists; (split; [reflexivity | exact Hone]).
    + eexists; eexists; (split; [reflexivity | exact Hone]).
Qed.

End FallbackProperties.

Lemma length_take (n : nat) (s : string) : (String.length (Py.take n s) <= n)%nat.
Proof.
  revert s. induction n as [| n IH]; intros [| c s]; simpl; try lia.
  specialize (IH s). lia.
Qed.

(** X7.  What [_fallback_parse] returns is bounded: the intent holds at
    most 100 characters, and there are at most five keywords, each longer
    than three characters. *)
Theorem fallback_parse_bounds (query : string) (d : dict) :
  ParsingAgent._fallback_parse query = Ok d ->
  exists (intent : string) (keywords : list string),
    Val.get "intent" d = VStr intent /\
    Py.len intent <= 100 /\
    Val.get "keywords" d = VList (map VStr keywords) /\
    (List.length keywords <= 5)%nat /\
    Forall (fun w => 3 < Py.len w) keywords.
Proof.
  intros Hd. apply fallback_parse_result in Hd as (rk & rt & extra & Hd & _).
  cbv zeta in Hd.
  exists (Py.take 100 query),
         (firstn 5 (filter (fun w => 3 <? Py.len w) (Py.split (Py.lower query)))).
  assert (Hget : forall k, k <> "inferred_allocation" ->
            Val.get k d = Val.get k
              [ ("query_type", VStr (ParsingAgent.query_type
                                       (ParsingAgent.classify (Py.lower query))));
                ("intent", VStr (Py.take 100 query));
                ("requires_knowledge", VBool rk);
                ("requires_transaction_data", VBool rt);
                ("requires_market_data",
                  VBool (String.eqb (ParsingAgent.query_type
                                       (ParsingAgent.classify (Py.lower query)))
                                    "market_question"));
                ("keywords",
                  VList (map VStr (firstn 5 (filter (fun w => 3 <? Py.len w)
                                                    (Py.split (Py.lower query))))));
                ("risk_profile_needed",
                  VBool (Py.contains "risk" (Py.lower query)
                         || Py.contains "investment" (Py.lower query))) ]).
  { intros k Hk. subst d. destruct extra; [| reflexivity].
    unfold Val.get. now rewrite lookup_set_other. }
  repeat split.
  - rewrite Hget by discriminate. reflexivity.
  - unfold Py.len. pose proof (length_take 100 query). lia.
  - rewrite Hget by discriminate. reflexivity.
  - rewrite length_firstn. lia.
  - apply Forall_forall. intros w Hw. apply In_firstn in Hw.
    apply filter_In in Hw as [_ Hw]. now apply Z.ltb_lt.
Qed.

Lemma fallback_parse_bounds_witness :
  exists d,
    ParsingAgent._fallback_parse budget_query = Ok d /\
    exists (intent : string) (keywords : list string),
      Val.get "intent" d = VStr intent /\
      Py.len intent <= 100 /\
      Val.get "keywords" d = VList (map VStr keywords) /\
      (List.length keywords <= 5)%nat /\
      Forall (fun w => 3 < Py.len w) keywords.
Proof.
  eexists. split.
  - vm_compute. reflexivity.
  - apply (fallback_parse_bounds budget_query). vm_compute. reflexivity.
Defined.

Lemma parse_query_answers_off_market_witness :
  exists (parsed : value) (t' : trace),
    ParsingAgent.parse_query (H := Reference.runtime) failing_llm budget_query [] []
      = (Ok parsed, t') /\
    (completions t' <= completions [] + 1)%nat.
Proof.
  apply (parse_query_answers_off_market (H := Reference.runtime) failing_llm budget_query [] []).
  vm_compute. discriminate.
Defined.

Lemma lookup_set_same (k : string) (v : value) (d : dict) :
  Val.lookup k (Val.set k v d) = Some v.
Proof.
  induction d as [| [k0 v0] d IH]; simpl.
  - now rewrite String.eqb_refl.
  - destruct (String.eqb_spec k k0) as [-> | Hk]; simpl.
    + now rewrite String.eqb_refl.
    + destruct (String.eqb_spec k k0); [contradiction | exact IH].
Qed.

(** What [infer_allocation] can return: one or two buckets, 15 or 90
    percent in all. *)
Lemma infer_allocation_total (query_lower : string) (alloc : list value) :
  ParsingAgent.infer_allocation query_lower = Some alloc ->
  (percent_total alloc = 90 /\ List.length alloc = 2%nat) \/
  (percent_total alloc = 15 /\ List.length alloc = 1%nat).
Proof.
  unfold ParsingAgent.infer_allocation.
  repeat match goal with
         | |- context [Py.contains ?p query_lower] =>
             let b := fresh "b" in
             generalize (Py.contains p query_lower); intros b
         end.
  repeat match goal with
         | b : bool |- _ => destruct b
         end;
    cbn; intros Ha; try discriminate Ha; apply (f_equal (fun o => match o with Some l => l | None => [] end)) in Ha;
    subst alloc; cbn; auto.
Qed.

(** X8.  An allocation that [_fallback_parse] infers from the wording of
    an investment query never exceeds the whole: it is two buckets that
    make 90 percent (75 and 15), or one bucket of 15 percent. *)
Theorem fallback_parse_allocation_total (query : string) (d : dict) (alloc : list value) :
  ParsingAgent._fallback_parse query = Ok d ->
  Val.get "inferred_allocation" d = VList alloc ->
  Val.get "query_type" d = VStr "investment_advice" /\
  ((percent_total alloc = 90 /\ List.length alloc = 2%nat) \/
   (percent_total alloc = 15 /\ List.length alloc = 1%nat)).
Proof.
  intros Hd Hget. apply fallback_parse_result in Hd as (rk & rt & extra & Hd & Hextra).
  cbv zeta in Hd, Hextra. destruct extra as [alloc' |].
  - destruct Hextra as [Hq Ha]. subst d. unfold Val.get in *.
    rewrite lookup_set_same in Hget. injection Hget as <-.
    rewrite lookup_set_other by discriminate. split.
    + cbn. now rewrite Hq.
    + exact (infer_allocation_total _ _ Ha).
  - subst d. discriminate Hget.
Qed.

Lemma fallback_parse_allocation_total_witness :
  exists d alloc,
    ParsingAgent._fallback_parse bucket_query = Ok d /\
    Val.get "inferred_allocation" d = VList alloc /\
    Val.get "query_type" d = VStr "investment_advice" /\
    ((percent_total alloc = 90 /\ List.length alloc = 2%nat) \/
     (percent_total alloc = 15 /\ List.length alloc = 1%nat)).
Proof.
  eexists. eexists.
  split; [vm_compute; reflexivity |]. split; [vm_compute; reflexivity |].
  apply (fallback_parse_allocation_total bucket_query); vm_compute; reflexivity.
Defined.

(** ** [vectordb/orchestrator.py]: the transaction summary *)

Lemma rbind_ok {A B} (r : result A) (k : A -> result B) (b : B) :
  rbind r k = Ok b -> exists a, r = Ok a /\ k a = Ok b.
Proof. destruct r as [a | e]; simpl; intros Hk; [now exists a | discriminate]. Qed.

(** No result of [monthly_spend] has a [recent_monthly] entry. *)
Lemma monthly_spend_keys (E : env) (year : option Z) (csv_path user_id : option string)
    (monthly : dict) :
  EnhancedCsvTools.monthly_spend E year csv_path user_id = Ok monthly ->
  monthly <> [] /\ Val.lookup "recent_monthly" monthly = None.
Proof.
  unfold EnhancedCsvTools.monthly_spend.
  destruct (resolve_path E csv_path user_id) as [path |].
  2: { intros Hm; apply Ok_inj in Hm; subst monthly. split; [discriminate | reflexivity]. }
  intros Hm. apply rbind_ok in Hm as (_ & _ & Hm). apply rbind_ok in Hm as (df & _ & Hm).
  destruct (EnhancedCsvTools._detect_columns df) as [[date_col amount_col] category_col].
  destruct date_col as [dc |], amount_col as [amt |];
    try (apply Ok_inj in Hm; subst monthly; split; [discriminate | reflexivity]).
  destruct (_HAS_DUCKDB E).
  - destruct year; [discriminate |].
    apply rbind_ok in Hm as (cast & _ & Hm).
    apply Ok_inj in Hm; subst monthly; split; [discriminate | reflexivity].
  - apply rbind_ok in Hm as (cast & _ & Hm).
    apply Ok_inj in Hm; subst monthly; split; [discriminate | reflexivity].
Qed.

Section SummaryProperties.
Context `{PyRuntime}.
Variable W : Orchestrator.world.

(** X9.  In every transaction summary the workflow builds, the monthly
    spending is the int 0 (it is read from a [recent_monthly] entry that
    no result of [monthly_spend] has) and so is the savings rate; the
    output agent therefore renders the financial patterns of such a
    summary as a heading with nothing under it. *)
Theorem transaction_summary_has_no_monthly_figure (user_id : option string)
    (summary : dict) :
  Orchestrator.transaction_summary_of W user_id = Ok summary ->
  Val.get "monthly_spend" summary = VInt 0 /\
  Val.get "savings_rate" summary = VInt 0 /\
  OutputAgent.patterns_block (Some summary)
    = Ok [Py.nl +++ "**Your Financial Patterns:**"].
Proof.
  unfold Orchestrator.transaction_summary_of. intros Hs.
  apply rbind_ok in Hs as (total & _ & Hs).
  apply rbind_ok in Hs as (monthly & Hmonthly & Hs).
  apply rbind_ok in Hs as (categories & _ & Hs).
  apply rbind_ok in Hs as (breakdown & _ & Hs).
  apply rbind_ok in Hs as (monthly_total & Htotal & Hs).
  apply rbind_ok in Hs as (top & _ & Hs).
  apply rbind_ok in Hs as (top_categories & _ & Hs).
  apply Ok_inj in Hs.
  apply monthly_spend_keys in Hmonthly as [Hne Hkey].
  assert (Hzero : monthly_total = VInt 0).
  { destruct monthly as [| kv monthly]; [contradiction |].
    unfold Val.get_or in Htotal. rewrite Hkey in Htotal.
    now apply Ok_inj in Htotal. }
  subst monthly_total summary. repeat split.
Qed.

End SummaryProperties.

Lemma transaction_summary_has_no_monthly_figure_witness :
  exists summary,
    Orchestrator.transaction_summary_of (H := Reference.runtime) march_world None
      = Ok summary /\
    Val.get "total_spend" summary = VFloat 15500 /\
    Val.get "monthly_spend" summary = VInt 0 /\
    Val.get "savings_rate" summary = VInt 0 /\
    OutputAgent.patterns_block (H := Reference.runtime) (Some summary)
      = Ok [Py.nl +++ "**Your Financial Patterns:**"].
Proof.
  eexists. split; [vm_compute; reflexivity |]. split; [vm_compute; reflexivity |].
  apply (transaction_summary_has_no_monthly_figure (H := Reference.runtime) march_world None).
  vm_compute. reflexivity.
Defined.

(** ** [vectordb/orchestrator.py]: the cost of the agent workflow *)

Lemma at_most_weaken {A} (n n' : nat) (m : M A) :
  (n <= n')%nat -> completes_at_most n m -> completes_at_most n' m.
Proof. intros Hn Hm t. specialize (Hm t). lia. Qed.

Lemma at_most_ret {A} (a : A) : completes_at_most 0 (ret a).
Proof. intros t. simpl. lia. Qed.

Lemma at_most_raise {A} (e : exn) : completes_at_most 0 (raise (A := A) e).
Proof. intros t. simpl. lia. Qed.

Lemma at_most_lift {A} (r : result A) : completes_at_most 0 (lift r).
Proof. intros t. simpl. lia. Qed.

Lemma at_most_stage (s : stage) : completes_at_most 0 (emit (EvStage s)).
Proof. intros t. unfold emit. cbn [snd]. rewrite completions_app. cbn. lia. Qed.

Lemma at_most_complete (c : llm_client) (prompt : string) :
  completes_at_most 1 (complete c prompt).
Proof. intros t. unfold complete. cbn [snd]. rewrite completions_app. cbn. lia. Qed.

Lemma at_most_bind {A B} (n1 n2 : nat) (m : M A) (k : A -> M B) :
  completes_at_most n1 m ->
  (forall a, completes_at_most n2 (k a)) ->
  completes_at_most (n1 + n2) (bind m k).
Proof.
  intros Hm Hk t. unfold bind. specialize (Hm t).
  destruct (m t) as [[a | e] t']; cbn [snd] in *.
  - specialize (Hk a t'). lia.
  - lia.
Qed.

Lemma at_most_try {A} (n1 n2 : nat) (m : M A) (handler : exn -> M A) :
  completes_at_most n1 m ->
  (forall e, completes_at_most n2 (handler e)) ->
  completes_at_most (n1 + n2) (try_except m handler).
Proof.
  intros Hm Hh t. unfold try_except. specialize (Hm t).
  destruct (m t) as [[a | e] t']; cbn [snd] in *.
  - lia.
  - specialize (Hh e t'). lia.
Qed.

Section WorkflowCost.
Context `{PyRuntime}.
Variable W : Orchestrator.world.
Variable self : Orchestrator.orchestrator.

Lemma parse_query_cost (message : string) (context : list dict) :
  completes_at_most 1 (ParsingAgent.parse_query (Orchestrator.llm W) message context).
Proof.
  unfold ParsingAgent.parse_query. destruct (_ || _).
  - apply (at_most_weaken 0); [lia | apply at_most_ret].
  - apply (at_most_try 1 0).
    + apply (at_most_bind 1 0); [apply at_most_complete |]. intros response.
      destruct (Json.search_flat_object response); [apply at_most_lift |].
      apply (at_most_bind 0 0); [apply at_most_lift | intros; apply at_most_ret].
    + intros e. apply (at_most_bind 0 0); [apply at_most_lift | intros; apply at_most_ret].
Qed.

Lemma generate_strategy_cost (message : string) (ks : list chunk)
    (risk_profile summary market : option dict) :
  completes_at_most 1
    (StrategyAgent.generate_strategy (Orchestrator.llm W) message ks risk_profile summary market).
Proof.
  unfold StrategyAgent.generate_strategy. apply (at_most_try 1 0).
  - apply (at_most_bind 1 0); [apply at_most_complete |]. intros response.
    destruct (Json.search_flat_object response); [apply at_most_lift | apply at_most_ret].
  - intros e. apply at_most_ret.
Qed.

Lemma assess_risk_cost (strategy : value) (risk_profile : dict) (ks : list chunk) :
  completes_at_most 1 (RiskAgent.assess_risk (Orchestrator.llm W) strategy risk_profile ks).
Proof.
  unfold RiskAgent.assess_risk. apply (at_most_bind 0 1); [apply at_most_lift |].
  intros prompt. apply (at_most_try 1 0).
  - apply (at_most_bind 1 0); [apply at_most_complete |]. intros response.
    destruct (Json.search_flat_object response); [apply at_most_lift | apply at_most_ret].
  - intros e. apply at_most_ret.
Qed.

Lemma plan_for_cost (risk_profile : dict) (strategy risk_assessment : value) :
  completes_at_most 0 (Orchestrator.plan_for W self risk_profile strategy risk_assessment).
Proof.
  unfold Orchestrator.plan_for.
  destruct (Orchestrator.implementation_agent self) as [[|] |];
    [| apply at_most_ret | apply at_most_raise].
  destruct (rbind _ _) as [[recs assets] | e]; [| apply at_most_ret].
  destruct (Val.truthy recs); [| apply at_most_ret].
  apply (at_most_bind 0 0); [apply at_most_stage |]. intros _.
  destruct (Orchestrator.generate_implementation_plan W _ _ _); apply at_most_ret.
Qed.

Lemma strategy_branch_cost (message : string) (ks : list chunk)
    (summary : option dict) (analysis : option value) :
  completes_at_most 2 (Orchestrator.strategy_branch W self message ks summary analysis).
Proof.
  unfold Orchestrator.strategy_branch.
  apply (at_most_bind 0 2); [apply at_most_stage |]. intros _.
  apply (at_most_bind 1 1); [apply generate_strategy_cost |]. intros strategy.
  apply (at_most_bind 0 1); [apply at_most_stage |]. intros _.
  apply (at_most_bind 1 0); [apply assess_risk_cost |]. intros risk_assessment.
  apply (at_most_bind 0 0); [apply plan_for_cost |]. intros plan.
  apply (at_most_bind 0 0); [apply at_most_stage |]. intros _.
  apply (at_most_bind 0 0); [apply at_most_lift |]. intros response.
  destruct plan as [plan |]; [| apply at_most_ret].
  destruct (Val.truthy plan); [| apply at_most_ret].
  apply (at_most_bind 0 0); [apply at_most_lift |]. intros impl. apply at_most_ret.
Qed.

Lemma simple_branch_cost (message : string) (user_id : option string) (ks : list chunk)
    (analysis : option value) :
  completes_at_most 1 (Orchestrator.simple_branch W message user_id ks analysis).
Proof.
  unfold Orchestrator.simple_branch.
  destruct (Orchestrator._get_comprehensive_data_context W message user_id)
    as [data_analysis visualizations].
  apply (at_most_bind 1 0); [apply at_most_complete |]. intros response_text.
  apply at_most_ret.
Qed.

(** X10.  [_process_with_vectordb_workflow] never raises (what goes wrong
    inside makes it return [None]) and makes at most three LLM
    completions for a message: one to parse it, and then either one for
    the strategy and one for the risk assessment, or one for the direct
    answer. *)
Theorem workflow_makes_at_most_three_completions (message : string)
    (context : list dict) (user_id : option string) (t : trace) :
  exists (response : option dict) (t' : trace),
    Orchestrator._process_with_vectordb_workflow W self message context user_id t
      = (Ok response, t') /\
    (completions t' <= completions t + 3)%nat.
Proof.
  assert (Hcost : completes_at_most 3
            (Orchestrator._process_with_vectordb_workflow W self message context user_id)).
  { unfold Orchestrator._process_with_vectordb_workflow.
    apply (at_most_try 3 0); [| intros e; apply at_most_ret].
    apply (at_most_bind 0 3); [apply at_most_stage |]. intros _.
    apply (at_most_bind 1 2); [apply parse_query_cost |]. intros parsed.
    apply (at_most_bind 0 2); [apply at_most_lift |]. intros needs.
    apply (at_most_bind 0 2).
    { destruct (Val.truthy needs); [| apply at_most_ret].
      apply (at_most_bind 0 0); [apply at_most_lift |]. intros keywords.
      apply (at_most_bind 0 0); [apply at_most_lift |]. intros query.
      apply (at_most_bind 0 0); [apply at_most_stage |]. intros _. apply at_most_lift. }
    intros ks.
    apply (at_most_bind 0 2); [apply at_most_lift |]. intros gathered.
    apply (at_most_bind 0 2); [apply at_most_lift |]. intros query_type.
    apply (at_most_bind 2 0); [| intros; apply at_most_ret].
    destruct ks as [| k ks].
    - apply (at_most_weaken 1); [lia | apply simple_branch_cost].
    - destruct (Orchestrator.is_investment_query query_type).
      + apply strategy_branch_cost.
      + apply (at_most_weaken 1); [lia | apply simple_branch_cost]. }
  specialize (Hcost t). revert Hcost.
  unfold Orchestrator._process_with_vectordb_workflow at 1 2, try_except.
  match goal with
  | |- context [match ?m t with _ => _ end] => destruct (m t) as [[response | e] t']
  end; cbn [snd]; intros Hcost.
  - exists response, t'. split; [reflexivity | exact Hcost].
  - exists None, t'. split; [reflexivity | exact Hcost].
Qed.

End WorkflowCost.

(** ** [llm/llm_client.py]: requests and retries *)

Section RetryProperties.
Context `{PyRuntime}.
Variable T : LLMClient.transport.
Variable self : LLMClient.client.

(** X11.  One call of [complete] sends at most [retries + 1] requests,
    whatever the provider, the network and the responses are. *)
Theorem complete_posts_at_most_retries_plus_one (prompt : string) (system : option string)
    (t : trace) :
  (posts (snd (LLMClient.complete T self prompt system t))
   <= posts t + Z.to_nat (LLMClient.retries self + 1))%nat.
Proof.
  assert (Hafter : forall (who url : string) (payload : value) (snippet : nat)
                          (k : value -> M value),
            (forall js u, snd (k js u) = u) ->
            (posts (snd (bind (LLMClient.request_json T self who url payload snippet) k t))
             <= posts t + Z.to_nat (LLMClient.retries self + 1))%nat).
  { intros who url payload snippet k Hk. unfold bind.
    pose proof (request_json_posts T self who url payload snippet t) as Hreq.
    destruct (LLMClient.request_json T self who url payload snippet t) as [[js | e] t'];
      cbn [snd] in *; [rewrite Hk |]; exact Hreq. }
  unfold LLMClient.complete.
  destruct (String.eqb (LLMClient.provider self) "gemini").
  - unfold LLMClient._complete_gemini.
    destruct (LLMClient.gemini_api_key self) as [[| c key] |];
      try (unfold raise; cbn [snd]; lia).
    apply Hafter. intros js u. unfold bind, lift, ret.
    destruct (LLMClient.gemini_text js); reflexivity.
  - destruct (String.eqb (LLMClient.provider self) "openrouter").
    + unfold LLMClient._complete_openrouter.
      destruct (LLMClient.openrouter_api_key self) as [[| c key] |];
        try (unfold raise; cbn [snd]; lia).
      apply Hafter. intros js u. reflexivity.
    + apply Hafter. intros js u. unfold bind, lift, ret.
      destruct (LLMClient.free_text js); reflexivity.
Qed.

Lemma retry_trace_step (url : string) (backoff : float) (attempt : Z) (rest : list Z) :
  rest <> [] ->
  retry_trace url backoff (attempt :: rest)
    = EvPost url :: EvSleep (backoff * LLMClient.float_of_Z (attempt + 1))%float
      :: retry_trace url backoff rest.
Proof. destruct rest; [contradiction | reflexivity]. Qed.

Lemma sleep_accepted (seconds : float) :
  sleep_accepts seconds = true -> LLMClient.sleep seconds = emit (EvSleep seconds).
Proof.
  unfold sleep_accepts, LLMClient.sleep. intros Hs.
  apply andb_prop in Hs as [Hs Hneg]. apply andb_prop in Hs as [Hnum Hfit].
  cbv zeta. rewrite Hnum. apply negb_true_iff in Hfit, Hneg.
  cbn [negb]. rewrite Hfit, Hneg. reflexivity.
Qed.

(** The loop on a network that lets nothing through, from attempt [k]. *)
Lemma request_loop_dead (who url : string) (payload : value) (msg : nat -> string)
    (len : nat) :
  (forall n, LLMClient.post_at T n url payload = LLMClient.RequestException (msg n)) ->
  (forall attempt, 0 <= attempt < LLMClient.retries self ->
     sleep_accepts (LLMClient.backoff_seconds self * LLMClient.float_of_Z (attempt + 1))%float
     = true) ->
  forall (k : nat) (t : trace),
    Z.of_nat (k + len) = LLMClient.retries self ->
    LLMClient.request_loop T self who url payload (map Z.of_nat (seq k (S len))) t
      = (Raise (RuntimeError (who +++ " request failed: " +++ msg (posts t + len)%nat)),
         t ++ retry_trace url (LLMClient.backoff_seconds self) (map Z.of_nat (seq k (S len)))).
Proof.
  intros Hdead Hsleep. induction len as [| len IH]; intros k t Hk.
  - cbn [seq map LLMClient.request_loop]. unfold bind, LLMClient.do_post. rewrite Hdead.
    replace (Z.of_nat k <? LLMClient.retries self) with false
      by (symmetry; apply Z.ltb_ge; lia).
    unfold raise. rewrite Nat.add_0_r. reflexivity.
  - change (seq k (S (S len))) with (k :: seq (S k) (S len)). rewrite map_cons.
    set (rest := map Z.of_nat (seq (S k) (S len))) in *.
    rewrite retry_trace_step by (subst rest; discriminate).
    cbn [LLMClient.request_loop]. unfold bind at 1, LLMClient.do_post at 1.
    rewrite Hdead.
    replace (Z.of_nat k <? LLMClient.retries self) with true
      by (symmetry; apply Z.ltb_lt; lia).
    rewrite sleep_accepted by (apply Hsleep; lia).
    unfold bind at 1, emit.
    rewrite (IH (S k)) by lia.
    rewrite !posts_app. cbn [posts filter is_post List.length].
    replace (posts t + 1 + 0 + len)%nat with (posts t + S len)%nat by lia.
    f_equal. rewrite <- !app_assoc. reflexivity.
Qed.

(** X12.  When no request gets through and every length
    [backoff_seconds * (attempt + 1)] is one [time.sleep] accepts,
    [complete] (with the default provider) tries [retries + 1] times,
    sleeps that length after each attempt but the last, sends nothing
    else, and raises [RuntimeError] with the text of the last transport
    failure. *)
Theorem complete_retries_with_backoff (prompt : string) (system : option string)
    (msg : nat -> string) (t : trace) :
  LLMClient.provider self <> "gemini" ->
  LLMClient.provider self <> "openrouter" ->
  0 <= LLMClient.retries self ->
  (forall n, LLMClient.post_at T n (LLMClient.base_url self)
               (LLMClient.free_payload self prompt system)
             = LLMClient.RequestException (msg n)) ->
  (forall attempt, 0 <= attempt < LLMClient.retries self ->
     sleep_accepts (LLMClient.backoff_seconds self * LLMClient.float_of_Z (attempt + 1))%float
     = true) ->
  LLMClient.complete T self prompt system t
    = (Raise (RuntimeError ("LLM request failed: " +++
                            msg (posts t + Z.to_nat (LLMClient.retries self))%nat)),
       t ++ retry_trace (LLMClient.base_url self) (LLMClient.backoff_seconds self)
              (LLMClient.range (LLMClient.retries self + 1))).
Proof.
  intros Hg Ho Hretries Hdead Hsleep. unfold LLMClient.complete.
  apply String.eqb_neq in Hg, Ho. rewrite Hg, Ho.
  unfold bind at 1, LLMClient.request_json, bind at 1, LLMClient.range.
  replace (Z.to_nat (LLMClient.retries self + 1))
    with (S (Z.to_nat (LLMClient.retries self))) by lia.
  rewrite (request_loop_dead "LLM" _ _ msg (Z.to_nat (LLMClient.retries self)) Hdead Hsleep
             0%nat t) by lia.
  reflexivity.
Qed.

(** X13.  With a negative [retries] the loop body never runs: [complete]
    sends no request, and fails on the unassigned [resp] with
    [UnboundLocalError] rather than with a [RuntimeError]. *)
Theorem complete_with_negative_retries (prompt : string) (system : option string)
    (t : trace) :
  LLMClient.provider self <> "gemini" ->
  LLMClient.provider self <> "openrouter" ->
  LLMClient.retries self < 0 ->
  LLMClient.complete T self prompt system t = (Raise (UnboundLocalError "resp"), t).
Proof.
  intros Hg Ho Hretries. unfold LLMClient.complete.
  apply String.eqb_neq in Hg, Ho. rewrite Hg, Ho.
  unfold bind at 1, LLMClient.request_json, bind at 1, LLMClient.range.
  replace (Z.to_nat (LLMClient.retries self + 1)) with 0%nat by lia.
  reflexivity.
Qed.

End RetryProperties.

Lemma complete_retries_with_backoff_witness :
  LLMClient.complete (H := Reference.runtime) dead_transport default_client "hello" None []
    = (Raise (RuntimeError "LLM request failed: connection refused"),
       [ EvPost "https://apifreellm.com/api/chat"; EvSleep 1.5%float;
         EvPost "https://apifreellm.com/api/chat"; EvSleep 3%float;
         EvPost "https://apifreellm.com/api/chat" ]).
Proof.
  apply (complete_retries_with_backoff (H := Reference.runtime) dead_transport default_client
           "hello" None (fun _ => "connection refused") []).
  - discriminate.
  - discriminate.
  - simpl. lia.
  - reflexivity.
  - intros attempt Ha. cbn [default_client LLMClient.retries] in Ha.
    assert (Hcases : attempt = 0 \/ attempt = 1) by lia.
    destruct Hcases as [-> | ->]; vm_compute; reflexivity.
Defined.

Lemma complete_with_negative_retries_witness :
  LLMClient.complete (H := Reference.runtime) dead_transport hasty_client "hello" None []
    = (Raise (UnboundLocalError "resp"), []).
Proof.
  apply (complete_with_negative_retries (H := Reference.runtime) dead_transport hasty_client
           "hello" None []).
  - discriminate.
  - discriminate.
  - simpl. lia.
Defined.

(** ** The dates a table covers *)

Lemma date_leb_refl (a : Frame.date) : Frame.date_leb a a = true.
Proof.
  destruct a as [[y m] d]. unfold Frame.date_leb.
  rewrite !Z.eqb_refl, Z.leb_refl. cbn. now rewrite !orb_true_r.
Qed.

Lemma date_leb_total (a b : Frame.date) :
  Frame.date_leb a b = false -> Frame.date_leb b a = true.
Proof.
  destruct a as [[y1 m1] d1], b as [[y2 m2] d2]. unfold Frame.date_leb.
  destruct (Z.ltb_spec y1 y2), (Z.eqb_spec y1 y2), (Z.ltb_spec m1 m2), (Z.eqb_spec m1 m2),
           (Z.leb_spec d1 d2); cbn; try discriminate; intros _;
    destruct (Z.ltb_spec y2 y1), (Z.eqb_spec y2 y1), (Z.ltb_spec m2 m1), (Z.eqb_spec m2 m1),
             (Z.leb_spec d2 d1); cbn; try reflexivity; lia.
Qed.

Lemma date_min_le_max (ds : list Frame.date) (lo hi : Frame.date) :
  Frame.date_leb lo hi = true ->
  Frame.date_leb (EnhancedCsvTools.date_min ds lo) (EnhancedCsvTools.date_max ds hi) = true.
Proof.
  unfold EnhancedCsvTools.date_min, EnhancedCsvTools.date_max.
  revert lo hi. induction ds as [| d ds IH]; intros lo hi Hle; [exact Hle |].
  cbn [fold_left]. apply IH.
  destruct (Frame.date_leb lo d) eqn:Hlo, (Frame.date_leb hi d) eqn:Hhi.
  - exact Hlo.
  - exact Hle.
  - apply date_leb_refl.
  - now apply date_leb_total.
Qed.

Lemma iso_day_nonempty (d : Frame.date) : String.eqb (Frame.iso_day (Some d)) "" = false.
Proof.
  destruct d as [[y m] dd]. unfold Frame.iso_day.
  destruct (Frame.pad4 y); reflexivity.
Qed.

Section DateRangeProperties.
Context `{PyRuntime}.
Variable W : Orchestrator.world.

(** X14.  [_get_date_range] never raises: it answers "Unknown" (also
    when [time_coverage] raises, as it does for a user with no CSV file),
    or "lo to hi" for two days of the table with lo not after hi. *)
Theorem date_range_is_unknown_or_ordered (user_id : option string) :
  DataContext._get_date_range W user_id = "Unknown" \/
  exists lo hi : Frame.date,
    DataContext._get_date_range W user_id
      = Frame.iso_day (Some lo) +++ " to " +++ Frame.iso_day (Some hi) /\
    Frame.date_leb lo hi = true.
Proof.
  unfold DataContext._get_date_range, EnhancedCsvTools.time_coverage.
  destruct (resolve_path (Orchestrator.csv W) None user_id) as [path |];
    cbn [rbind]; [| now left].
  destruct (_ensure_csv_exists (Orchestrator.csv W) path); cbn [rbind]; [| now left].
  destruct (read_csv (Orchestrator.csv W) path) as [df | e]; cbn [rbind]; [| now left].
  destruct (EnhancedCsvTools._detect_columns df) as [[date_col amount_col] category_col].
  destruct date_col as [dc |]; [| now left].
  destruct (flat_map _ _) as [| d0 ds]; [now left |].
  right. exists (EnhancedCsvTools.date_min ds d0), (EnhancedCsvTools.date_max ds d0).
  split.
  - pose proof (iso_day_nonempty (EnhancedCsvTools.date_min ds d0)) as Hlo.
    remember (Frame.iso_day (Some (EnhancedCsvTools.date_min ds d0))) as lo.
    remember (Frame.iso_day (Some (EnhancedCsvTools.date_max ds d0))) as hi.
    cbn. now rewrite Hlo.
  - apply date_min_le_max, date_leb_refl.
Qed.

End DateRangeProperties.

(** ** [llm/json_guard.py]: the response parsers *)

Lemma all_chars_take_while (p : ascii -> bool) (s : string) :
  Str.all_chars p (Str.take_while p s) = true.
Proof.
  induction s as [| c s IH]; simpl; [reflexivity |].
  destruct (p c) eqn:Hc; simpl; [now rewrite Hc | reflexivity].
Qed.

Lemma lstrip_idem (s : string) : Py.lstrip (Py.lstrip s) = Py.lstrip s.
Proof.
  pose proof (lstrip_head s) as Hh. destruct (Py.lstrip s) as [| c r]; [reflexivity |].
  simpl. now rewrite Hh.
Qed.

Lemma rstrip_idem (s : string) : Py.rstrip (Py.rstrip s) = Py.rstrip s.
Proof.
  induction s as [| c s IH]; simpl; [reflexivity |].
  destruct (Py.rstrip s) as [| a r] eqn:Hr.
  - destruct (Py.is_space c) eqn:Hc; simpl; [reflexivity | now rewrite Hc].
  - cbn [Py.rstrip] in *. now rewrite IH.
Qed.

(** What [rstrip] leaves starts as the text did, when that start was no
    space. *)
Lemma lstrip_rstrip_head (s : string) :
  Py.lstrip (Py.rstrip (Py.lstrip s)) = Py.rstrip (Py.lstrip s).
Proof.
  pose proof (lstrip_head s) as Hh. destruct (Py.lstrip s) as [| c r]; [reflexivity |].
  cbn [Py.rstrip]. destruct (Py.rstrip r); rewrite ?Hh; simpl; now rewrite Hh.
Qed.

Lemma strip_idem (s : string) : Py.strip (Py.strip s) = Py.strip s.
Proof. unfold Py.strip. now rewrite lstrip_rstrip_head, rstrip_idem. Qed.

Lemma search_category_name (txt group : string) :
  JsonGuard.search_category txt = Some group ->
  Str.all_chars JsonGuard.name_char group = true.
Proof.
  induction txt as [| c txt IH]; cbn [JsonGuard.search_category].
  - destruct (Py.startswith "category" (Py.lower "")); discriminate.
  - destruct (if Py.startswith "category" (Py.lower (String c txt)) then _ else None)
      as [g |] eqn:Hhere; [| exact IH].
    intros [= <-]. destruct (Py.startswith _ _); [| discriminate].
    revert Hhere. unfold JsonGuard.category_group.
    pose proof (all_chars_take_while JsonGuard.name_char
                  (Str.drop_while JsonGuard.sep_char (Str.drop 8 (String c txt)))) as Hname.
    destruct (Str.take_while JsonGuard.name_char _) as [| a r].
    + destruct (Py.contains " " _); intros [= <-]; reflexivity.
    + intros [= <-]. exact Hname.
Qed.

Section GuardProperties.
Context `{PyRuntime}.
Variable float_of_str : string -> result float.

(** X15.  [parse_budget_json] has no failure of its own: for every
    response text it returns a dict of a str status, a float budget_diff,
    a float utilization and a list of str recommendations; and when the
    text (code fences stripped) is not the JSON of an object, that dict is
    the fixed default. *)
Theorem parse_budget_json_shape (txt : string) :
  (exists (status : string) (budget_diff utilization : float) (recs : list string),
     JsonGuard.parse_budget_json float_of_str txt
       = [ ("status", VStr status);
           ("budget_diff", VFloat budget_diff);
           ("utilization", VFloat utilization);
           ("recommendations", VList (map VStr recs)) ]) /\
  ((forall d, json_loads (Json._strip_code_fences txt) <> Ok (VDict d)) ->
   JsonGuard.parse_budget_json float_of_str txt = JsonGuard.budget_default).
Proof.
  unfold JsonGuard.parse_budget_json. split.
  - destruct (JsonGuard.budget_body float_of_str txt) as [d | e] eqn:Hbody.
    + unfold JsonGuard.budget_body in Hbody.
      apply rbind_ok in Hbody as (obj & _ & Hbody).
      apply rbind_ok in Hbody as (status0 & _ & Hbody).
      apply rbind_ok in Hbody as (diff0 & _ & Hbody).
      apply rbind_ok in Hbody as (budget_diff & _ & Hbody).
      apply rbind_ok in Hbody as (utilization0 & _ & Hbody).
      apply rbind_ok in Hbody as (utilization & _ & Hbody).
      apply rbind_ok in Hbody as (recs0 & _ & Hbody).
      apply Ok_inj in Hbody. subst d.
      eexists. exists budget_diff, utilization. eexists.
      rewrite map_map. reflexivity.
    + exists "On Track", 0%float, 0%float, ["Enable alerts at 90% of category limits"].
      reflexivity.
  - intros Hobj. unfold JsonGuard.budget_body.
    destruct (json_loads (Json._strip_code_fences txt)) as [obj | e]; [| reflexivity].
    destruct obj; try reflexivity. exfalso. now apply (Hobj d).
Qed.

(** X16.  [parse_expense_json] has no failure of its own: it always
    returns a dict of a str category, a float confidence and a str
    reasoning; and when the text (code fences stripped) is not the JSON
    of an object, the confidence is 0.2, the reasoning is "fallback parse"
    and the category has no white space at either end ("Other" when the
    text names none). *)
Theorem parse_expense_json_shape (txt : string) :
  (exists (category : string) (confidence : float) (reasoning : string),
     JsonGuard.parse_expense_json float_of_str txt
       = [ ("predicted_category", VStr category);
           ("confidence", VFloat confidence);
           ("reasoning", VStr reasoning) ]) /\
  ((forall d, json_loads (Json._strip_code_fences txt) <> Ok (VDict d)) ->
   exists category : string,
     JsonGuard.parse_expense_json float_of_str txt
       = [ ("predicted_category", VStr category);
           ("confidence", VFloat 0.2);
           ("reasoning", VStr "fallback parse") ] /\
     Py.strip category = category).
Proof.
  unfold JsonGuard.parse_expense_json. split.
  - destruct (JsonGuard.expense_body float_of_str txt) as [d | e] eqn:Hbody.
    + unfold JsonGuard.expense_body in Hbody.
      apply rbind_ok in Hbody as (obj & _ & Hbody).
      apply rbind_ok in Hbody as (predicted & _ & Hbody).
      apply rbind_ok in Hbody as (cat & _ & Hbody).
      apply rbind_ok in Hbody as (confidence & _ & Hbody).
      apply rbind_ok in Hbody as (conf & _ & Hbody).
      apply rbind_ok in Hbody as (reasoning & _ & Hbody).
      apply Ok_inj in Hbody. subst d. eexists. exists conf. eexists. reflexivity.
    + unfold JsonGuard.expense_fallback. eexists. eexists. eexists. reflexivity.
  - intros Hobj.
    assert (Hbody : exists e, JsonGuard.expense_body float_of_str txt = Raise e).
    { unfold JsonGuard.expense_body.
      destruct (json_loads (Json._strip_code_fences txt)) as [obj | e]; [| now exists e].
      destruct obj; try (eexists; reflexivity). exfalso. now apply (Hobj d). }
    destruct Hbody as [e ->]. unfold JsonGuard.expense_fallback.
    destruct (JsonGuard.search_category txt) as [g |] eqn:Hg.
    + exists (Py.strip g). split; [reflexivity | apply strip_idem].
    + exists "Other". repeat split.
Qed.

End GuardProperties.

(** ** [app/tools/csv_tools.py]: free queries *)





Lemma effective_limit_range (limit : Z) : 1 <= CsvQuery.effective_limit limit <= 10000.
Proof.
  unfold CsvQuery.effective_limit.
  destruct (Z.eqb_spec limit 0); cbn; [lia |].
  destruct (Z.leb_spec limit 0); cbn; [lia |].
  destruct (Z.ltb_spec 10000 limit); lia.
Qed.

(** The first word of a blank text cannot be read. *)
Lemma first_word_of_blank (sql : string) :
  Py.strip sql = "" ->
  CsvQuery.first_word sql = Raise (Exn "IndexError" "list index out of range").
Proof. intros Hblank. unfold CsvQuery.first_word. now rewrite Hblank. Qed.



(** A limit beyond the bound, and a string that only speaks of one, go
    to DuckDB as they are; a text with no limit gets the bounded one. *)
Example query_csv_limit_examples :
  CsvQuery.statement "SELECT * FROM t LIMIT 99999999" 10
    = Ok "SELECT * FROM t LIMIT 99999999"
  /\ CsvQuery.statement "SELECT ' limit ' AS x FROM t" 10
     = Ok "SELECT ' limit ' AS x FROM t"
  /\ CsvQuery.statement "SELECT merchant FROM t; " 20000
     = Ok "SELECT merchant FROM t LIMIT 1000".
Proof. repeat split; vm_compute; reflexivity. Qed.

Section QueryProperties.
Variable E : env.
Variable duckdb_query : string -> string -> result Frame.frame.
Variable record_of : list string -> list Frame.cell -> value.

(** X18.  With DuckDB, [query_csv] turns away every statement whose first
    word, in lower case, is not select (an update, a DDL statement, and
    also a WITH query): it raises [ValueError] and DuckDB is not asked. *)
Theorem query_csv_rejects_other_statements (sql : string) (limit : Z)
    (csv_path user_id : option string) (path first : string) :
  _HAS_DUCKDB E = true ->
  resolve_path E csv_path user_id = Some path ->
  path_exists E path = true ->
  CsvQuery.first_word sql = Ok first ->
  first <> "select" ->
  CsvQuery.query_csv E duckdb_query record_of sql limit csv_path user_id
    = Raise (ValueError "Only SELECT queries are allowed").
Proof.
  intros Hduck Hpath Hexists Hfirst Hother.
  unfold CsvQuery.query_csv, _ensure_csv_exists. rewrite Hpath, Hexists, Hduck. cbn [rbind].
  unfold CsvQuery.statement, CsvQuery.effective_sql.
  destruct (String.eqb_spec (Py.strip sql) "") as [Hblank | _].
  - rewrite (first_word_of_blank sql Hblank) in Hfirst. discriminate.
  - rewrite Hfirst. cbn [rbind]. apply String.eqb_neq in Hother. now rewrite Hother.
Qed.

Lemma length_head {A} (n : Z) (l : list A) :
  0 <= n -> Z.of_nat (List.length (Frame.head n l)) <= n.
Proof.
  intros Hn. unfold Frame.head. replace (0 <=? n) with true by (symmetry; now apply Z.leb_le).
  rewrite length_firstn. lia.
Qed.

(** X19.  Without DuckDB, [query_csv] does not look at the SQL: the same
    call with any other SQL returns the same thing; and what it returns
    holds at most 10000 rows. *)
Theorem query_csv_without_duckdb_ignores_sql (sql other : string) (limit : Z)
    (csv_path user_id : option string) :
  _HAS_DUCKDB E = false ->
  CsvQuery.query_csv E duckdb_query record_of sql limit csv_path user_id
    = CsvQuery.query_csv E duckdb_query record_of other limit csv_path user_id /\
  forall d, CsvQuery.query_csv E duckdb_query record_of sql limit csv_path user_id = Ok d ->
            exists rows, Val.get "rows" d = VList rows /\ Z.of_nat (List.length rows) <= 10000.
Proof.
  intros Hduck. unfold CsvQuery.query_csv. rewrite Hduck. split; [reflexivity |].
  intros d. destruct (resolve_path E csv_path user_id) as [path |].
  - intros Hd. apply rbind_ok in Hd as (_ & _ & Hd). apply rbind_ok in Hd as (df & _ & Hd).
    apply Ok_inj in Hd. subst d. eexists. split; [reflexivity |].
    unfold CsvQuery.records. rewrite length_map.
    pose proof (effective_limit_range limit) as Hrange.
    pose proof (length_head (CsvQuery.effective_limit limit) (Frame.rows df)). lia.
  - intros Hd. apply Ok_inj in Hd. subst d. exists []. split; [reflexivity | simpl; lia].
Qed.

End QueryProperties.

Lemma query_csv_rejects_other_statements_witness :
  CsvQuery.query_csv (demo_env true) march_engine bare_record
    "WITH s AS (SELECT * FROM t) SELECT * FROM s" 10 None None
    = Raise (ValueError "Only SELECT queries are allowed").
Proof.
  apply (query_csv_rejects_other_statements (demo_env true) march_engine bare_record
           "WITH s AS (SELECT * FROM t) SELECT * FROM s" 10 None None
           "/srv/copenny/data/transactions.csv" "with").
  - reflexivity.
  - reflexivity.
  - reflexivity.
  - reflexivity.
  - discriminate.
Defined.

Lemma query_csv_without_duckdb_ignores_sql_witness :
  CsvQuery.query_csv (demo_env false) march_engine bare_record "DROP TABLE t" 1 None None
    = CsvQuery.query_csv (demo_env false) march_engine bare_record "" 1 None None /\
  forall d,
    CsvQuery.query_csv (demo_env false) march_engine bare_record "DROP TABLE t" 1 None None
      = Ok d ->
    exists rows, Val.get "rows" d = VList rows /\ Z.of_nat (List.length rows) <= 10000.
Proof.
  apply (query_csv_without_duckdb_ignores_sql (demo_env false) march_engine bare_record
           "DROP TABLE t" "" 1 None None).
  reflexivity.
Defined.

(** ** [app/tools/csv_tools.py]: a month filter and no date column *)

Section AggregateProperties.
Context `{PyRuntime}.
Variable E : env.

(** X20.  On a table with no date column a month filter has opposite
    effects in the two aggregates of [csv_tools.py]: [spend_aggregate]
    drops every row and returns no totals, while [top_merchants] keeps
    every row and returns the items it returns with no filter. *)
Theorem month_filter_without_date_column (month group_by : string) (n : Z)
    (csv_path user_id : option string) (path : string) (df : Frame.frame)
    (amt_col key merchant_col : string) :
  resolve_path E csv_path user_id = Some path ->
  files E path = Some (Frame.Csv df) ->
  Frame.first_present ["ts"; "date"; "Date"; "DATE"] df = None ->
  Frame.first_present ["amount"; "Amount"; "AMOUNT"; "monthly_expense_total"] df
    = Some amt_col ->
  CsvAggregate.key_column df group_by = Some key ->
  key <> amt_col ->
  month <> "" ->
  CsvAggregate.spend_aggregate E (Some month) group_by csv_path user_id
    = Ok [("month", VStr month); ("totals", VList []); ("top", VList [])] /\
  match CsvTools.top_merchants E None n csv_path user_id with
  | Ok unfiltered =>
      CsvTools.top_merchants E (Some month) n csv_path user_id
        = Ok (if Val.has_key "month" unfiltered
              then Val.set "month" (VStr month) unfiltered
              else unfiltered)
  | Raise e => CsvTools.top_merchants E (Some month) n csv_path user_id = Raise e
  end.
Proof.
  intros Hpath Hfile Hdate Hamt Hkey Hne Hmonth. split.
  - unfold CsvAggregate.spend_aggregate.
    rewrite Hpath, (ensure_exists E path _ Hfile). cbn [rbind].
    rewrite (read_table E path df Hfile). cbn [rbind].
    cbv zeta. rewrite Hdate, Hamt, Hkey.
    assert (Hkept : CsvAggregate.in_month df None (Some month) = []).
    { unfold CsvAggregate.in_month. apply String.eqb_neq in Hmonth. rewrite Hmonth.
      induction (Frame.rows df) as [| r rs IH]; [reflexivity | exact IH]. }
    rewrite Hkept. cbn [EnhancedCsvTools.cast_amounts OutputAgent.map_result rbind].
    apply String.eqb_neq in Hne. rewrite Hne.
    unfold CsvTools.month_label. apply String.eqb_neq in Hmonth. rewrite Hmonth.
    reflexivity.
  - unfold CsvTools.top_merchants.
    rewrite Hpath, (ensure_exists E path _ Hfile). cbn [rbind].
    rewrite (read_table E path df Hfile). cbn [rbind].
    cbv zeta. rewrite Hdate, Hamt.
    destruct (Frame.first_present ["merchant"; _; _; _; _] df) as [mc |];
      [| reflexivity].
    assert (Hgroups : CsvTools.merchant_groups df None mc amt_col (Some month)
                      = CsvTools.merchant_groups df None mc amt_col None) by reflexivity.
    rewrite Hgroups.
    destruct (CsvTools.merchant_groups df None mc amt_col None) as [grp | e]; cbn [rbind].
    + unfold CsvTools.month_label. apply String.eqb_neq in Hmonth. rewrite Hmonth.
      reflexivity.
    + reflexivity.
Qed.

End AggregateProperties.

Lemma month_filter_without_date_column_witness :
  CsvAggregate.spend_aggregate (H := Reference.runtime) (env_with undated_frame)
      (Some "2024-03") "category" None None
    = Ok [("month", VStr "2024-03"); ("totals", VList []); ("top", VList [])] /\
  match CsvTools.top_merchants (H := Reference.runtime) (env_with undated_frame)
          None 10 None None with
  | Ok unfiltered =>
      CsvTools.top_merchants (H := Reference.runtime) (env_with undated_frame)
          (Some "2024-03") 10 None None
        = Ok (if Val.has_key "month" unfiltered
              then Val.set "month" (VStr "2024-03") unfiltered
              else unfiltered)
  | Raise e =>
      CsvTools.top_merchants (H := Reference.runtime) (env_with undated_frame)
          (Some "2024-03") 10 None None = Raise e
  end.
Proof.
  apply (month_filter_without_date_column (H := Reference.runtime) (env_with undated_frame)
           "2024-03" "category" 10 None None "/srv/copenny/data/transactions.csv"
           undated_frame "amount" "category" "merchant");
    try reflexivity; discriminate.
Defined.

(** ** [agents/implementation_agent.py] *)

Lemma numbers_from (k n : nat) :
  forall start,
    map (fun i => VInt (Z.of_nat k + Z.of_nat i)) (seq start n)
      = map (fun i => VInt (Z.of_nat i)) (seq (k + start) n).
Proof.
  induction n as [| n IH]; intros start; [reflexivity |].
  cbn [seq map]. f_equal.
  - f_equal. lia.
  - rewrite IH. now rewrite Nat.add_succ_r.
Qed.

Section ImplementationProperties.
Context `{PyRuntime}.
Variable bullet_mark : string.

Lemma allocation_steps_numbers (assets : option (list value)) (allocation : list value) :
  forall (k : Z) (steps : list dict) (next : Z),
    ImplementationAgent.allocation_steps assets k allocation = Ok (steps, next) ->
    next = k + Z.of_nat (List.length allocation) /\
    map (Val.get "step") steps
      = map (fun i => VInt (k + Z.of_nat i)) (seq 0 (List.length allocation)).
Proof.
  induction allocation as [| rec allocation IH]; intros k steps next Hs.
  - cbn in Hs. apply Ok_inj in Hs. injection Hs as <- <-. split; [cbn; lia | reflexivity].
  - cbn [ImplementationAgent.allocation_steps] in Hs.
    apply rbind_ok in Hs as (step & Hstep & Hs).
    apply rbind_ok in Hs as ([rest next'] & Hrest & Hs).
    apply Ok_inj in Hs. cbn [fst snd] in Hs. injection Hs as <- <-.
    apply IH in Hrest as [-> Hnumbers]. split; [cbn [List.length]; lia |].
    cbn [List.length seq map]. f_equal.
    + unfold ImplementationAgent.allocation_step in Hstep.
      apply rbind_ok in Hstep as (category & _ & Hstep).
      apply rbind_ok in Hstep as (percentage & _ & Hstep).
      apply rbind_ok in Hstep as (fund_name & _ & Hstep).
      apply rbind_ok in Hstep as (instructions & _ & Hstep).
      apply Ok_inj in Hstep. subst step. cbn. now rewrite Z.add_0_r.
    + rewrite Hnumbers, <- seq_shift, map_map. apply map_ext. intros i. f_equal. lia.
Qed.

(** X21.  The action plan has a step for the KYC, one for each allocation
    entry and one for the monitoring, and the steps are numbered 1, 2,
    3, ... in that order, with no gap. *)
Theorem action_plan_steps_are_numbered (allocation : list value)
    (recommended_assets : option (list value)) (steps : list dict) :
  ImplementationAgent._generate_action_plan allocation recommended_assets = Ok steps ->
  List.length steps = (List.length allocation + 2)%nat /\
  map (Val.get "step") steps
    = map (fun i => VInt (Z.of_nat i)) (seq 1 (List.length allocation + 2)) /\
  Val.get "title" (hd [] steps) = VStr "Complete KYC (Know Your Customer)" /\
  Val.get "title" (last steps []) = VStr "Set Up Regular Monitoring".
Proof.
  unfold ImplementationAgent._generate_action_plan. intros Hs.
  apply rbind_ok in Hs as ([middle next] & Hmiddle & Hs). apply Ok_inj in Hs.
  cbn [fst snd] in Hs. subst steps.
  apply allocation_steps_numbers in Hmiddle as [Hnext Hnumbers].
  assert (Hlen : List.length middle = List.length allocation).
  { apply (f_equal (@List.length value)) in Hnumbers.
    now rewrite !length_map, length_seq in Hnumbers. }
  repeat split.
  - cbn [List.length]. rewrite length_app. cbn. lia.
  - cbn [map]. rewrite map_app, Hnumbers.
    replace (List.length allocation + 2)%nat with (S (List.length allocation + 1)) by lia.
    cbn [seq map]. f_equal. rewrite seq_app, map_app. f_equal.
    + exact (numbers_from 2 (List.length allocation) 0).
    + subst next. cbn [map seq].
      change (Val.get "step" (ImplementationAgent.monitoring_step ?k)) with (VInt k).
      do 2 f_equal. lia.
  - cbn [last]. destruct (middle ++ [_]) eqn:Hm; [now destruct middle |].
    rewrite <- Hm, last_last. reflexivity.
Qed.

Lemma first_naming_In (keywords : list string) (assets : list value) (asset : value) :
  ImplementationAgent.first_naming keywords assets = Ok (Some asset) -> In asset assets.
Proof.
  induction assets as [| a assets IH]; cbn [ImplementationAgent.first_naming].
  - discriminate.
  - intros Hf. apply rbind_ok in Hf as (hit & _ & Hf). destruct hit.
    + apply Ok_inj in Hf. injection Hf as <-. now left.
    + right. now apply IH.
Qed.

(** X22.  When the strategy named products, [_get_fund_suggestion]
    suggests one of them, whatever the category: the first that names a
    word of the category, else the first of the list; the catalogue of
    the agent is not used. *)
Theorem fund_suggestion_is_a_recommended_asset (category fund : value)
    (recommended_assets : list value) :
  recommended_assets <> [] ->
  ImplementationAgent._get_fund_suggestion category (Some recommended_assets) = Ok fund ->
  In fund recommended_assets.
Proof.
  intros Hne. destruct recommended_assets as [| first rest]; [contradiction |].
  unfold ImplementationAgent._get_fund_suggestion. intros Hf.
  apply rbind_ok in Hf as (category_lower & _ & Hf).
  apply rbind_ok in Hf as (found & Hfound & Hf).
  destruct found as [asset |]; apply Ok_inj in Hf; subst fund.
  - exact (first_naming_In _ _ _ Hfound).
  - now left.
Qed.

(** X23.  With no product named by the strategy, a category that the
    agent maps to the fund type fd (a fixed deposit) is given the first
    large-cap equity fund of the catalogue: the catalogue has no entry
    for fd, and the large-cap list is its default. *)
Theorem fixed_deposit_is_given_an_equity_fund (category : string) :
  ImplementationAgent.mapped_type ImplementationAgent.category_mapping (Py.lower category)
    = "fd" ->
  ImplementationAgent._get_fund_suggestion (VStr category) None
    = Ok (VStr "HDFC Top 100 Fund - Direct Growth") /\
  ImplementationAgent._get_fund_suggestion (VStr category) (Some [])
    = Ok (VStr "HDFC Top 100 Fund - Direct Growth") /\
  ImplementationAgent._get_fund_suggestion (VStr "Equity") None
    = Ok (VStr "HDFC Top 100 Fund - Direct Growth").
Proof.
  intros Hfd. unfold ImplementationAgent._get_fund_suggestion.
  cbn [ImplementationAgent.lower_of rbind]. rewrite Hfd. repeat split.
Qed.

(** X24.  Whatever is passed as the risk profile, the plan
    [generate_implementation_plan] returns names one of Safe, Moderate
    and Aggressive. *)
Theorem plan_profile_is_one_of_three (risk_profile : value) (allocation : list value)
    (recommended_assets : option (list value)) (plan : dict) :
  ImplementationAgent.generate_implementation_plan bullet_mark risk_profile allocation
    recommended_assets = Ok plan ->
  exists name,
    Val.get "risk_profile" plan = VStr name /\
    In name ["Safe"; "Moderate"; "Aggressive"].
Proof.
  unfold ImplementationAgent.generate_implementation_plan. intros Hp.
  apply rbind_ok in Hp as (profile & Hprofile & Hp).
  apply rbind_ok in Hp as (explanation & _ & Hp).
  apply rbind_ok in Hp as (action_plan & _ & Hp).
  apply rbind_ok in Hp as (platforms & _ & Hp).
  apply rbind_ok in Hp as (sip & _ & Hp).
  apply Ok_inj in Hp. subst plan. exists profile. split; [reflexivity |].
  unfold ImplementationAgent.normalize_profile in Hprofile.
  apply rbind_ok in Hprofile as (lowered & _ & Hprofile).
  destruct (ImplementationAgent.capitalize lowered) as [name |].
  - destruct (Py.mem name ImplementationAgent.risk_profiles) eqn:Hmem;
      apply Ok_inj in Hprofile; subst profile.
    + now apply mem_In in Hmem.
    + cbn. tauto.
  - apply Ok_inj in Hprofile; subst profile. cbn. tauto.
Qed.

End ImplementationProperties.

Lemma map_result_ok {A B} (f : A -> result B) (xs : list A) :
  (forall x, In x xs -> exists y, f x = Ok y) ->
  exists ys, OutputAgent.map_result f xs = Ok ys.
Proof.
  induction xs as [| x xs IH]; intros Hf; [now exists [] |].
  destruct (Hf x (or_introl eq_refl)) as [y Hy].
  destruct IH as [ys Hys]; [intros z Hz; apply Hf; now right |].
  exists (y :: ys). cbn [OutputAgent.map_result]. now rewrite Hy, Hys.
Qed.

Lemma sum_by_ints {A} (f : A -> result (option value)) (xs : list A) :
  (forall x, In x xs ->
     f x = Ok None \/ exists z, f x = Ok (Some (VInt z)) \/ exists b, f x = Ok (Some (VBool b))) ->
  exists total, Num.sum_by f xs = Ok (Num.NInt total).
Proof.
  unfold Num.sum_by. generalize 0 as acc.
  induction xs as [| x xs IH]; intros acc Hf; [now exists acc |].
  cbn [fold_left rbind].
  destruct (Hf x (or_introl eq_refl)) as [-> | [z [-> | [b ->]]]]; cbn [rbind];
    (apply IH; intros y Hy; apply Hf; now right).
Qed.

(** What a plain entry gives for its category and its percentage. *)
Lemma plain_entry_fields (rec : value) :
  plain_entry rec = true ->
  exists d, rec = VDict d /\
    (forall default, exists c, Val.get_or "category" (VStr default) d = VStr c) /\
    ((exists z, Val.get_or "allocation_percentage" (VInt 0) d = VInt z) \/
     (exists b, Val.get_or "allocation_percentage" (VInt 0) d = VBool b)).
Proof.
  destruct rec as [| | | | | | d]; try discriminate. cbn [plain_entry].
  intros Hp. apply andb_prop in Hp as [Hc Hp]. apply andb_prop in Hp as [Hp _].
  exists d. split; [reflexivity |]. split.
  - intros default. unfold Val.get_or in *.
    destruct (Val.lookup "category" d) as [[| | | | c | |] |]; try discriminate.
    + now exists c.
    + now exists default.
  - destruct (Val.get_or "allocation_percentage" (VInt 0) d) as [| b | z | | | |];
      try discriminate; [right; now exists b | left; now exists z].
Qed.

Lemma first_naming_ok (keywords : list string) (assets : list value) :
  forallb Val.is_str assets = true ->
  exists found, ImplementationAgent.first_naming keywords assets = Ok found.
Proof.
  induction assets as [| a assets IH]; cbn [forallb ImplementationAgent.first_naming];
    intros Hs; [now exists None |].
  apply andb_prop in Hs as [Ha Hs]. destruct a; try discriminate Ha.
  unfold ImplementationAgent.names_any.
  destruct keywords as [| k keywords]; cbn [rbind ImplementationAgent.lower_of].
  - now apply IH.
  - destruct (Py.any_in _ _); [eexists; reflexivity | now apply IH].
Qed.

Section PlanProperties.
Context `{PyRuntime}.
Variable bullet_mark : string.

Lemma fund_suggestion_ok (category : string) (recommended_assets : option (list value)) :
  plain_assets recommended_assets = true ->
  exists fund,
    ImplementationAgent._get_fund_suggestion (VStr category) recommended_assets = Ok fund.
Proof.
  intros Hassets. unfold ImplementationAgent._get_fund_suggestion.
  cbn [ImplementationAgent.lower_of rbind].
  assert (Hcatalogue : exists fund,
            match
              match ImplementationAgent.table_get
                      (ImplementationAgent.mapped_type ImplementationAgent.category_mapping
                         (Py.lower category)) ImplementationAgent.FUND_SUGGESTIONS with
              | Some l => l
              | None =>
                  match ImplementationAgent.table_get "large_cap"
                          ImplementationAgent.FUND_SUGGESTIONS with
                  | Some l => l
                  | None => []
                  end
              end
            with
            | f :: _ => Ok (VStr f)
            | [] => Ok (VStr "Consult with a financial advisor")
            end = Ok fund).
  { destruct (match ImplementationAgent.table_get _ _ with Some l => l | None => _ end);
      eexists; reflexivity. }
  destruct recommended_assets as [[| first rest] |]; [exact Hcatalogue | | exact Hcatalogue].
  destruct (first_naming_ok (Py.split (Py.lower category)) (first :: rest) Hassets)
    as [found ->]. cbn [rbind]. destruct found; eexists; reflexivity.
Qed.

Lemma allocation_steps_ok (recommended_assets : option (list value))
    (allocation : list value) :
  plain_assets recommended_assets = true ->
  forallb plain_entry allocation = true ->
  forall k, exists steps,
    ImplementationAgent.allocation_steps recommended_assets k allocation = Ok steps.
Proof.
  intros Hassets. induction allocation as [| rec allocation IH];
    cbn [forallb ImplementationAgent.allocation_steps]; intros Hplain k;
    [eexists; reflexivity |].
  apply andb_prop in Hplain as [Hrec Hplain].
  apply plain_entry_fields in Hrec as (d & -> & Hcat & _).
  destruct (Hcat "Unknown") as [c Hc].
  unfold ImplementationAgent.allocation_step. cbn [Val.getattr_get rbind]. rewrite Hc.
  destruct (fund_suggestion_ok c recommended_assets Hassets) as [fund ->]. cbn [rbind].
  unfold ImplementationAgent._get_category_instructions.
  cbn [ImplementationAgent.lower_of rbind].
  destruct (IH Hplain (k + 1)) as [rest Hrest].
  destruct (_ || _); [| destruct (Py.contains "gold" _); [| destruct (_ || _)]];
    cbn [rbind]; rewrite Hrest; eexists; reflexivity.
Qed.

(** X25.  [generate_implementation_plan] returns a plan whenever the risk
    profile is a str, every allocation entry is a dict whose category and
    rationale are strs and whose percentage is an int of 64 bits (each may
    be missing), and the recommended assets, if any, are strs. *)
Theorem plan_for_plain_allocation (risk_profile : string) (allocation : list value)
    (recommended_assets : option (list value)) :
  forallb plain_entry allocation = true ->
  plain_assets recommended_assets = true ->
  exists plan,
    ImplementationAgent.generate_implementation_plan bullet_mark (VStr risk_profile)
      allocation recommended_assets = Ok plan.
Proof.
  intros Hplain Hassets.
  assert (Hentry : forall rec, In rec allocation -> plain_entry rec = true).
  { intros rec. now apply (proj1 (forallb_forall _ _) Hplain). }
  unfold ImplementationAgent.generate_implementation_plan,
    ImplementationAgent.normalize_profile.
  cbn [ImplementationAgent.lower_of rbind].
  set (profile := match ImplementationAgent.capitalize (Py.lower risk_profile) with
                  | Some name =>
                      if Py.mem name ImplementationAgent.risk_profiles then name
                      else "Moderate"
                  | None => "Moderate"
                  end).
  assert (Hprofile : match ImplementationAgent.capitalize (Py.lower risk_profile) with
                     | Some name =>
                         Ok (if Py.mem name ImplementationAgent.risk_profiles then name
                             else "Moderate")
                     | None => Ok "Moderate"
                     end = Ok profile).
  { unfold profile. now destruct (ImplementationAgent.capitalize _). }
  rewrite Hprofile. cbn [rbind].
  (* the explanation *)
  unfold ImplementationAgent._generate_short_explanation.
  destruct (sum_by_ints
              (fun rec => rbind (Val.getattr_get "allocation_percentage" (VInt 0) rec)
                                (fun p => Ok (Some p))) allocation) as [total ->].
  { intros rec Hin. apply Hentry, plain_entry_fields in Hin as (d & -> & _ & [[z Hz] | [b Hb]]);
      cbn [Val.getattr_get rbind]; right.
    - exists z. left. now rewrite Hz.
    - exists 0. right. exists b. now rewrite Hb. }
  cbn [rbind].
  destruct (map_result_ok (ImplementationAgent.explanation_line bullet_mark) allocation)
    as [body ->].
  { intros rec Hin. apply Hentry, plain_entry_fields in Hin as (d & -> & _ & _).
    unfold ImplementationAgent.explanation_line. cbn [Val.getattr_get rbind].
    eexists; reflexivity. }
  cbn [rbind].
  (* the action plan *)
  unfold ImplementationAgent._generate_action_plan.
  destruct (allocation_steps_ok recommended_assets allocation Hassets Hplain 2) as [middle ->].
  cbn [rbind].
  (* the platforms *)
  unfold ImplementationAgent._suggest_platforms.
  destruct (map_result_ok
              (fun rec => rbind (Val.getattr_get "category" (VStr "") rec)
                                ImplementationAgent.lower_of) allocation) as [categories Hcats].
  { intros rec Hin. apply Hentry, plain_entry_fields in Hin as (d & -> & Hcat & _).
    destruct (Hcat "") as [c Hc]. cbn [Val.getattr_get rbind]. rewrite Hc.
    eexists; reflexivity. }
  unfold ImplementationAgent.categories_of. rewrite Hcats. cbn [rbind].
  (* SIP or lump sum *)
  unfold ImplementationAgent._suggest_sip_vs_lumpsum.
  destruct (sum_by_ints ImplementationAgent.equity_term allocation) as [equity ->].
  { intros rec Hin. apply Hentry, plain_entry_fields in Hin as (d & -> & Hcat & Hpct).
    destruct (Hcat "") as [c Hc]. unfold ImplementationAgent.equity_term.
    cbn [Val.getattr_get rbind]. rewrite Hc. cbn [ImplementationAgent.lower_of rbind].
    destruct (Py.any_in _ _); [| now left]. right.
    destruct Hpct as [[z Hz] | [b Hb]].
    - exists z. left. now rewrite Hz.
    - exists 0. right. exists b. now rewrite Hb. }
  cbn [rbind]. eexists; reflexivity.
Qed.

End PlanProperties.

Lemma action_plan_steps_are_numbered_witness :
  exists steps,
    ImplementationAgent._generate_action_plan (H := Reference.runtime)
      demo_allocation (Some demo_assets) = Ok steps /\
    List.length steps = 5%nat /\
    map (Val.get "step") steps = [VInt 1; VInt 2; VInt 3; VInt 4; VInt 5] /\
    Val.get "title" (hd [] steps) = VStr "Complete KYC (Know Your Customer)" /\
    Val.get "title" (last steps []) = VStr "Set Up Regular Monitoring".
Proof.
  eexists. split; [vm_compute; reflexivity |].
  apply (action_plan_steps_are_numbered (H := Reference.runtime) demo_allocation
           (Some demo_assets)).
  vm_compute. reflexivity.
Defined.

Lemma fund_suggestion_is_a_recommended_asset_witness :
  In (VStr "SBI Gold ETF") demo_assets.
Proof.
  apply (fund_suggestion_is_a_recommended_asset (VStr "Gold") (VStr "SBI Gold ETF")
           demo_assets).
  - discriminate.
  - vm_compute. reflexivity.
Defined.

Lemma fixed_deposit_is_given_an_equity_fund_witness :
  ImplementationAgent._get_fund_suggestion (VStr "Fixed Deposit") None
    = Ok (VStr "HDFC Top 100 Fund - Direct Growth") /\
  ImplementationAgent._get_fund_suggestion (VStr "Fixed Deposit") (Some [])
    = Ok (VStr "HDFC Top 100 Fund - Direct Growth") /\
  ImplementationAgent._get_fund_suggestion (VStr "Equity") None
    = Ok (VStr "HDFC Top 100 Fund - Direct Growth").
Proof.
  apply (fixed_deposit_is_given_an_equity_fund "Fixed Deposit"). vm_compute. reflexivity.
Defined.

Lemma plan_profile_is_one_of_three_witness :
  exists plan,
    ImplementationAgent.generate_implementation_plan (H := Reference.runtime) "-"
      (VStr "AGGRESSIVE") demo_allocation (Some demo_assets) = Ok plan /\
    exists name,
      Val.get "risk_profile" plan = VStr name /\
      In name ["Safe"; "Moderate"; "Aggressive"].
Proof.
  eexists. split; [vm_compute; reflexivity |].
  apply (plan_profile_is_one_of_three (H := Reference.runtime) "-" (VStr "AGGRESSIVE")
           demo_allocation (Some demo_assets)).
  vm_compute. reflexivity.
Defined.

Lemma plan_for_plain_allocation_witness :
  exists plan,
    ImplementationAgent.generate_implementation_plan (H := Reference.runtime) "-"
      (VStr "moderate") demo_allocation (Some demo_assets) = Ok plan.
Proof.
  apply (plan_for_plain_allocation (H := Reference.runtime) "-" "moderate" demo_allocation
           (Some demo_assets)); reflexivity.
Defined.

(* --------------------------------------------------------------------- *)
(** ** Historical queries                                                 *)
(* --------------------------------------------------------------------- *)

Lemma has_year_app (a s : string) : has_year s -> has_year (a +++ s).
Proof.
  intros H pre prev. rewrite <- append_assoc_s. apply H.
Qed.

Lemma year_after_nonword (c : ascii) (post : string) (y : Z) :
  Historical.is_word_char c = false ->
  Historical.year_here post = Some y ->
  has_year (String c post).
Proof.
  intros Hc Hy pre. induction pre as [| a pre IH]; intros prev.
  - change ("" +++ String c post) with (String c post).
    cbn [Historical.years_go].
    destruct (if prev then None else Historical.year_here (String c post)); [discriminate |].
    rewrite Hc. destruct post as [| p post]; [discriminate |].
    cbn [Historical.years_go]. rewrite Hy. discriminate.
  - change (String a pre +++ String c post) with (String a (pre +++ String c post)).
    cbn [Historical.years_go].
    destruct (if prev then None else Historical.year_here _); [discriminate |].
    apply IH.
Qed.

Lemma space_is_not_word (c : ascii) :
  Py.is_space c = true -> Historical.is_word_char c = false.
Proof.
  destruct c as [[] [] [] [] [] [] [] []]; vm_compute; congruence.
Qed.

Lemma year_after_spaces (r : string) (y : Z) :
  forall c, Py.is_space c = true ->
  Historical.year_here (Py.lstrip r) = Some y ->
  has_year (String c r).
Proof.
  induction r as [| a r IH]; intros c Hc Hy; [discriminate |].
  cbn [Py.lstrip] in Hy. destruct (Py.is_space a) eqn:Ha.
  - change (String c (String a r)) with (String c "" +++ String a r).
    apply has_year_app. now apply IH.
  - apply (year_after_nonword c _ y); [now apply space_is_not_word | exact Hy].
Qed.

Lemma date_here_split (s d r : string) :
  Historical.date_here s = Some (d, r) -> s = d +++ r.
Proof.
  unfold Historical.date_here.
  do 10 (destruct s as [| ? s]; [discriminate |]).
  destruct (_ && _); [| discriminate].
  intros H. injection H as <- <-. reflexivity.
Qed.

Lemma date_here_year (s d r : string) :
  Historical.date_here s = Some (d, r) ->
  Py.startswith "20" d = true ->
  exists y, Historical.year_here s = Some y.
Proof.
  unfold Historical.date_here.
  destruct s as [| y1 [| y2 [| y3 [| y4 [| h1 [| m1 [| m2 [| h2 [| d1 [| d2 s]]]]]]]]]];
    try discriminate.
  destruct (_ && _) eqn:E; [| discriminate].
  intros H. injection H as <- <-.
  cbn [Py.take Py.startswith]. intros H2.
  repeat (apply andb_prop in E as [E ?]).
  apply andb_prop in H2 as [Ha H2]. apply andb_prop in H2 as [Hb _].
  apply Ascii.eqb_eq in Ha, Hb. subst y1 y2.
  match goal with Hh : Ascii.eqb h1 _ = true |- _ => apply Ascii.eqb_eq in Hh; subst h1 end.
  unfold Historical.year_here.
  repeat match goal with Hd : Historical.is_digit _ = true |- _ => rewrite Hd; clear Hd end.
  cbn. eexists. reflexivity.
Qed.

Lemma lstrip_suffix (s : string) : exists ws, s = ws +++ Py.lstrip s.
Proof.
  induction s as [| c s [ws IH]]; [now exists "" |].
  cbn [Py.lstrip]. destruct (Py.is_space c).
  - exists (String c ws). simpl. now rewrite <- IH.
  - now exists "".
Qed.

Lemma spaces_split (s r : string) :
  Historical.spaces s = Some r -> exists a, s = a +++ r.
Proof.
  unfold Historical.spaces. destruct s as [| c s]; [discriminate |].
  destruct (Py.is_space c); [| discriminate].
  intros H. injection H as <-.
  destruct (lstrip_suffix s) as [ws Hws].
  exists (String c ws). simpl. now rewrite <- Hws.
Qed.

Lemma startswith_drop (p s : string) :
  Py.startswith p s = true -> s = p +++ Str.drop (String.length p) s.
Proof.
  revert s. induction p as [| a p IH]; intros s H; [reflexivity |].
  destruct s as [| b s]; [discriminate |].
  cbn [Py.startswith] in H. apply andb_prop in H as [Hab H].
  apply Ascii.eqb_eq in Hab. subst b. simpl. f_equal. now apply IH.
Qed.

Lemma literal_split (p s r : string) :
  Historical.literal p s = Some r -> s = p +++ r.
Proof.
  unfold Historical.literal. destruct (Py.startswith p s) eqn:E; [| discriminate].
  intros H. injection H as <-. now apply startswith_drop.
Qed.

Lemma second_date_has_year (word r d2 : string) :
  Historical.second_date word r = Some d2 ->
  Py.startswith "20" d2 = true ->
  has_year r.
Proof.
  unfold Historical.second_date, Historical.and_then.
  destruct (Historical.spaces r) as [r1 |] eqn:E1; [| discriminate].
  destruct (Historical.literal word r1) as [r2 |] eqn:E2; [| discriminate].
  destruct (Historical.spaces r2) as [r3 |] eqn:E3; [| discriminate].
  destruct (Historical.date_here r3) as [[d rest] |] eqn:E4; [| discriminate].
  cbn [fst]. intros H H20. injection H as ->.
  destruct (date_here_year _ _ _ E4 H20) as [y Hy].
  apply spaces_split in E1 as [a ->]. apply literal_split in E2 as ->.
  apply has_year_app, has_year_app.
  unfold Historical.spaces in E3. destruct r2 as [| c r2]; [discriminate |].
  destruct (Py.is_space c) eqn:Hc; [| discriminate].
  injection E3 as <-. now apply (year_after_spaces r2 y).
Qed.

Lemma to_pattern_has_year (s d1 d2 : string) :
  Historical.to_pattern s = Some (d1, d2) ->
  Py.startswith "20" d2 = true ->
  has_year s.
Proof.
  unfold Historical.to_pattern, Historical.and_then.
  destruct (Historical.date_here s) as [[d r] |] eqn:E1; [| discriminate].
  cbn [fst snd].
  destruct (Historical.second_date "to" r) as [e |] eqn:E2; [| discriminate].
  intros H H20. injection H as -> ->.
  apply date_here_split in E1 as ->. apply has_year_app.
  now apply (second_date_has_year "to" r d2).
Qed.

Lemma from_pattern_has_year (s d1 d2 : string) :
  Historical.from_pattern s = Some (d1, d2) ->
  Py.startswith "20" d2 = true ->
  has_year s.
Proof.
  unfold Historical.from_pattern, Historical.and_then.
  destruct (Historical.literal "from" s) as [r |] eqn:E1; [| discriminate].
  destruct (Historical.spaces r) as [r1 |] eqn:E2; [| discriminate].
  intros H H20.
  apply literal_split in E1 as ->. apply spaces_split in E2 as [a ->].
  apply has_year_app, has_year_app. now apply (to_pattern_has_year r1 d1 d2).
Qed.

Lemma between_pattern_has_year (s d1 d2 : string) :
  Historical.between_pattern s = Some (d1, d2) ->
  Py.startswith "20" d2 = true ->
  has_year s.
Proof.
  unfold Historical.between_pattern, Historical.and_then.
  destruct (Historical.literal "between" s) as [r |] eqn:E1; [| discriminate].
  destruct (Historical.spaces r) as [r1 |] eqn:E2; [| discriminate].
  destruct (Historical.date_here r1) as [[d r2] |] eqn:E3; [| discriminate].
  cbn [fst snd].
  destruct (Historical.second_date "and" r2) as [e |] eqn:E4; [| discriminate].
  intros H H20. injection H as -> ->.
  apply literal_split in E1 as ->. apply spaces_split in E2 as [a ->].
  apply date_here_split in E3 as ->.
  do 3 apply has_year_app. now apply (second_date_has_year "and" r2 d2).
Qed.

Lemma search_has_year {A} (pattern : string -> option A) (s : string) (m : A) :
  (forall t, pattern t = Some m -> has_year t) ->
  Historical.search pattern s = Some m ->
  has_year s.
Proof.
  intros Hp. induction s as [| c s IH]; cbn [Historical.search].
  - destruct (pattern "") eqn:E; [| discriminate].
    intros H. injection H as ->. now apply Hp.
  - destruct (pattern (String c s)) eqn:E.
    + intros H. injection H as ->. now apply Hp.
    + intros H. change (String c s) with (String c "" +++ s).
      apply has_year_app. now apply IH.
Qed.

Lemma date_range_has_year (query d1 d2 : string) :
  Historical.find_date_range query = Some (d1, d2) ->
  Py.startswith "20" d2 = true ->
  Historical.find_years query <> [].
Proof.
  intros H H20.
  assert (Hy : has_year query).
  { unfold Historical.find_date_range in H.
    destruct (Historical.search Historical.to_pattern query) eqn:E1.
    - injection H as ->. apply (search_has_year _ _ _ (fun t Ht => to_pattern_has_year t d1 d2 Ht H20) E1).
    - destruct (Historical.search Historical.from_pattern query) eqn:E2.
      + injection H as ->. apply (search_has_year _ _ _ (fun t Ht => from_pattern_has_year t d1 d2 Ht H20) E2).
      + apply (search_has_year _ _ _ (fun t Ht => between_pattern_has_year t d1 d2 Ht H20) H). }
  exact (Hy "" false).
Qed.

Lemma digit_range (c : ascii) :
  Historical.is_digit c = true -> 0 <= Historical.digit c <= 9.
Proof.
  unfold Historical.is_digit, Historical.digit, Py.between. intros H.
  apply andb_prop in H as [Hlo Hhi].
  apply Nat.leb_le in Hlo, Hhi. lia.
Qed.

Lemma year_here_range (s : string) (y : Z) :
  Historical.year_here s = Some y -> 2000 <= y <= 2099.
Proof.
  unfold Historical.year_here.
  destruct s as [| a [| b [| c [| d rest]]]]; try discriminate.
  destruct (_ && _) eqn:E; [| discriminate].
  intros H.
  replace y with (2000 + 10 * Historical.digit c + Historical.digit d) by congruence.
  apply andb_prop in E as [E _]. apply andb_prop in E as [E Hd].
  apply andb_prop in E as [_ Hc].
  apply digit_range in Hc, Hd. lia.
Qed.

Lemma years_go_range (s : string) :
  forall skip prev,
  Forall (fun y => 2000 <= y <= 2099) (Historical.years_go skip prev s).
Proof.
  induction s as [| c s IH]; intros skip prev; cbn [Historical.years_go]; [constructor |].
  destruct skip as [| k]; [| apply IH].
  destruct (if prev then None else Historical.year_here (String c s)) as [y |] eqn:E;
    [| apply IH].
  constructor; [| apply IH].
  destruct prev; [discriminate |]. now apply (year_here_range (String c s)).
Qed.

Lemma months_from_range (names : list string) (query_lower : string) :
  forall i,
  Forall (fun m => i <= m < i + Z.of_nat (List.length names))
         (Historical.months_from i names query_lower).
Proof.
  induction names as [| name names IH]; intros i; cbn [Historical.months_from]; [constructor |].
  apply Forall_app. split.
  - destruct (Py.contains name query_lower); constructor; [| constructor].
    cbn [List.length]. lia.
  - eapply Forall_impl; [| apply IH]. cbn [List.length]. intros m Hm. lia.
Qed.

Lemma months_from_sorted (names : list string) (query_lower : string) :
  forall i, StronglySorted Z.lt (Historical.months_from i names query_lower).
Proof.
  induction names as [| name names IH]; intros i; cbn [Historical.months_from]; [constructor |].
  destruct (Py.contains name query_lower); cbn [app]; [| apply IH].
  constructor; [apply IH |].
  eapply Forall_impl; [| apply months_from_range]. intros m Hm. cbn beta in Hm. lia.
Qed.

(** X26: a date range whose second date starts with 20 never makes a
    date-range query: that date is itself found as a year, so the query is
    typed a year query. *)
Theorem date_range_of_this_century_is_a_year_query (query d1 d2 : string) :
  Historical.date_range (Historical.parse_historical_query query) = Some (d1, d2) ->
  Py.startswith "20" d2 = true ->
  Historical.years (Historical.parse_historical_query query) <> [] /\
  Historical.query_type (Historical.parse_historical_query query) = "year".
Proof.
  cbn [Historical.parse_historical_query Historical.date_range Historical.years
       Historical.query_type].
  intros H H20. pose proof (date_range_has_year _ _ _ H H20) as Hy.
  split; [exact Hy |].
  destruct (Historical.find_years query); [contradiction | reflexivity].
Qed.

Lemma date_range_of_this_century_is_a_year_query_witness :
  Historical.date_range
    (Historical.parse_historical_query "spending from 2023-01-01 to 2023-06-30")
  = Some ("2023-01-01", "2023-06-30") /\
  Historical.query_type
    (Historical.parse_historical_query "spending from 2023-01-01 to 2023-06-30") = "year".
Proof.
  split; [vm_compute; reflexivity |].
  apply (date_range_of_this_century_is_a_year_query
           "spending from 2023-01-01 to 2023-06-30" "2023-01-01" "2023-06-30");
    vm_compute; reflexivity.
Defined.

(** X27: when the message names a year, [_extract_historical_data] looks
    at nothing else of it: the months and the date range it names, the
    month and date-range extractors and the years of the file have no part
    in the result, which is the year's data, or the data of the years from
    the least to the greatest that are named, or the error dict when that
    extractor raises. *)
Theorem named_year_decides_the_extraction
  (extract_year_data : value -> result dict)
  (extract_year_range_data : value -> value -> result dict)
  (extract_month_data : value -> value -> result dict)
  (extract_date_range_data : string -> string -> result dict)
  (get_available_years : list value)
  (message : string) (y : Z) (ys : list Z) :
  Historical.find_years message = y :: ys ->
  Historical._extract_historical_data extract_year_data extract_year_range_data
    extract_month_data extract_date_range_data get_available_years message
  = match (match ys with
           | [] => extract_year_data (VInt y)
           | _ :: _ =>
               extract_year_range_data (VInt (fold_left Z.min ys y))
                                       (VInt (fold_left Z.max ys y))
           end) with
    | Ok d => d
    | Raise e => [("error", VStr (exn_msg e)); ("data_available", VBool false)]
    end.
Proof.
  intros Hy. unfold Historical._extract_historical_data, Historical.extract_body.
  cbn [Historical.parse_historical_query Historical.years Historical.query_type
       Historical.months Historical.date_range].
  rewrite Hy. cbn [String.eqb Ascii.eqb Bool.eqb].
  destruct ys; reflexivity.
Qed.

Lemma named_year_decides_the_extraction_witness :
  Historical.find_years "march 2022 against 2024 and 2019" = [2022; 2024; 2019] /\
  Historical._extract_historical_data
    (fun _ => Ok []) (fun lo hi => Ok [("from", lo); ("to", hi)])
    (fun _ _ => Ok []) (fun _ _ => Ok []) [] "march 2022 against 2024 and 2019"
  = [("from", VInt 2019); ("to", VInt 2024)].
Proof.
  split; [vm_compute; reflexivity |].
  apply (named_year_decides_the_extraction (fun _ => Ok [])
           (fun lo hi => Ok [("from", lo); ("to", hi)]) (fun _ _ => Ok []) (fun _ _ => Ok []) []
           "march 2022 against 2024 and 2019" 2022 [2024; 2019]).
  vm_compute; reflexivity.
Defined.

(** X28: whatever the query, the years [parse_historical_query] finds lie
    in 2000..2099 and the months it finds lie in 1..12, in calendar order
    and each once. *)
Theorem parsed_years_and_months_are_in_range (query : string) :
  Forall (fun y => 2000 <= y <= 2099)
         (Historical.years (Historical.parse_historical_query query)) /\
  Forall (fun m => 1 <= m <= 12)
         (Historical.months (Historical.parse_historical_query query)) /\
  StronglySorted Z.lt (Historical.months (Historical.parse_historical_query query)).
Proof.
  cbn [Historical.parse_historical_query Historical.years Historical.months].
  split; [apply years_go_range |]. split; [| apply months_from_sorted].
  eapply Forall_impl; [| apply months_from_range].
  intros m Hm. cbn in Hm. lia.
Qed.

Lemma as_c_int_fits (z : Z) :
  Historical.fits_c_int z = true -> Historical.as_c_int z = Ok z.
Proof.
  unfold Historical.fits_c_int, Historical.as_c_int. intros Hz.
  apply andb_prop in Hz as [Hlo Hhi]. apply Z.leb_le in Hlo, Hhi.
  replace (z <? -9223372036854775808) with false by (symmetry; apply Z.ltb_ge; lia).
  replace (9223372036854775807 <? z) with false by (symmetry; apply Z.ltb_ge; lia).
  replace (2147483647 <? z) with false by (symmetry; apply Z.ltb_ge; lia).
  replace (z <? -2147483648) with false by (symmetry; apply Z.ltb_ge; lia).
  reflexivity.
Qed.

Lemma as_c_int_overflow (z : Z) :
  Historical.fits_c_int z = false -> raises "OverflowError" (Historical.as_c_int z) = true.
Proof.
  unfold Historical.fits_c_int, Historical.as_c_int. intros Hz.
  destruct (_ || _); [reflexivity |].
  destruct (2147483647 <? z) eqn:Hhi; [reflexivity |].
  destruct (z <? -2147483648) eqn:Hlo; [reflexivity |].
  apply Z.ltb_ge in Hhi, Hlo. apply andb_false_iff in Hz as [Hz | Hz];
    apply Z.leb_gt in Hz; lia.
Qed.

(** The name of a month: given for a year in 1..9999 and a month in
    1..12, [OverflowError] when one of the two is no C int, and
    [ValueError] otherwise. *)
Lemma month_name_cases (year month : Z) :
  if (1 <=? year) && (year <=? 9999) && (1 <=? month) && (month <=? 12)
  then is_ok (Historical.month_name year month) = true
  else raises (if Historical.fits_c_int year && Historical.fits_c_int month
               then "ValueError" else "OverflowError")
              (Historical.month_name year month) = true.
Proof.
  unfold Historical.month_name.
  destruct (Historical.fits_c_int year) eqn:Hy.
  2:{ replace ((1 <=? year) && (year <=? 9999)) with false.
      - cbn [andb]. pose proof (as_c_int_overflow year Hy) as Ho.
        destruct (Historical.as_c_int year); [discriminate | exact Ho].
      - symmetry. unfold Historical.fits_c_int in Hy.
        apply andb_false_iff in Hy as [Hy | Hy]; apply Z.leb_gt in Hy;
          apply andb_false_iff; [left | right]; apply Z.leb_gt; lia. }
  rewrite (as_c_int_fits year Hy). cbn [rbind].
  destruct (Historical.fits_c_int month) eqn:Hm.
  2:{ rewrite <- andb_assoc. replace ((1 <=? month) && (month <=? 12)) with false.
      - rewrite andb_false_r.
        pose proof (as_c_int_overflow month Hm) as Ho.
        destruct (Historical.as_c_int month); [discriminate | exact Ho].
      - symmetry. unfold Historical.fits_c_int in Hm.
        apply andb_false_iff in Hm as [Hm | Hm]; apply Z.leb_gt in Hm;
          apply andb_false_iff; [left | right]; apply Z.leb_gt; lia. }
  rewrite (as_c_int_fits month Hm). cbn [rbind andb].
  destruct (1 <=? year) eqn:E1, (year <=? 9999) eqn:E2,
           (1 <=? month) eqn:E3, (month <=? 12) eqn:E4; cbn [andb];
    repeat match goal with
           | H : (_ <=? _) = true |- _ => apply Z.leb_le in H
           | H : (_ <=? _) = false |- _ => apply Z.leb_gt in H
           end;
    repeat match goal with
           | |- context [?a <? ?b] =>
               let E := fresh "E" in
               destruct (a <? b) eqn:E;
               [apply Z.ltb_lt in E | apply Z.ltb_ge in E]; try lia
           end;
    reflexivity.
Qed.

(** X29: [extract_month_data] builds the month's name on every path, the
    handler of its [try] included: with a year in 1..9999 and a month in
    1..12 it returns a dict whatever the file gives; with any other year
    or month it raises, in spite of its [try], [OverflowError] when one of
    the two is no C int and [ValueError] otherwise. *)
Theorem extract_month_data_needs_a_calendar_month
  (month_summary : Z -> Z -> result (option (value * value * value)))
  (year month : Z) :
  if (1 <=? year) && (year <=? 9999) && (1 <=? month) && (month <=? 12)
  then is_ok (Historical.extract_month_data month_summary year month) = true
  else raises (if Historical.fits_c_int year && Historical.fits_c_int month
               then "ValueError" else "OverflowError")
              (Historical.extract_month_data month_summary year month) = true.
Proof.
  pose proof (month_name_cases year month) as Hname.
  unfold Historical.extract_month_data, Historical.month_body, Historical.month_failure.
  destruct ((1 <=? year) && (year <=? 9999) && (1 <=? month) && (month <=? 12)).
  - destruct (Historical.month_name year month) as [name | e]; [| discriminate].
    destruct (month_summary year month) as [[[[? ?] ?] |] | e]; reflexivity.
  - destruct (Historical.month_name year month) as [name | e]; [discriminate |].
    destruct (month_summary year month) as [[[[? ?] ?] |] | e']; exact Hname.
Qed.

(* --------------------------------------------------------------------- *)
(** ** The configuration of the LLM client                                *)
(* --------------------------------------------------------------------- *)

Lemma lower_char_idem (c : ascii) : Py.lower_char (Py.lower_char c) = Py.lower_char c.
Proof.
  destruct c as [[] [] [] [] [] [] [] []]; vm_compute; reflexivity.
Qed.

Lemma lower_idem (s : string) : Py.lower (Py.lower s) = Py.lower s.
Proof.
  induction s as [| c s IH]; simpl; [reflexivity |].
  now rewrite lower_char_idem, IH.
Qed.

Lemma lower_nonempty (s : string) : s <> "" -> Py.lower s <> "".
Proof. destruct s; [contradiction | discriminate]. Qed.

Lemma or_str_nonempty (a b : string) : b <> "" -> LLMConfig.or_str a b <> "".
Proof. destruct a; [trivial | discriminate]. Qed.

(** X30: whatever the environment and the arguments, the client
    [LLMClient.__init__] builds has a Gemini model that names no 2.0 model
    and is not 1.5-flash, a provider that is not empty and is in lower
    case, and a payload style that is not empty and has no white space
    around it. *)
Theorem client_configuration_is_normalised
    (environ : string -> option string) (base_url : option string)
    (timeout retries : Z) (backoff_seconds : float) :
  let c := LLMConfig.__init__ environ base_url timeout retries backoff_seconds in
  Py.contains "2.0" (LLMClient.gemini_model c) = false /\
  LLMClient.gemini_model c <> "1.5-flash" /\
  LLMClient.provider c <> "" /\
  Py.lower (LLMClient.provider c) = LLMClient.provider c /\
  LLMClient.payload_style c <> "" /\
  Py.strip (LLMClient.payload_style c) = LLMClient.payload_style c.
Proof.
  cbv zeta.
  cbn [LLMConfig.__init__ LLMClient.gemini_model LLMClient.provider LLMClient.payload_style].
  remember (LLMConfig.getenv environ "GEMINI_MODEL" "gemini-flash-latest") as model_env.
  repeat split.
  - destruct (Py.contains "2.0" model_env) eqn:E1; cbn [orb]; [reflexivity |].
    destruct (String.eqb "1.5-flash" model_env); [reflexivity | exact E1].
  - destruct (Py.contains "2.0" model_env); cbn [orb]; [discriminate |].
    destruct (String.eqb "1.5-flash" model_env) eqn:E2; [discriminate |].
    intros Heq. rewrite Heq in E2. discriminate.
  - apply lower_nonempty, or_str_nonempty. discriminate.
  - apply lower_idem.
  - apply or_str_nonempty. discriminate.
  - destruct (Py.strip (Py.lower _)) as [| a r] eqn:E; cbn [LLMConfig.or_str];
      [reflexivity |].
    rewrite <- E. apply strip_idem.
Qed.
